(** * Organization migration: user and team moves between the standalone
    namespace and an organization, and their reversal.

    Shallow embedding of
      - apps/web/lib/orgMigration.ts                      (Module OrgMigration)
      - apps/web/pages/api/orgMigration/moveTeamToOrg.ts  (Module MoveTeamToOrg)
      - apps/web/pages/api/orgMigration/removeTeamFromOrg.ts (Module RemoveTeamFromOrg)
      - the removeUserFromOrg API route                   (Module RemoveUserFromOrg)

    The database is a record of four tables, each a finite map from the key
    the code addresses rows by to the row.  An operation is a function from
    the store to the store it leaves behind and either a value or the
    exception thrown: no step runs in a transaction, so the writes made
    before a throw stay in the store.  The handler of a route takes the
    session and the parsed body, which the code gets from outside these
    sources, and gives the store it leaves and the response it sends. *)

From Stdlib Require Import ZArith String Ascii.
From stdpp Require Import base decidable option list strings pretty gmap fin_maps.

Open Scope Z_scope.

(** ** Data model *)

(** [metadata.migratedToOrgFrom] of a user: a JSON object whose keys may be
    absent or null. *)
Record MigratedToOrgFrom := {
  mig_username : option string;
  reverted : option bool;
  revertTime : option string;
  lastMigrationTime : option string
}.

(** A user's [metadata] blob: the key the migration reads and writes, and the
    remaining keys, which the spread [...(metadata || {})] carries over. *)
Record UserMetadata := {
  migratedToOrgFrom : option MigratedToOrgFrom;
  otherKeys : list (string * string)
}.

Record User := {
  username : option string;
  email : string;
  organizationId : option Z;
  metadata : option UserMetadata
}.

Record TeamMetadata := {
  isOrganization : option bool;
  requestedSlug : option string;
  orgAutoAcceptEmail : option string
}.

Record Team := {
  slug : option string;
  parentId : option Z;
  team_metadata : option TeamMetadata
}.

(** Prisma enums are strings at run time. *)
Definition MembershipRole := string.

Record Membership := {
  role : MembershipRole;
  accepted : bool
}.

Module RedirectType.
Inductive t := User | Team.

#[global] Instance eq_dec : EqDecision t :=
  fun x y =>
    match x, y with
    | User, User => left eq_refl
    | Team, Team => left eq_refl
    | User, Team =>
        right (fun H : User = Team =>
                 match H in _ = z return match z with User => True | Team => False end
                 with eq_refl => I end)
    | Team, User =>
        right (fun H : Team = User =>
                 match H in _ = z return match z with Team => True | User => False end
                 with eq_refl => I end)
    end.

#[global] Instance countable : Countable t :=
  inj_countable'
    (fun x => match x with User => true | Team => false end)
    (fun b : bool => if b then User else Team)
    (fun x => match x with User => eq_refl | Team => eq_refl end).
End RedirectType.

(** The tables.  Users and teams are keyed by [id], memberships by the
    unique pair [userId_teamId], redirects by the unique triple
    [from_type_fromOrgId] (written here in the order type, from, fromOrgId). *)
Record Store := {
  users : gmap Z User;
  teams : gmap Z Team;
  memberships : gmap (Z * Z) Membership;
  redirects : gmap (RedirectType.t * string * Z) string
}.

Definition set_users (f : gmap Z User -> gmap Z User) (s : Store) : Store :=
  {| users := f (users s); teams := teams s;
     memberships := memberships s; redirects := redirects s |}.

Definition set_teams (f : gmap Z Team -> gmap Z Team) (s : Store) : Store :=
  {| users := users s; teams := f (teams s);
     memberships := memberships s; redirects := redirects s |}.

Definition set_memberships
    (f : gmap (Z * Z) Membership -> gmap (Z * Z) Membership) (s : Store) : Store :=
  {| users := users s; teams := teams s;
     memberships := f (memberships s); redirects := redirects s |}.

Definition set_redirects
    (f : gmap (RedirectType.t * string * Z) string ->
         gmap (RedirectType.t * string * Z) string) (s : Store) : Store :=
  {| users := users s; teams := teams s;
     memberships := memberships s; redirects := f (redirects s) |}.

(** ** JavaScript truthiness of nullable values *)

Definition truthy_string (o : option string) : bool :=
  match o with
  | Some s => negb (bool_decide (s = ""))
  | None => false
  end.

Definition truthy_number (o : option Z) : bool :=
  match o with
  | Some n => negb (bool_decide (n = 0))
  | None => false
  end.

Definition truthy_bool (o : option bool) : bool :=
  match o with
  | Some b => b
  | None => false
  end.

(** [a || b] on nullable strings. *)
Definition or_string (a b : option string) : option string :=
  if truthy_string a then a else b.

(** [a || b] where [b] is a string: the result is a string. *)
Definition or_default (a : option string) (b : string) : string :=
  match a with
  | Some s => if bool_decide (s = "") then b else s
  | None => b
  end.

(** Template-literal rendering of a possibly undefined number. *)
Definition show_number (o : option Z) : string :=
  match o with
  | Some n => pretty n
  | None => "undefined"
  end.

(** [(user.metadata || {}).migratedToOrgFrom] *)
Definition user_migratedToOrgFrom (u : User) : option MigratedToOrgFrom :=
  metadata u ≫= migratedToOrgFrom.

(** ** Exceptions and the store monad *)

(** What is thrown: the [HttpError] and the plain [Error] the code
    constructs itself, with the arguments it gives them, and the errors of
    the Prisma client. *)
Inductive exn :=
| HttpError (statusCode : Z) (message : string)
| Error (message : string)
| PrismaClientKnownRequestError (code : string)
| PrismaClientValidationError.

Inductive outcome (A : Type) :=
| Ok (a : A)
| Throw (e : exn).
Arguments Ok {A} a.
Arguments Throw {A} e.

Definition M (A : Type) : Type := Store -> Store * outcome A.

Definition ret {A} (a : A) : M A := fun s => (s, Ok a).

Definition throw {A} (e : exn) : M A := fun s => (s, Throw e).

Definition bind {A B} (m : M A) (k : A -> M B) : M B :=
  fun s =>
    match m s with
    | (s', Ok a) => k a s'
    | (s', Throw e) => (s', Throw e)
    end.

(** [try { m } catch (e) { h e }] *)
Definition try_catch {A} (m : M A) (h : exn -> M A) : M A :=
  fun s =>
    match m s with
    | (s', Ok a) => (s', Ok a)
    | (s', Throw e) => h e s'
    end.

Definition read {A} (f : Store -> A) : M A := fun s => (s, Ok (f s)).

Definition write (f : Store -> Store) : M unit := fun s => (f s, Ok tt).

Declare Scope store_scope.
Delimit Scope store_scope with store.
Notation "'let*' x ':=' m 'in' k" := (bind m (fun x => k))
  (at level 10, x name, m at level 100, k at level 200) : store_scope.
Notation "m ';;;' k" := (bind m (fun _ => k))
  (at level 100, k at level 200, right associativity) : store_scope.
Open Scope store_scope.

(** [for (const x of l) { await body x }] *)
Fixpoint for_each {A} (l : list A) (body : A -> M unit) : M unit :=
  match l with
  | [] => ret tt
  | x :: l' => body x ;;; for_each l' body
  end.

(** The values of an Int column, which the ids of the rows are. *)
Definition Int_range (id : Z) : Prop := -2147483648 <= id <= 2147483647.

#[global] Instance Int_range_dec id : Decision (Int_range id).
Proof. unfold Int_range. apply _. Defined.

(** ** The Prisma client calls the code makes

    Reads scan a table in the table's own order ([map_to_list]); Prisma
    leaves the order of an unordered query unspecified.  [findUnique]
    answers the row of an id.  The ids of the rows are values of the Int
    column, so a row that is found has an id within [Int_range]; an id
    without a row is answered null when it is within the range, and
    refused with P2020 (value out of range for the type) when it is not.
    [update] and [delete] of one row raise P2025 when the row is missing;
    [updateMany] and [deleteMany] accept zero matching rows.  The secondary
    unique indexes of the schema (declared outside these sources) are not
    part of the store: a write to an existing row is accepted, where the
    database refuses with P2002 a team write that would give two teams the
    same slug under the same parent.  A run of the model is therefore a
    run of the program on which the database accepts the team writes; the
    properties that depend on it are stated on the outcome of the call. *)
Module prisma.

Definition P2025 : exn := PrismaClientKnownRequestError "P2025".

Definition P2020 : exn := PrismaClientKnownRequestError "P2020".

Module user.
Definition findUnique (id : option Z) : M (option (Z * User)) :=
  match id with
  | Some i =>
      fun s =>
        match users s !! i with
        | Some u => (s, Ok (Some (i, u)))
        | None => if decide (Int_range i) then (s, Ok None) else (s, Throw P2020)
        end
  | None => throw PrismaClientValidationError
  end.

Definition findMany (P : Z * User -> Prop) `{forall r, Decision (P r)}
  : M (list (Z * User)) :=
  read (fun s => filter P (map_to_list (users s))).

Definition findFirst (P : Z * User -> Prop) `{forall r, Decision (P r)}
  : M (option (Z * User)) :=
  read (fun s => head (filter P (map_to_list (users s)))).

Definition update (id : Z) (data : User -> User) : M unit :=
  fun s =>
    match users s !! id with
    | Some u => (set_users (insert id (data u)) s, Ok tt)
    | None => (s, Throw P2025)
    end.
End user.

Module team.
Definition findUnique (id : Z) : M (option (Z * Team)) :=
  fun s =>
    match teams s !! id with
    | Some t => (s, Ok (Some (id, t)))
    | None => if decide (Int_range id) then (s, Ok None) else (s, Throw P2020)
    end.

Definition findMany (P : Z * Team -> Prop) `{forall r, Decision (P r)}
  : M (list (Z * Team)) :=
  read (fun s => filter P (map_to_list (teams s))).

Definition update (id : Z) (data : Team -> Team) : M (Z * Team) :=
  fun s =>
    match teams s !! id with
    | Some t => (set_teams (insert id (data t)) s, Ok (id, data t))
    | None => (s, Throw P2025)
    end.

Definition updateMany (P : Z -> Prop) `{forall i, Decision (P i)}
    (data : Team -> Team) : M unit :=
  write (set_teams
           (map_imap (fun i t => Some (if decide (P i) then data t else t)))).
End team.

Module membership.
Definition findMany (P : (Z * Z) * Membership -> Prop)
    `{forall r, Decision (P r)} : M (list ((Z * Z) * Membership)) :=
  read (fun s => filter P (map_to_list (memberships s))).

Definition upsert (userId teamId : Z) (create : Membership)
    (update : Membership -> Membership) : M unit :=
  fun s =>
    match memberships s !! (userId, teamId) with
    | Some m => (set_memberships (insert (userId, teamId) (update m)) s, Ok tt)
    | None => (set_memberships (insert (userId, teamId) create) s, Ok tt)
    end.

Definition delete (userId teamId : Z) : M unit :=
  fun s =>
    match memberships s !! (userId, teamId) with
    | Some _ => (set_memberships (base.delete (userId, teamId)) s, Ok tt)
    | None => (s, Throw P2025)
    end.
End membership.

Module tempOrgRedirect.
Definition upsert (type : RedirectType.t) (from : string) (fromOrgId : Z)
    (toUrl : string) : M unit :=
  write (set_redirects (insert (type, from, fromOrgId) toUrl)).

Definition deleteMany (type : RedirectType.t) (from : string) (fromOrgId : Z)
  : M unit :=
  write (set_redirects (base.delete (type, from, fromOrgId))).
End tempOrgRedirect.

End prisma.

(** Modelled from the spec: [teamMetadataSchema.parse] of
    @calcom/prisma/zod-utils is outside these sources.  The spec lists the
    optional keys [isOrganization], [requestedSlug] and [orgAutoAcceptEmail]
    and has the blob validated at the store boundary, so a stored team
    metadata is taken as already of that shape and parsing returns it. *)
Definition teamMetadataSchema_parse (m : option TeamMetadata) : option TeamMetadata := m.

(** [teamMetadata?.isOrganization] as a condition. *)
Definition is_organization (m : option TeamMetadata) : bool :=
  truthy_bool (m ≫= isOrganization).

(** ** apps/web/lib/orgMigration.ts *)
Module OrgMigration.
Section OrgMigration.

(** Imported from outside these sources: the origin of an organization's
pages for a slug, and the username derived from an email address and
the organization's auto-accept domain. *)
Variable getOrgFullOrigin : string -> string.
Variable getOrgUsernameFromEmail : string -> string -> string.

Definition assertUserIdOrUserName (userId : option Z) (userName : option string)
: M unit :=
if negb (truthy_number userId) && negb (truthy_string userName) then
throw (HttpError 400 "userId or userName is required")
else if truthy_number userId && truthy_string userName then
throw (HttpError 400 "Provide either userId or userName")
else ret tt.

Definition getTeamOrThrowError (targetOrgId : Z) : M (Z * Team) :=
let* team := prisma.team.findUnique targetOrgId in
match team with
| None =>
  throw (HttpError 400 ("Org with id: " +:+ pretty targetOrgId +:+ " not found"))
| Some team => ret team
end.

Definition getUniqueUserThatDoesntBelongToOrg
(userName : option string) (userId : option Z) (excludeOrgId : Z)
: M (option (Z * User)) :=
if truthy_string userName then
let* matchingUsers :=
  prisma.user.findMany (fun r => username r.2 = userName) in
let foundUsers :=
  filter (fun r : Z * User =>
            organizationId r.2 = Some excludeOrgId \/ organizationId r.2 = None)
         matchingUsers in
if bool_decide (1 < length foundUsers)%nat then
  throw (Error ("More than one user found with username: "
                +:+ default "" userName))
else ret (head foundUsers)
else
prisma.user.findUnique userId.

Definition assertUserPartOfOtherOrg
(userToMoveToOrg : option (Z * User)) (userName : option string)
(userId : option Z) (targetOrgId : Z) : M (Z * User) :=
match userToMoveToOrg with
| None =>
  throw (HttpError 400
           ("User "
            +:+ (if truthy_string userName then default "" userName
                 else "ID:" +:+ show_number userId)
            +:+ " is part of an org already"))
| Some u =>
  if truthy_number (organizationId u.2)
     && negb (bool_decide (organizationId u.2 = Some targetOrgId))
  then throw (HttpError 400 "User is already a part of an organization")
  else ret u
end.

Definition assertUserPartOfOrgAndRemigrationAllowed
(userToMoveToOrg : Z * User) (targetOrgId : Z) (targetOrgUsername : string)
(userId : option Z) : M unit :=
if truthy_number (organizationId userToMoveToOrg.2) then
if negb (bool_decide (organizationId userToMoveToOrg.2 = Some targetOrgId)) then
  throw (HttpError 400
           ("User " +:+ targetOrgUsername
            +:+ " already exists for different Org with orgId: "
            +:+ pretty targetOrgId))
else ret tt
else ret tt.

Definition updateUser (now : string) (userToMoveToOrg : Z * User)
(targetOrgId : Z) (targetOrgUsername : string) (nonOrgUserName : string)
: M unit :=
prisma.user.update userToMoveToOrg.1
(fun row =>
   {| username := Some targetOrgUsername;
      email := email row;
      organizationId := Some targetOrgId;
      metadata :=
        Some {| migratedToOrgFrom :=
                  Some {| mig_username := Some nonOrgUserName;
                          reverted := None;
                          revertTime := None;
                          lastMigrationTime := Some now |};
                otherKeys :=
                  match metadata userToMoveToOrg.2 with
                  | Some md => otherKeys md
                  | None => []
                  end |} |}).

(** The rows [updateTeams] selects: the teams the user has a membership
of, without the organizations.  The select keeps id, slug and
metadata; the callers read only the slug. *)
Definition updateTeams (targetOrgId : Z) (userToMoveToOrg : Z * User)
: M (list (Z * Team)) :=
let* memberships :=
prisma.membership.findMany (fun r => r.1.1 = userToMoveToOrg.1) in
let membershipTeamIds := (fun r : (Z * Z) * Membership => r.1.2) <$> memberships in
let* teams := prisma.team.findMany (fun r => r.1 ∈ membershipTeamIds) in
let teamsToBeMovedToOrg :=
filter (fun r : Z * Team =>
          ¬ is_organization (teamMetadataSchema_parse (team_metadata r.2)))
       teams in
let teamIdsToBeMovedToOrg := fst <$> teamsToBeMovedToOrg in
(if bool_decide (length memberships ≠ 0%nat) then
 prisma.team.updateMany (fun i => i ∈ teamIdsToBeMovedToOrg)
   (fun t => {| slug := slug t; parentId := Some targetOrgId;
                team_metadata := team_metadata t |})
 else ret tt) ;;;
ret teamsToBeMovedToOrg.

Definition updateMembership (targetOrgId : Z) (userToMoveToOrg : Z * User)
(targetOrgRole : MembershipRole) (targetOrgMembershipAccepted : bool)
: M unit :=
prisma.membership.upsert userToMoveToOrg.1 targetOrgId
{| role := targetOrgRole; accepted := targetOrgMembershipAccepted |}
(fun _ => {| role := targetOrgRole; accepted := targetOrgMembershipAccepted |}).

Definition addRedirect (nonOrgUserName : option string) (organization : Z * Team)
(targetOrgUsername : string) (teamsToBeMovedToOrg : list (Z * Team))
: M unit :=
if negb (truthy_string nonOrgUserName) then ret tt
else
let orgSlug :=
  or_string (slug organization.2)
            (team_metadata organization.2 ≫= requestedSlug) in
if negb (truthy_string orgSlug) then ret tt
else
  let orgUrlPrefix := getOrgFullOrigin (default "" orgSlug) in
  prisma.tempOrgRedirect.upsert RedirectType.User
    (default "" nonOrgUserName) 0
    (orgUrlPrefix +:+ "/" +:+ targetOrgUsername) ;;;
  for_each teamsToBeMovedToOrg
    (fun team =>
       if negb (truthy_string (slug team.2)) then ret tt
       else
         prisma.tempOrgRedirect.upsert RedirectType.Team
           (default "" (slug team.2)) 0
           (orgUrlPrefix +:+ "/team/" +:+ default "" (slug team.2))).

Definition setOrgSlug (targetOrgId : Z) (targetSlug : string) : M unit :=
prisma.team.update targetOrgId
(fun t => {| slug := Some targetSlug; parentId := parentId t;
             team_metadata := team_metadata t |}) ;;;
ret tt.

Definition setOrgSlugIfNotSet (targetOrganization_slug : option string)
(orgMetadata : option TeamMetadata) (targetOrgId : Z) : M unit :=
if truthy_string targetOrganization_slug then ret tt
else if negb (truthy_string (orgMetadata ≫= requestedSlug)) then
throw (HttpError 400
         ("Org with id: " +:+ pretty targetOrgId
          +:+ " doesn't have a slug. Tried using requestedSlug but that's also not present. So, all migration done but failed to set the Organization slug. Please set it manually"))
else
setOrgSlug targetOrgId (default "" (orgMetadata ≫= requestedSlug)).

(** The argument object [{ user: { id, userName }, targetOrg: { id,
username, membership: { role, accepted = true } } }], flattened.
[now] is the reading of the clock, [new Date().toISOString()]. *)
Record Args := {
userId : option Z;
userName : option string;
targetOrgId : Z;
targetOrgUsername : option string;
targetOrgRole : MembershipRole;
targetOrgMembershipAccepted : option bool
}.

Definition migrateUserToOrg (now : string) (a : Args) : M unit :=
let targetOrgMembershipAccepted := default true (targetOrgMembershipAccepted a) in
assertUserIdOrUserName (userId a) (userName a) ;;;
let* team := getTeamOrThrowError (targetOrgId a) in
let teamMetadata := teamMetadataSchema_parse (team_metadata team.2) in
if negb (is_organization teamMetadata) then
throw (Error (pretty (targetOrgId a) +:+ " is not an Org"))
else
let targetOrganization :=
  (team.1, {| slug := slug team.2; parentId := parentId team.2;
              team_metadata := teamMetadata |}) in
let* userToMoveToOrg :=
  getUniqueUserThatDoesntBelongToOrg (userName a) (userId a) (targetOrgId a) in
let* userToMoveToOrg :=
  assertUserPartOfOtherOrg userToMoveToOrg (userName a) (userId a)
                           (targetOrgId a) in
let targetOrgUsername :=
  if truthy_string (targetOrgUsername a)
  then default "" (targetOrgUsername a)
  else getOrgUsernameFromEmail
         (email userToMoveToOrg.2)
         (or_default (teamMetadata ≫= orgAutoAcceptEmail) "") in
let* userWithSameUsernameInOrg :=
  prisma.user.findFirst
    (fun r => username r.2 = Some targetOrgUsername
              /\ organizationId r.2 = Some (targetOrgId a)) in
if match userWithSameUsernameInOrg with
   | Some r => negb (bool_decide (Some r.1 = userId a))
   | None => false
   end
then
  throw (HttpError 400
           ("Username " +:+ targetOrgUsername
            +:+ " already exists for orgId: " +:+ pretty (targetOrgId a)
            +:+ " for some other user"))
else
  assertUserPartOfOrgAndRemigrationAllowed
    userToMoveToOrg (targetOrgId a) targetOrgUsername (userId a) ;;;
  let orgMetadata := teamMetadata in
  let nonOrgUserName :=
    or_string (user_migratedToOrgFrom userToMoveToOrg.2 ≫= mig_username)
              (username userToMoveToOrg.2) in
  if negb (truthy_string nonOrgUserName) then
    throw (HttpError 400
             ("User with id: " +:+ show_number (userId a)
              +:+ " doesn't have a non-org username"))
  else
    updateUser now userToMoveToOrg (targetOrgId a) targetOrgUsername
               (default "" nonOrgUserName) ;;;
    let* teamsToBeMovedToOrg := updateTeams (targetOrgId a) userToMoveToOrg in
    updateMembership (targetOrgId a) userToMoveToOrg (targetOrgRole a)
                     targetOrgMembershipAccepted ;;;
    addRedirect nonOrgUserName targetOrganization targetOrgUsername
                teamsToBeMovedToOrg ;;;
    setOrgSlugIfNotSet (slug targetOrganization.2) orgMetadata (targetOrgId a).

End OrgMigration.
End OrgMigration.

(** What the three API handlers answer when the operation throws: the
    status code of an [HttpError], and 500 for anything else. *)
Definition responseStatus (e : exn) : Z :=
  match e with
  | HttpError statusCode _ => statusCode
  | _ => 500
  end.

(** ** What an API handler is given and what it answers *)

(** The session [getSession] hands back, down to [session.user.role].  The
    enum [UserPermissionRole] is declared with the Prisma schema, outside
    these sources; a Prisma enum is the string of its name at run time. *)
Record Session := { user_role : string }.

Module UserPermissionRole.
Definition ADMIN : string := "ADMIN".
End UserPermissionRole.

(** The result of [safeParse] on the request body: the parsed data, or the
    error, held here as [JSON.stringify] renders it. *)
Inductive SafeParse (A : Type) :=
| ParseSuccess (data : A)
| ParseFailure (error : string).
Arguments ParseSuccess {A} data.
Arguments ParseFailure {A} error.

(** [res.status(status).json({ message })] *)
Record Response := { status : Z; message : string }.

(** [(error as any)?.message].  The text the Prisma client gives its own
    errors is outside these sources: [prismaMessage]. *)
Definition errorMessage (prismaMessage : exn -> string) (error : exn) : string :=
  match error with
  | HttpError _ m => m
  | Error m => m
  | _ => prismaMessage error
  end.

(** The catch block of the three handlers, which differ in their log lines
    only: an [HttpError] is answered with its own status code and message,
    anything else with 500. *)
Definition caught (prismaMessage : exn -> string) (error : exn) : Response :=
  match error with
  | HttpError statusCode m => {| status := statusCode; message := m |}
  | _ => {| status := 500; message := errorMessage prismaMessage error |}
  end.

(** ** apps/web/pages/api/orgMigration/moveTeamToOrg.ts *)
Module MoveTeamToOrg.
Section MoveTeamToOrg.

Variable getOrgFullOrigin : string -> string.
Variable getOrgUsernameFromEmail : string -> string -> string.

Definition getTeamOrThrowError (targetOrgId : Z) : M (Z * Team) :=
let* team := prisma.team.findUnique targetOrgId in
match team with
| None =>
  throw (HttpError 400 ("Org with id: " +:+ pretty targetOrgId +:+ " not found"))
| Some team => ret team
end.

(** The team is read with [include: { members: true }]: the row and the
memberships whose [teamId] is the team's id.  The row returned is the
one read, before the update. *)
Definition updateTeam (teamId targetOrgId : Z)
: M ((Z * Team) * list ((Z * Z) * Membership)) :=
let* team := prisma.team.findUnique teamId in
let* members := prisma.membership.findMany (fun r => r.1.2 = teamId) in
match team with
| None =>
  throw (HttpError 400 ("Team with id: " +:+ pretty teamId +:+ " not found"))
| Some team =>
  if bool_decide (parentId team.2 = Some targetOrgId) then ret (team, members)
  else
    prisma.team.update teamId
      (fun t => {| slug := slug t; parentId := Some targetOrgId;
                   team_metadata := team_metadata t |}) ;;;
    ret (team, members)
end.

Definition addRedirect (teamSlug orgSlug : option string) : M unit :=
if negb (truthy_string teamSlug) then
throw (HttpError 400 "No slug for team. Not removing the redirect")
else if negb (truthy_string orgSlug) then ret tt
else
let orgUrlPrefix := getOrgFullOrigin (default "" orgSlug) in
prisma.tempOrgRedirect.upsert RedirectType.Team (default "" teamSlug) 0
  (orgUrlPrefix +:+ "/" +:+ default "" teamSlug).

Definition setOrgSlug (targetOrgId : Z) (targetSlug : string) : M unit :=
prisma.team.update targetOrgId
(fun t => {| slug := Some targetSlug; parentId := parentId t;
             team_metadata := team_metadata t |}) ;;;
ret tt.

Definition setOrgSlugIfNotSet (orgSlug : option string)
(orgMetadata : option TeamMetadata) (targetOrgId : Z) : M unit :=
if truthy_string orgSlug then ret tt
else if negb (truthy_string (orgMetadata ≫= requestedSlug)) then
throw (HttpError 400
         ("Org with id: " +:+ pretty targetOrgId
          +:+ " doesn't have a slug. Tried using requestedSlug but that's also not present. So, all migration done but failed to set the Organization slug. Please set it manually"))
else
setOrgSlug targetOrgId (default "" (orgMetadata ≫= requestedSlug)).

Definition moveTeamToOrg (now : string) (targetOrgId teamId : Z)
(moveMembers : option bool) : M unit :=
let* possibleOrg := getTeamOrThrowError targetOrgId in
let* movedTeam := updateTeam teamId targetOrgId in
let teamMetadata := teamMetadataSchema_parse (team_metadata possibleOrg.2) in
if negb (is_organization teamMetadata) then
throw (Error (pretty targetOrgId +:+ " is not an Org"))
else
let targetOrganization := possibleOrg in
let orgMetadata := teamMetadata in
addRedirect (slug movedTeam.1.2)
  (or_string (or_string (slug targetOrganization.2)
                        (orgMetadata ≫= requestedSlug)) None) ;;;
setOrgSlugIfNotSet (slug targetOrganization.2) orgMetadata targetOrgId ;;;
if truthy_bool moveMembers then
  for_each movedTeam.2
    (fun membership =>
       OrgMigration.migrateUserToOrg getOrgFullOrigin getOrgUsernameFromEmail now
         {| OrgMigration.userId := Some membership.1.1;
            OrgMigration.userName := None;
            OrgMigration.targetOrgId := targetOrgId;
            OrgMigration.targetOrgUsername := None;
            OrgMigration.targetOrgRole := role membership.2;
            OrgMigration.targetOrgMembershipAccepted :=
              Some (accepted membership.2) |})
else ret tt.

Variable prismaMessage : exn -> string.

(** [parsedBody.data] *)
Record Body := { teamId : Z; targetOrgId : Z; moveMembers : option bool }.

(** The route's handler, given the session and the parsed body. *)
Definition handler (now : string) (session : option Session)
(parsedBody : SafeParse Body) : Store -> Store * Response :=
fun s =>
match session with
| None => (s, {| status := 403; message := "No session found" |})
| Some session =>
  let isAdmin := bool_decide (user_role session = UserPermissionRole.ADMIN) in
  match parsedBody with
  | ParseFailure error => (s, {| status := 400; message := error |})
  | ParseSuccess data =>
    let isAllowed := isAdmin in
    if negb isAllowed then (s, {| status := 403; message := "Not Authorized" |})
    else
      match moveTeamToOrg now (targetOrgId data) (teamId data) (moveMembers data) s with
      | (s', Throw error) => (s', caught prismaMessage error)
      | (s', Ok _) =>
        (s', {| status := 200;
                message :=
                  "Added team " +:+ pretty (teamId data) +:+ " to Org: "
                  +:+ pretty (targetOrgId data) +:+ " "
                  +:+ (if truthy_bool (moveMembers data)
                       then " along with the members"
                       else " without the members") |})
      end
  end
end.

End MoveTeamToOrg.
End MoveTeamToOrg.

(** ** apps/web/pages/api/orgMigration/removeTeamFromOrg.ts *)
Module RemoveTeamFromOrg.

Definition removeRedirect (teamSlug : option string) : M unit :=
  if negb (truthy_string teamSlug) then
    throw (HttpError 400 "No slug for team. Not removing the redirect")
  else
    prisma.tempOrgRedirect.deleteMany RedirectType.Team (default "" teamSlug) 0.

(** Returns the slug of the team: of the row read when the team is not
    under [targetOrgId], of the updated row otherwise. *)
Definition updateTeam (teamId targetOrgId : Z) : M (option string) :=
  let* team := prisma.team.findUnique teamId in
  match team with
  | None =>
      throw (HttpError 400 ("Team with id: " +:+ pretty teamId +:+ " not found"))
  | Some team =>
      if negb (bool_decide (parentId team.2 = Some targetOrgId)) then
        ret (slug team.2)
      else
        try_catch
          (let* updated :=
             prisma.team.update teamId
               (fun t => {| slug := slug t; parentId := None;
                            team_metadata := team_metadata t |}) in
           ret (slug updated.2))
          (fun e =>
             match e with
             | PrismaClientKnownRequestError code =>
                 if bool_decide (code = "P2002") then
                   throw (HttpError 400 "Looks like the team's name is already taken by some other team outside the org or an org itself. Please change this team's name or the other team/org's name. If you rename the team that you are trying to remove from the org, you will have to manually remove the redirect from the database for that team as the slug would have changed.")
                 else throw e
             | _ => throw e
             end)
  end.

Definition removeTeamFromOrg (targetOrgId teamId : Z) : M unit :=
  let* removedTeam_slug := updateTeam teamId targetOrgId in
  removeRedirect removedTeam_slug.

Section Handler.
Variable prismaMessage : exn -> string.

(** [parsedBody.data] *)
Record Body := { teamId : Z; targetOrgId : Z }.

(** The route's handler, given the session and the parsed body. *)
Definition handler (session : option Session) (parsedBody : SafeParse Body)
  : Store -> Store * Response :=
fun s =>
match session with
| None => (s, {| status := 403; message := "No session found" |})
| Some session =>
  let isAdmin := bool_decide (user_role session = UserPermissionRole.ADMIN) in
  match parsedBody with
  | ParseFailure error => (s, {| status := 400; message := error |})
  | ParseSuccess data =>
    let isAllowed := isAdmin in
    if negb isAllowed then (s, {| status := 403; message := "Not Authorized" |})
    else
      match removeTeamFromOrg (targetOrgId data) (teamId data) s with
      | (s', Throw error) => (s', caught prismaMessage error)
      | (s', Ok _) =>
        (s', {| status := 200;
                message :=
                  "Removed team " +:+ pretty (teamId data) +:+ " from "
                  +:+ pretty (targetOrgId data) |})
      end
  end
end.

End Handler.
End RemoveTeamFromOrg.

(** ** The removeUserFromOrg API route *)
Module RemoveUserFromOrg.

Definition removeRedirect (nonOrgUserName : option string)
    (teamsToBeRemovedFromOrg : list (Z * Team)) : M unit :=
  if negb (truthy_string nonOrgUserName) then ret tt
  else
    prisma.tempOrgRedirect.deleteMany RedirectType.User
      (default "" nonOrgUserName) 0 ;;;
    for_each teamsToBeRemovedFromOrg
      (fun team =>
         if negb (truthy_string (slug team.2)) then ret tt
         else
           prisma.tempOrgRedirect.deleteMany RedirectType.Team
             (default "" (slug team.2)) 0).

Definition removeMembership (targetOrgId : Z) (userToRemoveFromOrg : Z * User)
  : M unit :=
  prisma.membership.delete userToRemoveFromOrg.1 targetOrgId.

Definition updateUser (now : string) (userToRemoveFromOrg : Z * User)
    (nonOrgUserName : string) : M unit :=
  prisma.user.update userToRemoveFromOrg.1
    (fun row =>
       {| username := Some nonOrgUserName;
          email := email row;
          organizationId := None;
          metadata :=
            Some {| migratedToOrgFrom :=
                      Some {| mig_username := None;
                              reverted := Some true;
                              revertTime := Some now;
                              lastMigrationTime := None |};
                    otherKeys :=
                      match metadata userToRemoveFromOrg.2 with
                      | Some md => otherKeys md
                      | None => []
                      end |} |}).

Definition updateTeams (userToRemoveFromOrg : Z * User) : M (list (Z * Team)) :=
  let* memberships :=
    prisma.membership.findMany (fun r => r.1.1 = userToRemoveFromOrg.1) in
  let membershipTeamIds := (fun r : (Z * Z) * Membership => r.1.2) <$> memberships in
  let* teams := prisma.team.findMany (fun r => r.1 ∈ membershipTeamIds) in
  let teamsToBeRemovedFromOrg :=
    filter (fun r : Z * Team =>
              ¬ is_organization (teamMetadataSchema_parse (team_metadata r.2)))
           teams in
  let teamIdsToBeRemovedFromOrg := fst <$> teamsToBeRemovedFromOrg in
  (if bool_decide (length memberships ≠ 0%nat) then
     prisma.team.updateMany (fun i => i ∈ teamIdsToBeRemovedFromOrg)
       (fun t => {| slug := slug t; parentId := None;
                    team_metadata := team_metadata t |})
   else ret tt) ;;;
  ret teamsToBeRemovedFromOrg.

Definition removeFromOrg (now : string) (targetOrgId userId : Z) : M unit :=
  let* userToRemoveFromOrg := prisma.user.findUnique (Some userId) in
  match userToRemoveFromOrg with
  | None =>
      throw (HttpError 400 ("User with id: " +:+ pretty userId +:+ " not found"))
  | Some userToRemoveFromOrg =>
      if negb (bool_decide (organizationId userToRemoveFromOrg.2 = Some targetOrgId))
      then
        throw (HttpError 400
                 ("User with id: " +:+ pretty userId
                  +:+ " is not part of orgId: " +:+ pretty targetOrgId))
      else
        match user_migratedToOrgFrom userToRemoveFromOrg.2 with
        | None =>
            throw (HttpError 400
                     ("User with id: " +:+ pretty userId
                      +:+ " wasn't migrated. So, there is nothing to revert"))
        | Some migratedToOrgFrom =>
            if truthy_bool (reverted migratedToOrgFrom) then
              throw (HttpError 400
                       ("User with id: " +:+ pretty userId
                        +:+ " is already reverted"))
            else
              let nonOrgUserName := mig_username migratedToOrgFrom in
              if negb (truthy_string nonOrgUserName) then
                throw (HttpError 500
                         ("User with id: " +:+ pretty userId
                          +:+ " doesn't have a non-org username"))
              else
                let* teamsToBeRemovedFromOrg := updateTeams userToRemoveFromOrg in
                updateUser now userToRemoveFromOrg (default "" nonOrgUserName) ;;;
                removeRedirect nonOrgUserName teamsToBeRemovedFromOrg ;;;
                removeMembership targetOrgId userToRemoveFromOrg
        end
  end.

Section Handler.
Variable prismaMessage : exn -> string.

(** [parsedBody.data] *)
Record Body := { userId : Z; targetOrgId : Z }.

(** The route's handler, given the session and the parsed body.  Here the
    administrator check comes before the look at the parsed body. *)
Definition handler (now : string) (session : option Session)
    (parsedBody : SafeParse Body) : Store -> Store * Response :=
fun s =>
match session with
| None => (s, {| status := 403; message := "No session found" |})
| Some session =>
  let isAdmin := bool_decide (user_role session = UserPermissionRole.ADMIN) in
  if negb isAdmin then
    (s, {| status := 403; message := "Only admin can take this action" |})
  else
    match parsedBody with
    | ParseSuccess data =>
      match removeFromOrg now (targetOrgId data) (userId data) s with
      | (s', Throw error) => (s', caught prismaMessage error)
      | (s', Ok _) => (s', {| status := 200; message := "Reverted" |})
      end
    | ParseFailure error => (s, {| status := 400; message := error |})
    end
end.

End Handler.
End RemoveUserFromOrg.


(** ** Notions the properties are stated with *)

(** The rows both [updateTeams] select for a user: the teams the user has a
    membership of, without the organizations. *)
Definition memberTeams (uid : Z) (s : Store) : list (Z * Team) :=
  filter (fun r : Z * Team =>
            ¬ is_organization (teamMetadataSchema_parse (team_metadata r.2)))
    (filter (fun r : Z * Team =>
               r.1 ∈ ((fun r : (Z * Z) * Membership => r.1.2) <$>
                        filter (fun r : (Z * Z) * Membership => r.1.1 = uid)
                               (map_to_list (memberships s))))
            (map_to_list (teams s))).

(** A team row with its parent replaced. *)
Definition reparent (p : option Z) (t : Team) : Team :=
  {| slug := slug t; parentId := p; team_metadata := team_metadata t |}.

(** The user row [updateUser] of the migration writes. *)
Definition migrated_user (now : string) (targetOrgId : Z) (name : string)
    (u : User) (nonOrgUserName : string) : User :=
  {| username := Some name;
     email := email u;
     organizationId := Some targetOrgId;
     metadata :=
       Some {| migratedToOrgFrom :=
                 Some {| mig_username := Some nonOrgUserName; reverted := None;
                         revertTime := None; lastMigrationTime := Some now |};
               otherKeys := match metadata u with
                            | Some md => otherKeys md
                            | None => []
                            end |} |}.

(** The user row [updateUser] of the reversal writes. *)
Definition reverted_user (now : string) (u : User) (nonOrgUserName : string) : User :=
  {| username := Some nonOrgUserName;
     email := email u;
     organizationId := None;
     metadata :=
       Some {| migratedToOrgFrom :=
                 Some {| mig_username := None; reverted := Some true;
                         revertTime := Some now; lastMigrationTime := None |};
               otherKeys := match metadata u with
                            | Some md => otherKeys md
                            | None => []
                            end |} |}.

(** One turn of the loop of [removeRedirect] in the user reversal. *)
Definition drop_team_redirect (r : gmap (RedirectType.t * string * Z) string)
    (team : Z * Team) : gmap (RedirectType.t * string * Z) string :=
  if truthy_string (slug team.2)
  then delete (RedirectType.Team, default "" (slug team.2), 0) r
  else r.

(** One turn of the loop of [addRedirect] in the user migration. *)
Definition add_team_redirect (prefix : string)
    (r : gmap (RedirectType.t * string * Z) string) (team : Z * Team)
  : gmap (RedirectType.t * string * Z) string :=
  if truthy_string (slug team.2)
  then <[(RedirectType.Team, default "" (slug team.2), 0) :=
           prefix +:+ "/team/" +:+ default "" (slug team.2)]> r
  else r.

(** The redirect table [addRedirect] of the user migration leaves. *)
Definition added_redirects (getOrgFullOrigin : string -> string)
    (n : string) (org : Team) (name : string) (l : list (Z * Team))
    (r : gmap (RedirectType.t * string * Z) string)
  : gmap (RedirectType.t * string * Z) string :=
  let orgSlug := or_string (slug org) (team_metadata org ≫= requestedSlug) in
  if truthy_string orgSlug then
    foldl (add_team_redirect (getOrgFullOrigin (default "" orgSlug)))
          (<[(RedirectType.User, n, 0) :=
               getOrgFullOrigin (default "" orgSlug) +:+ "/" +:+ name]> r) l
  else r.

(** The candidate [getUniqueUserThatDoesntBelongToOrg] resolves. *)
Definition candidate (a : OrgMigration.Args) (s : Store) : outcome (option (Z * User)) :=
  (OrgMigration.getUniqueUserThatDoesntBelongToOrg
     (OrgMigration.userName a) (OrgMigration.userId a) (OrgMigration.targetOrgId a) s).2.

(** The username the user gets in the organization: the one supplied, or
    the one derived from the email address. *)
Definition targetName (getOrgUsernameFromEmail : string -> string -> string)
    (a : OrgMigration.Args) (org : Team) (u : User) : string :=
  if truthy_string (OrgMigration.targetOrgUsername a)
  then default "" (OrgMigration.targetOrgUsername a)
  else getOrgUsernameFromEmail (email u)
         (or_default (team_metadata org ≫= orgAutoAcceptEmail) "").

(** What [findFirst] returns for a username inside an organization. *)
Definition holder (name : string) (orgId : Z) (s : Store) : option (Z * User) :=
  head (filter (fun r : Z * User =>
                  username r.2 = Some name /\ organizationId r.2 = Some orgId)
               (map_to_list (users s))).

(** [migratedToOrgFrom?.username || username] *)
Definition nonOrgUserNameOf (u : User) : option string :=
  or_string (user_migratedToOrgFrom u ≫= mig_username) (username u).

(** The user may be moved: in no organization, or already in the target. *)
Definition movable (targetOrgId : Z) (u : User) : bool :=
  negb (truthy_number (organizationId u)
        && negb (bool_decide (organizationId u = Some targetOrgId))).

(** The collision check lets the call through. *)
Definition collision_free (userId : option Z) (h : option (Z * User)) : bool :=
  match h with
  | Some r => bool_decide (Some r.1 = userId)
  | None => true
  end.

(** The slug of the organization once [setOrgSlugIfNotSet] has run. *)
Definition slug_after (org : Team) : option string :=
  if truthy_string (slug org) then slug org
  else if truthy_string (team_metadata org ≫= requestedSlug)
       then Some (default "" (team_metadata org ≫= requestedSlug))
       else slug org.

(** Everything [migrateUserToOrg] checks before its first write. *)
Definition migration_checks (getOrgUsernameFromEmail : string -> string -> string)
    (a : OrgMigration.Args) (s : Store) (org : Team) (uid : Z) (u : User)
    (n : string) : Prop :=
  xorb (truthy_number (OrgMigration.userId a))
       (truthy_string (OrgMigration.userName a)) = true /\
  teams s !! OrgMigration.targetOrgId a = Some org /\
  is_organization (team_metadata org) = true /\
  candidate a s = Ok (Some (uid, u)) /\
  movable (OrgMigration.targetOrgId a) u = true /\
  collision_free (OrgMigration.userId a)
    (holder (targetName getOrgUsernameFromEmail a org u)
            (OrgMigration.targetOrgId a) s) = true /\
  nonOrgUserNameOf u = Some n /\ n ≠ "".


(** The redirect keys the loop of [addRedirect] writes for a list of teams. *)
Definition team_keys (l : list (Z * Team)) : list (RedirectType.t * string * Z) :=
  (fun t : Z * Team => (RedirectType.Team, default "" (slug t.2), 0)) <$>
    filter (fun t : Z * Team => truthy_string (slug t.2)) l.

(** An operation that completes and writes to the redirect table only. *)
Definition only_redirects (m : M unit)
    (g : gmap (RedirectType.t * string * Z) string ->
         gmap (RedirectType.t * string * Z) string) : Prop :=
  forall s, (m s).2 = Ok tt /\ users (m s).1 = users s /\ teams (m s).1 = teams s /\
            memberships (m s).1 = memberships s /\
            redirects (m s).1 = g (redirects s).

(** The call [moveTeamToOrg] makes for a member of the moved team. *)
Definition memberArgs (targetOrgId : Z) (membership : (Z * Z) * Membership)
  : OrgMigration.Args :=
  {| OrgMigration.userId := Some membership.1.1;
     OrgMigration.userName := None;
     OrgMigration.targetOrgId := targetOrgId;
     OrgMigration.targetOrgUsername := None;
     OrgMigration.targetOrgRole := role membership.2;
     OrgMigration.targetOrgMembershipAccepted := Some (accepted membership.2) |}.

(** The rows [include: { members: true }] brings along with a team. *)
Definition membersOf (teamId : Z) (s : Store) : list ((Z * Z) * Membership) :=
  filter (fun r : (Z * Z) * Membership => r.1.2 = teamId) (map_to_list (memberships s)).

(** The error of [setOrgSlugIfNotSet]. *)
Definition slugError (targetOrgId : Z) : exn :=
  HttpError 400
    ("Org with id: " +:+ pretty targetOrgId
     +:+ " doesn't have a slug. Tried using requestedSlug but that's also not present. So, all migration done but failed to set the Organization slug. Please set it manually").

(** The store [moveTeamToOrg] has built when it turns to the members: the
    team under its new parent, the redirect of its slug, the slug of the
    organization back-filled. *)
Definition teamMoved (getOrgFullOrigin : string -> string)
    (targetOrgId teamId : Z) (org t : Team) (s : Store) : Store :=
  let s1 := if bool_decide (parentId t = Some targetOrgId) then s
            else set_teams (insert teamId (reparent (Some targetOrgId) t)) s in
  let orgSlug := or_string (slug org) (team_metadata org ≫= requestedSlug) in
  let s2 := if truthy_string orgSlug
            then set_redirects
                   (insert (RedirectType.Team, default "" (slug t), 0)
                           (getOrgFullOrigin (default "" orgSlug) +:+ "/"
                            +:+ default "" (slug t))) s1
            else s1 in
  if truthy_string (slug org) then s2
  else if truthy_string (team_metadata org ≫= requestedSlug)
       then set_teams
              (insert targetOrgId
                 {| slug := Some (default "" (team_metadata org ≫= requestedSlug));
                    parentId := parentId org;
                    team_metadata := team_metadata org |}) s2
       else s2.

(** The same call, with the user designated another way. *)
Definition designate (a : OrgMigration.Args) (uid : option Z) (name : option string)
  : OrgMigration.Args :=
  {| OrgMigration.userId := uid; OrgMigration.userName := name;
     OrgMigration.targetOrgId := OrgMigration.targetOrgId a;
     OrgMigration.targetOrgUsername := OrgMigration.targetOrgUsername a;
     OrgMigration.targetOrgRole := OrgMigration.targetOrgRole a;
     OrgMigration.targetOrgMembershipAccepted :=
       OrgMigration.targetOrgMembershipAccepted a |}.


(** ** A small directory, for the concrete runs *)
Module Scenario.

(** Stand-ins for the two imported functions. *)
Definition origin (slug : string) : string := "https://" +:+ slug +:+ ".cal.com".

Fixpoint local_part (email : string) : string :=
  match email with
  | EmptyString => EmptyString
  | String c rest =>
      if Ascii.eqb c "@"%char then EmptyString else String c (local_part rest)
  end.

Definition usernameFromEmail (email domain : string) : string := local_part email.

Definition acme : Team :=
  {| slug := None; parentId := None;
     team_metadata := Some {| isOrganization := Some true;
                              requestedSlug := Some "acme";
                              orgAutoAcceptEmail := None |} |}.

Definition globex : Team :=
  {| slug := Some "globex"; parentId := None;
     team_metadata := Some {| isOrganization := Some true;
                              requestedSlug := None;
                              orgAutoAcceptEmail := None |} |}.

Definition eng : Team :=
  {| slug := Some "eng"; parentId := None; team_metadata := None |}.

Definition sales : Team :=
  {| slug := Some "sales"; parentId := None; team_metadata := None |}.

Definition ops : Team :=
  {| slug := None; parentId := None; team_metadata := None |}.

Definition alice : User :=
  {| username := Some "alice"; email := "alice@acme.com";
     organizationId := None; metadata := None |}.

(** In organization 3 without ever having been migrated. *)
Definition bob : User :=
  {| username := Some "bob"; email := "bob@acme.com";
     organizationId := Some 3; metadata := None |}.

(** In another organization. *)
Definition carol : User :=
  {| username := Some "carol"; email := "carol@globex.com";
     organizationId := Some 4; metadata := None |}.

(** Migrated once and reverted. *)
Definition dave : User :=
  {| username := Some "dave"; email := "dave@acme.com";
     organizationId := None;
     metadata :=
       Some {| migratedToOrgFrom :=
                 Some {| mig_username := None; reverted := Some true;
                         revertTime := Some "2024-02-01T09:00:00.000Z";
                         lastMigrationTime := None |};
               otherKeys := [] |} |}.

(** In organization 3 with the reverted flag already set. *)
Definition erin : User :=
  {| username := Some "erin"; email := "erin@acme.com";
     organizationId := Some 3;
     metadata :=
       Some {| migratedToOrgFrom :=
                 Some {| mig_username := None; reverted := Some true;
                         revertTime := Some "2024-02-02T09:00:00.000Z";
                         lastMigrationTime := None |};
               otherKeys := [] |} |}.

Definition member : Membership := {| role := "MEMBER"; accepted := true |}.

(** Organizations 3 (acme, no slug yet) and 4 (globex); teams 12 (eng),
    5 (sales) and 13 (ops, without a slug); users 7 (alice), 8 (bob),
    9 (carol), 10 (dave) and 14 (erin); alice is a member of eng and ops; a
    redirect of sales is left from an earlier move. *)
Definition directory : Store :=
  {| users := {[ 7 := alice; 8 := bob; 9 := carol; 10 := dave; 14 := erin ]};
     teams := {[ 3 := acme; 4 := globex; 12 := eng; 5 := sales; 13 := ops ]};
     memberships := {[ (7, 12) := member; (7, 13) := member;
                       (8, 3) := member; (9, 4) := member ]};
     redirects := {[ (RedirectType.Team, "sales", 0) :=
                       "https://globex.cal.com/team/sales" ]} |}.

Definition byId : OrgMigration.Args :=
  {| OrgMigration.userId := Some 7; OrgMigration.userName := None;
     OrgMigration.targetOrgId := 3;
     OrgMigration.targetOrgUsername := Some "alice";
     OrgMigration.targetOrgRole := "MEMBER";
     OrgMigration.targetOrgMembershipAccepted := None |}.

Definition byName : OrgMigration.Args :=
  {| OrgMigration.userId := None; OrgMigration.userName := Some "alice";
     OrgMigration.targetOrgId := 3;
     OrgMigration.targetOrgUsername := Some "alice";
     OrgMigration.targetOrgRole := "MEMBER";
     OrgMigration.targetOrgMembershipAccepted := None |}.



Definition carolById : OrgMigration.Args :=
  {| OrgMigration.userId := Some 9; OrgMigration.userName := None;
     OrgMigration.targetOrgId := 3;
     OrgMigration.targetOrgUsername := None;
     OrgMigration.targetOrgRole := "MEMBER";
     OrgMigration.targetOrgMembershipAccepted := None |}.

Definition monday : string := "2024-03-04T10:00:00.000Z".

Definition tuesday : string := "2024-03-05T10:00:00.000Z".

Definition migrate : string -> OrgMigration.Args -> M unit :=
  OrgMigration.migrateUserToOrg origin usernameFromEmail.

Definition moveTeam : string -> Z -> Z -> option bool -> M unit :=
  MoveTeamToOrg.moveTeamToOrg origin usernameFromEmail.

(** The directory once alice has been migrated by id, with her row and the
    organization's row as that migration leaves them. *)
Definition migrated : Store := (migrate monday byId directory).1.

Definition alice_migrated : User := migrated_user monday 3 "alice" alice "alice".

Definition acme_slugged : Team :=
  {| slug := Some "acme"; parentId := None; team_metadata := team_metadata acme |}.

(** The migrated directory with alice's organization membership lost. *)
Definition unlinked : Store := set_memberships (delete (7, 3)) migrated.

(** The directory with a second standalone user called alice. *)
Definition two_alices : Store := set_users (insert 11 alice) directory.

(** An organization with neither a slug nor a requestedSlug, and the
    directory with it in the place of organization 3. *)
Definition initech : Team :=
  {| slug := None; parentId := None;
     team_metadata := Some {| isOrganization := Some true;
                              requestedSlug := None;
                              orgAutoAcceptEmail := None |} |}.

Definition unslugged : Store := set_teams (insert 3 initech) directory.

(** A userId without a row. *)
Definition nobody : OrgMigration.Args :=
  {| OrgMigration.userId := Some 99; OrgMigration.userName := None;
     OrgMigration.targetOrgId := 3;
     OrgMigration.targetOrgUsername := None;
     OrgMigration.targetOrgRole := "MEMBER";
     OrgMigration.targetOrgMembershipAccepted := None |}.

(** A stand-in for the text of the Prisma client's errors. *)
Definition clientMessage (error : exn) : string := "Record to delete does not exist.".

(** An administrator's session, and one that is not. *)
Definition admin : Session := {| user_role := "ADMIN" |}.

Definition visitor : Session := {| user_role := "USER" |}.

End Scenario.


(** * Properties *)

(** ** Running the store monad *)

Lemma bind_run {A B} (m : M A) (k : A -> M B) s s' a :
  m s = (s', Ok a) -> bind m k s = k a s'.
Proof. intros H. unfold bind. by rewrite H. Qed.

Lemma bind_fail {A B} (m : M A) (k : A -> M B) s s' e :
  m s = (s', Throw e) -> bind m k s = (s', Throw e).
Proof. intros H. unfold bind. by rewrite H. Qed.

(** A loop skips an element whose turn does nothing. *)
Lemma for_each_skip {A} (body : A -> M unit) (l1 l2 : list A) (x : A) :
  (forall s, body x s = (s, Ok tt)) ->
  forall s, for_each (l1 ++ x :: l2) body s = for_each (l1 ++ l2) body s.
Proof.
  intros Hx. induction l1 as [|y l1 IH]; intros s; cbn [app for_each].
  - unfold bind. by rewrite Hx.
  - unfold bind. destruct (body y s) as [s' [[]|e]]; [apply IH|done].
Qed.

Lemma only_redirects_ret : only_redirects (ret tt) id.
Proof. intros s. by cbn. Qed.

Lemma only_redirects_upsert ty from org url :
  only_redirects (prisma.tempOrgRedirect.upsert ty from org url)
                 (insert (ty, from, org) url).
Proof. intros s. by cbn. Qed.

Lemma only_redirects_deleteMany ty from org :
  only_redirects (prisma.tempOrgRedirect.deleteMany ty from org)
                 (delete (ty, from, org)).
Proof. intros s. by cbn. Qed.

Lemma only_redirects_bind m k g h :
  only_redirects m g -> only_redirects k h ->
  only_redirects (m ;;; k) (fun r => h (g r)).
Proof.
  intros Hm Hk s. unfold bind.
  destruct (Hm s) as (Ho & Hu & Ht & Hms & Hr).
  destruct (m s) as [s1 o1]. cbn in *. subst o1.
  destruct (Hk s1) as (Ho' & Hu' & Ht' & Hms' & Hr').
  repeat split; congruence.
Qed.

Lemma only_redirects_for_each {A} (l : list A) (body : A -> M unit) g :
  (forall x, only_redirects (body x) (g x)) ->
  only_redirects (for_each l body) (fun r => foldl (fun r x => g x r) r l).
Proof.
  intros Hb. induction l as [|x l IH]; cbn [for_each foldl].
  - apply only_redirects_ret.
  - apply (only_redirects_bind _ _ (g x) _ (Hb x) IH).
Qed.

(** ** The teams of a user *)

Lemma elem_of_memberTeams uid s tid t :
  (tid, t) ∈ memberTeams uid s <->
  teams s !! tid = Some t /\ is_organization (team_metadata t) = false /\
  is_Some (memberships s !! (uid, tid)).
Proof.
  unfold memberTeams, teamMetadataSchema_parse.
  rewrite !list_elem_of_filter, elem_of_map_to_list, list_elem_of_fmap. cbn.
  split.
  - intros (Hn & ([[u' t'] m] & -> & Hm) & Ht).
    apply list_elem_of_filter in Hm as [Hu Hm]. cbn in *. subst u'.
    apply elem_of_map_to_list in Hm.
    split; [exact Ht|]. split; [by destruct (is_organization _)|eauto].
  - intros (Ht & Hn & [m Hm]).
    split; [rewrite Hn; exact id|]. split; [|done].
    exists ((uid, tid), m). split; [done|].
    apply list_elem_of_filter. split; [done|]. by apply elem_of_map_to_list.
Qed.

Lemma memberTeams_fst_elem uid s tid :
  tid ∈ (memberTeams uid s).*1 <-> exists t, (tid, t) ∈ memberTeams uid s.
Proof.
  rewrite list_elem_of_fmap. split.
  - intros ([i t] & -> & H). eauto.
  - intros [t H]. by exists (tid, t).
Qed.

(** No membership, no team. *)
Lemma memberTeams_nil uid s :
  filter (fun r : (Z * Z) * Membership => r.1.1 = uid)
         (map_to_list (memberships s)) = [] ->
  memberTeams uid s = [].
Proof.
  intros Hnil. unfold memberTeams. rewrite Hnil. cbn.
  induction (map_to_list (teams s)) as [|x l IH]; [done|].
  rewrite filter_cons_False; [done|]. apply not_elem_of_nil.
Qed.

(** ** The user reversal, step by step *)

Lemma removeUser_updateTeams_run (r : Z * User) (s : Store) :
  let res := RemoveUserFromOrg.updateTeams r s in
  res.2 = Ok (memberTeams r.1 s) /\
  users res.1 = users s /\ memberships res.1 = memberships s /\
  redirects res.1 = redirects s /\
  forall tid, teams res.1 !! tid =
    (fun t => if decide (tid ∈ (memberTeams r.1 s).*1) then reparent None t else t)
      <$> teams s !! tid.
Proof.
  unfold RemoveUserFromOrg.updateTeams, prisma.membership.findMany,
    prisma.team.findMany, prisma.team.updateMany, bind, read, write, ret.
  cbn -[filter map_to_list].
  fold (memberTeams r.1 s).
  case_bool_decide as Hlen; cbn -[filter map_to_list].
  - repeat split. intros tid. rewrite map_lookup_imap.
    destruct (teams s !! tid); reflexivity.
  - repeat split. intros tid.
    rewrite (memberTeams_nil r.1 s) by (by apply nil_length_inv).
    destruct (teams s !! tid); cbn; [|done].
    case_decide as Hin; [|done]. by apply not_elem_of_nil in Hin.
Qed.

Lemma removeUser_removeRedirect_run (n : string) (l : list (Z * Team)) :
  n ≠ "" ->
  only_redirects (RemoveUserFromOrg.removeRedirect (Some n) l)
    (fun r => foldl drop_team_redirect (delete (RedirectType.User, n, 0) r) l).
Proof.
  intros Hn. unfold RemoveUserFromOrg.removeRedirect. cbn [truthy_string].
  rewrite bool_decide_eq_false_2 by done. cbn [negb default].
  apply (only_redirects_bind _ _ _ (fun r => foldl drop_team_redirect r l)).
  - apply only_redirects_deleteMany.
  - apply (only_redirects_for_each l _ (fun x r => drop_team_redirect r x)).
    intros x. unfold drop_team_redirect.
    destruct (truthy_string (slug x.2)); cbn [negb].
    + apply only_redirects_deleteMany.
    + apply only_redirects_ret.
Qed.

Lemma foldl_drop_team_redirect_None l r k :
  r !! k = None -> foldl drop_team_redirect r l !! k = None.
Proof.
  revert r. induction l as [|x l IH]; intros r Hr; cbn; [done|].
  apply IH. unfold drop_team_redirect.
  destruct (truthy_string _); [|done].
  rewrite lookup_delete. by case_decide.
Qed.

Lemma foldl_drop_team_redirect_elem l r tid t sl :
  (tid, t) ∈ l -> slug t = Some sl -> sl ≠ "" ->
  foldl drop_team_redirect r l !! (RedirectType.Team, sl, 0) = None.
Proof.
  intros Hin Hs Hne. revert r.
  induction l as [|y l IH]; intros r; [by apply not_elem_of_nil in Hin|].
  apply elem_of_cons in Hin as [<-|Hin]; cbn [foldl].
  - apply foldl_drop_team_redirect_None. unfold drop_team_redirect.
    cbn [snd]. rewrite Hs. cbn [truthy_string default].
    rewrite bool_decide_eq_false_2 by done. cbn [negb].
    apply lookup_delete_eq.
  - by apply IH.
Qed.

(** What [removeFromOrg] does once its checks have passed. *)
Lemma removeFromOrg_run now targetOrgId userId s u m n :
  users s !! userId = Some u ->
  organizationId u = Some targetOrgId ->
  user_migratedToOrgFrom u = Some m ->
  truthy_bool (reverted m) = false ->
  mig_username m = Some n -> n ≠ "" ->
  let res := RemoveUserFromOrg.removeFromOrg now targetOrgId userId s in
  res.2 = match memberships s !! (userId, targetOrgId) with
          | Some _ => Ok tt
          | None => Throw prisma.P2025
          end /\
  users res.1 = <[userId := reverted_user now u n]> (users s) /\
  (forall tid, teams res.1 !! tid =
     (fun t => if decide (tid ∈ (memberTeams userId s).*1) then reparent None t else t)
       <$> teams s !! tid) /\
  memberships res.1 = match memberships s !! (userId, targetOrgId) with
                      | Some _ => delete (userId, targetOrgId) (memberships s)
                      | None => memberships s
                      end /\
  redirects res.1 =
    foldl drop_team_redirect (delete (RedirectType.User, n, 0) (redirects s))
          (memberTeams userId s).
Proof.
  intros Hu Horg Hm Hrev Hn Hne res.
  assert (E : res = RemoveUserFromOrg.removeFromOrg now targetOrgId userId s)
    by reflexivity.
  clearbody res.
  unfold RemoveUserFromOrg.removeFromOrg, prisma.user.findUnique in E.
  unfold bind at 1 in E. unfold read in E. rewrite Hu in E.
  cbn [fmap option_fmap option_map snd] in E.
  rewrite Horg, bool_decide_eq_true_2 in E by done. cbn [negb] in E.
  rewrite Hm, Hrev, Hn in E. cbn [truthy_string] in E.
  rewrite bool_decide_eq_false_2 in E by done.
  cbn [negb default from_option id] in E.
  unfold bind at 1 in E.
  destruct (removeUser_updateTeams_run (userId, u) s) as (Ho1 & Hu1 & Hms1 & Hr1 & Ht1).
  destruct (RemoveUserFromOrg.updateTeams (userId, u) s) as [s1 o1].
  cbn [fst snd] in *. subst o1.
  unfold bind at 1 in E. unfold RemoveUserFromOrg.updateUser, prisma.user.update in E.
  cbn [fst snd] in E. rewrite Hu1, Hu in E. fold (reverted_user now u n) in E.
  unfold bind at 1 in E.
  match type of E with context [RemoveUserFromOrg.removeRedirect ?a ?b ?st] =>
    destruct (removeUser_removeRedirect_run n b Hne st) as (Ho3 & Hu3 & Ht3 & Hms3 & Hr3);
    destruct (RemoveUserFromOrg.removeRedirect a b st) as [s3 o3]
  end.
  cbn [fst snd set_users users teams memberships redirects] in *. subst o3.
  unfold RemoveUserFromOrg.removeMembership, prisma.membership.delete in E.
  cbn [fst snd] in E. rewrite Hms3, Hms1 in E.
  destruct (memberships s !! (userId, targetOrgId)); subst res;
    cbn [fst snd set_memberships users teams memberships redirects];
    rewrite ?Hu3, ?Ht3, ?Hms3, ?Hr3, ?Hu1, ?Hms1, ?Hr1; repeat split; try done.
Qed.

(** C9.  [removeFromOrg] refuses a user whose metadata has no
    [migratedToOrgFrom] record, and a user whose [migratedToOrgFrom.reverted]
    is already true: it throws an [HttpError] with status 400 and leaves the
    store as it found it.  The error is the first one to apply: "is not part
    of orgId" when the user is not in [targetOrgId], else "wasn't migrated"
    for a missing record and "is already reverted" for a reverted one.  The
    code has one 400 class for both errors. *)
Theorem removeFromOrg_rejects_unmigrated_and_reverted
    (now : string) (targetOrgId userId : Z) (s : Store) (u : User)
    (Hu : users s !! userId = Some u)
    (Hm : user_migratedToOrgFrom u = None \/
          exists m, user_migratedToOrgFrom u = Some m /\ reverted m = Some true) :
  RemoveUserFromOrg.removeFromOrg now targetOrgId userId s =
    (s, Throw (HttpError 400
        (if bool_decide (organizationId u = Some targetOrgId) then
           match user_migratedToOrgFrom u with
           | None => "User with id: " +:+ pretty userId
                     +:+ " wasn't migrated. So, there is nothing to revert"
           | Some _ => "User with id: " +:+ pretty userId +:+ " is already reverted"
           end
         else "User with id: " +:+ pretty userId
              +:+ " is not part of orgId: " +:+ pretty targetOrgId))).
Proof.
  unfold RemoveUserFromOrg.removeFromOrg, prisma.user.findUnique.
  unfold bind, read. rewrite Hu. cbn [fmap option_fmap option_map fst snd].
  case_bool_decide; cbn [negb]; [|reflexivity].
  destruct Hm as [-> | (m & -> & Hr)]; [reflexivity|].
  rewrite Hr. reflexivity.
Qed.

(** C10, as amended.  When the checks of [removeFromOrg] pass and the
    (userId, targetOrgId) membership row is missing, the membership delete
    throws (P2025) instead of doing nothing; by then the user row is
    reverted (no organization, the flag set) and the user's teams have lost
    their parent; and a second run throws an [HttpError] 400 at the check
    that the user is part of [targetOrgId], which comes before the
    already-reverted check, with the store untouched. *)
Theorem removeFromOrg_missing_membership
    (now : string) (targetOrgId userId : Z) (s : Store) (u : User)
    (m : MigratedToOrgFrom) (n : string)
    (Hu : users s !! userId = Some u)
    (Horg : organizationId u = Some targetOrgId)
    (Hm : user_migratedToOrgFrom u = Some m)
    (Hrev : truthy_bool (reverted m) = false)
    (Hn : mig_username m = Some n) (Hne : n ≠ "")
    (Hmiss : memberships s !! (userId, targetOrgId) = None) :
  let res := RemoveUserFromOrg.removeFromOrg now targetOrgId userId s in
  res.2 = Throw (PrismaClientKnownRequestError "P2025") /\
  (exists u', users res.1 !! userId = Some u' /\
              organizationId u' = None /\ username u' = Some n /\
              user_migratedToOrgFrom u' ≫= reverted = Some true) /\
  (forall tid t,
      teams s !! tid = Some t ->
      is_organization (team_metadata t) = false ->
      is_Some (memberships s !! (userId, tid)) ->
      teams res.1 !! tid =
        Some {| slug := slug t; parentId := None; team_metadata := team_metadata t |}) /\
  (forall now',
      RemoveUserFromOrg.removeFromOrg now' targetOrgId userId res.1 =
        (res.1, Throw (HttpError 400
                         ("User with id: " +:+ pretty userId
                          +:+ " is not part of orgId: " +:+ pretty targetOrgId)))).
Proof.
  intros res.
  destruct (removeFromOrg_run now targetOrgId userId s u m n Hu Horg Hm Hrev Hn Hne)
    as (Hout & Hus & Hts & _ & _).
  fold res in Hout, Hus, Hts. rewrite Hmiss in Hout.
  assert (Hu' : users res.1 !! userId = Some (reverted_user now u n))
    by (by rewrite Hus, lookup_insert_eq).
  split; [done|]. split; [|split].
  - exists (reverted_user now u n). by repeat split.
  - intros tid t Ht Hno Hmem. rewrite Hts, Ht. cbn. rewrite decide_True; [done|].
    apply memberTeams_fst_elem. exists t. by apply elem_of_memberTeams.
  - intros now'. unfold RemoveUserFromOrg.removeFromOrg, prisma.user.findUnique.
    unfold bind at 1. unfold read. rewrite Hu'. reflexivity.
Qed.

(** C7, as amended.  For a team whose [parentId] is not [targetOrgId],
    [removeTeamFromOrg] leaves the user, team and membership tables as they
    are, and still removes the standalone redirect of the team's slug; when
    the team has no slug it throws an [HttpError] 400 and changes nothing. *)
Theorem removeTeamFromOrg_outside_org
    (targetOrgId teamId : Z) (s : Store) (t : Team)
    (Ht : teams s !! teamId = Some t)
    (Hp : parentId t ≠ Some targetOrgId) :
  let res := RemoveTeamFromOrg.removeTeamFromOrg targetOrgId teamId s in
  users res.1 = users s /\ teams res.1 = teams s /\
  memberships res.1 = memberships s /\
  (truthy_string (slug t) = true ->
   res.2 = Ok tt /\
   redirects res.1 =
     delete (RedirectType.Team, default "" (slug t), 0) (redirects s)) /\
  (truthy_string (slug t) = false ->
   res = (s, Throw (HttpError 400 "No slug for team. Not removing the redirect"))).
Proof.
  intros res.
  assert (E : res = RemoveTeamFromOrg.removeRedirect (slug t) s).
  { subst res.
    unfold RemoveTeamFromOrg.removeTeamFromOrg, RemoveTeamFromOrg.updateTeam,
      prisma.team.findUnique.
    unfold bind at 1. unfold bind at 1. unfold read. rewrite Ht.
    cbn [fmap option_fmap option_map snd].
    by rewrite bool_decide_eq_false_2 by done. }
  clearbody res. subst res. unfold RemoveTeamFromOrg.removeRedirect.
  destruct (truthy_string (slug t)); cbn; by repeat split.
Qed.

(** ** The user migration, step by step *)
Section Migration.
Variable getOrgFullOrigin : string -> string.
Variable getOrgUsernameFromEmail : string -> string -> string.
Import OrgMigration.

Lemma getUnique_reads un ui ex s :
  (getUniqueUserThatDoesntBelongToOrg un ui ex s).1 = s.
Proof.
  unfold getUniqueUserThatDoesntBelongToOrg, prisma.user.findMany,
    prisma.user.findUnique, bind, read, throw, ret.
  destruct (truthy_string un).
  - cbn -[filter map_to_list]. by case_bool_decide.
  - destruct ui as [i|]; [|done].
    destruct (users s !! i); [done|]. by destruct (decide (Int_range i)).
Qed.

Lemma getUnique_run a s :
  getUniqueUserThatDoesntBelongToOrg (userName a) (userId a) (targetOrgId a) s
  = (s, candidate a s).
Proof.
  unfold candidate.
  pose proof (getUnique_reads (userName a) (userId a) (targetOrgId a) s) as H.
  destruct (getUniqueUserThatDoesntBelongToOrg _ _ _ s) as [s' o].
  cbn in *. by subst s'.
Qed.

(** The candidate is a row of the user table. *)
Lemma candidate_lookup a s uid u :
  candidate a s = Ok (Some (uid, u)) -> users s !! uid = Some u.
Proof.
  unfold candidate, getUniqueUserThatDoesntBelongToOrg, prisma.user.findMany,
    prisma.user.findUnique, bind, read, throw, ret.
  destruct (truthy_string (userName a)).
  - cbn -[filter map_to_list]. case_bool_decide; [done|].
    cbn -[filter map_to_list]. intros [= Hh].
    apply head_Some_elem_of in Hh.
    apply list_elem_of_filter in Hh as [_ Hh].
    apply list_elem_of_filter in Hh as [_ Hh].
    by apply elem_of_map_to_list in Hh.
  - destruct (userId a) as [i|]; [|done]. cbn.
    destruct (users s !! i) eqn:E; cbn; [by intros [= <- <-]|].
    by destruct (decide (Int_range i)).
Qed.

Lemma assertUserIdOrUserName_run ui un s :
  xorb (truthy_number ui) (truthy_string un) = true ->
  assertUserIdOrUserName ui un s = (s, Ok tt).
Proof.
  unfold assertUserIdOrUserName.
  by destruct (truthy_number ui), (truthy_string un).
Qed.

Lemma getTeamOrThrowError_run t org s :
  teams s !! t = Some org -> getTeamOrThrowError t s = (s, Ok (t, org)).
Proof.
  intros H. unfold getTeamOrThrowError, prisma.team.findUnique, bind, read.
  by rewrite H.
Qed.

Lemma assertUserPartOfOtherOrg_run r un ui t s :
  movable t r.2 = true -> assertUserPartOfOtherOrg (Some r) un ui t s = (s, Ok r).
Proof.
  unfold movable, assertUserPartOfOtherOrg. intros H.
  apply negb_true_iff in H. by rewrite H.
Qed.

Lemma assertRemigration_run r t name ui s :
  movable t r.2 = true ->
  assertUserPartOfOrgAndRemigrationAllowed r t name ui s = (s, Ok tt).
Proof.
  unfold movable, assertUserPartOfOrgAndRemigrationAllowed. intros H.
  apply negb_true_iff in H.
  destruct (truthy_number _); [|done]. cbn in H. by rewrite H.
Qed.

Lemma migrate_updateTeams_run targetOrgId (r : Z * User) (s : Store) :
  let res := updateTeams targetOrgId r s in
  res.2 = Ok (memberTeams r.1 s) /\
  users res.1 = users s /\ memberships res.1 = memberships s /\
  redirects res.1 = redirects s /\
  forall tid, teams res.1 !! tid =
    (fun t => if decide (tid ∈ (memberTeams r.1 s).*1)
              then reparent (Some targetOrgId) t else t)
      <$> teams s !! tid.
Proof.
  unfold updateTeams, prisma.membership.findMany,
    prisma.team.findMany, prisma.team.updateMany, bind, read, write, ret.
  cbn -[filter map_to_list].
  fold (memberTeams r.1 s).
  case_bool_decide as Hlen; cbn -[filter map_to_list].
  - repeat split. intros tid. rewrite map_lookup_imap.
    destruct (teams s !! tid); reflexivity.
  - repeat split. intros tid.
    rewrite (memberTeams_nil r.1 s) by (by apply nil_length_inv).
    destruct (teams s !! tid); cbn; [|done].
    case_decide as Hin; [|done]. by apply not_elem_of_nil in Hin.
Qed.

Lemma addRedirect_run (n : string) (org : Z * Team) name l :
  n ≠ "" ->
  only_redirects (addRedirect getOrgFullOrigin (Some n) org name l)
                 (added_redirects getOrgFullOrigin n org.2 name l).
Proof.
  intros Hn. unfold addRedirect, added_redirects. cbn [truthy_string].
  rewrite bool_decide_eq_false_2 by done. cbn [negb default].
  destruct (truthy_string (or_string _ _)); cbn [negb].
  - set (prefix := getOrgFullOrigin _).
    apply (only_redirects_bind _ _ _ (fun r => foldl (add_team_redirect prefix) r l)).
    + apply only_redirects_upsert.
    + apply (only_redirects_for_each l _ (fun x r => add_team_redirect prefix r x)).
      intros x. unfold add_team_redirect.
      destruct (truthy_string (slug x.2)); cbn [negb].
      * apply only_redirects_upsert.
      * apply only_redirects_ret.
  - apply only_redirects_ret.
Qed.

(** What [migrateUserToOrg] does once its checks have passed: the outcome
    is that of the slug back-fill, which runs last, and every write before
    it stays. *)
Lemma migrate_run now a s org uid u n :
  migration_checks getOrgUsernameFromEmail a s org uid u n ->
  let name := targetName getOrgUsernameFromEmail a org u in
  let res := migrateUserToOrg getOrgFullOrigin getOrgUsernameFromEmail now a s in
  res.2 = (if orb (truthy_string (slug org))
                  (truthy_string (team_metadata org ≫= requestedSlug))
           then Ok tt
           else Throw (HttpError 400
             ("Org with id: " +:+ pretty (targetOrgId a)
              +:+ " doesn't have a slug. Tried using requestedSlug but that's also not present. So, all migration done but failed to set the Organization slug. Please set it manually"))) /\
  (users res.1 = <[uid := migrated_user now (targetOrgId a) name u n]> (users s)) /\
  (memberships res.1 =
    <[(uid, targetOrgId a) :=
        {| role := targetOrgRole a;
           accepted := default true (targetOrgMembershipAccepted a) |}]>
      (memberships s)) /\
  (redirects res.1 =
    added_redirects getOrgFullOrigin n org name (memberTeams uid s) (redirects s)) /\
  (forall tid, tid ≠ targetOrgId a ->
     teams res.1 !! tid =
       (fun t => if decide (tid ∈ (memberTeams uid s).*1)
                 then reparent (Some (targetOrgId a)) t else t)
         <$> teams s !! tid) /\
  teams res.1 !! targetOrgId a =
    Some {| slug := slug_after org; parentId := parentId org;
            team_metadata := team_metadata org |}.
Proof.
  intros (Hargs & Horg & Hisorg & Hcand & Hmov & Hcoll & Hn & Hne) name res.
  assert (E : res = migrateUserToOrg getOrgFullOrigin getOrgUsernameFromEmail now a s)
    by reflexivity.
  clearbody res.
  pose proof (candidate_lookup _ _ _ _ Hcand) as Hu.
  unfold migrateUserToOrg in E.
  rewrite (bind_run _ _ _ _ _ (assertUserIdOrUserName_run _ _ _ Hargs)) in E.
  rewrite (bind_run _ _ _ _ _ (getTeamOrThrowError_run _ _ _ Horg)) in E.
  cbn [fst snd] in E. unfold teamMetadataSchema_parse in E.
  rewrite Hisorg in E. cbn [negb] in E.
  rewrite (bind_run _ _ s s (Some (uid, u))) in E
    by (by rewrite getUnique_run, Hcand).
  rewrite (bind_run _ _ _ _ _
             (assertUserPartOfOtherOrg_run (uid, u) _ _ _ _ Hmov)) in E.
  cbn [fst snd] in E. fold (targetName getOrgUsernameFromEmail a org u) in E.
  fold name in E, Hcoll.
  unfold bind at 1 in E. unfold prisma.user.findFirst, read in E.
  fold (holder name (targetOrgId a) s) in E.
  unfold collision_free in Hcoll.
  assert (Hc : match holder name (targetOrgId a) s with
               | Some r => negb (bool_decide (Some r.1 = userId a))
               | None => false
               end = false).
  { destruct (holder _ _ _); [by rewrite Hcoll|done]. }
  rewrite Hc in E. clear Hc.
  rewrite (bind_run _ _ _ _ _
             (assertRemigration_run (uid, u) _ _ _ _ Hmov)) in E.
  fold (nonOrgUserNameOf u) in E. rewrite Hn in E. cbn [truthy_string] in E.
  rewrite bool_decide_eq_false_2 in E by done.
  cbn [negb default from_option id] in E.
  unfold bind at 1 in E. unfold updateUser, prisma.user.update in E.
  cbn [fst snd] in E. rewrite Hu in E.
  fold (migrated_user now (targetOrgId a) name u n) in E.
  unfold bind at 1 in E.
  match type of E with context [updateTeams ?t ?r ?st] =>
    destruct (migrate_updateTeams_run t r st) as (Ho1 & Hu1 & Hms1 & Hr1 & Ht1);
    destruct (updateTeams t r st) as [s1 o1]
  end.
  cbn [fst snd set_users users teams memberships redirects] in *. subst o1.
  assert (Hmt : forall f, memberTeams uid (set_users f s) = memberTeams uid s)
    by done.
  rewrite Hmt in *. clear Hmt.
  unfold bind at 1 in E. unfold updateMembership, prisma.membership.upsert in E.
  cbn [fst snd] in E.
  set (mk := {| role := targetOrgRole a;
                accepted := default true (targetOrgMembershipAccepted a) |}) in *.
  assert (Em : (match memberships s1 !! (uid, targetOrgId a) with
                | Some _ => (set_memberships <[(uid, targetOrgId a):=mk]> s1, Ok ())
                | None => (set_memberships <[(uid, targetOrgId a):=mk]> s1, Ok ())
                end) = (set_memberships <[(uid, targetOrgId a):=mk]> s1, Ok ()))
    by (by destruct (memberships s1 !! _)).
  rewrite Em in E. clear Em.
  unfold bind at 1 in E.
  match type of E with context [addRedirect _ ?n0 ?o ?nm ?l ?st] =>
    destruct (addRedirect_run n o nm l Hne st) as (Ho3 & Hu3 & Ht3 & Hms3 & Hr3);
    destruct (addRedirect getOrgFullOrigin n0 o nm l st) as [s3 o3]
  end.
  cbn [fst snd set_memberships users teams memberships redirects slug
       team_metadata parentId] in *. subst o3.
  unfold setOrgSlugIfNotSet, setOrgSlug in E.
  assert (Hnot : targetOrgId a ∉ (memberTeams uid s).*1).
  { intros Hin. apply memberTeams_fst_elem in Hin as [t Hin].
    apply elem_of_memberTeams in Hin as (Ht & Hno & _). congruence. }
  assert (Hts1 : teams s1 !! targetOrgId a = Some org).
  { rewrite Ht1, Horg. cbn. by rewrite decide_False. }
  unfold slug_after.
  destruct (truthy_string (slug org)) eqn:Hslug; cbn [orb].
  { subst res. cbn [fst snd ret].
    rewrite Hu3, Ht3, Hms3, Hr3, Hu1, Hms1, Hr1, Hts1.
    repeat split; try done. by destruct org. }
  destruct (truthy_string (team_metadata org ≫= requestedSlug)) eqn:Hrs;
    cbn [negb] in E.
  - unfold bind, prisma.team.update, ret in E. rewrite Ht3, Hts1 in E.
    subst res. cbn [fst snd set_teams users teams memberships redirects].
    rewrite Hu3, Ht3, Hms3, Hr3, Hu1, Hms1, Hr1.
    repeat split; try done.
    + intros tid Hne'. rewrite lookup_insert_ne by done. apply Ht1.
    + by rewrite lookup_insert_eq.
  - subst res. cbn [fst snd throw].
    rewrite Hu3, Ht3, Hms3, Hr3, Hu1, Hms1, Hr1, Hts1.
    repeat split; try done. by destruct org.
Qed.

(** A call that fails a check throws with the store as it found it: no
    write comes before the checks are through. *)
Lemma migrate_checked now a s :
  (exists e, migrateUserToOrg getOrgFullOrigin getOrgUsernameFromEmail now a s
             = (s, Throw e)) \/
  (exists org uid u n, migration_checks getOrgUsernameFromEmail a s org uid u n).
Proof.
  unfold migrateUserToOrg.
  destruct (xorb (truthy_number (userId a)) (truthy_string (userName a))) eqn:Hargs.
  2:{ left. unfold assertUserIdOrUserName, bind, throw.
      destruct (truthy_number (userId a)), (truthy_string (userName a));
        try discriminate; cbn; eauto. }
  rewrite (bind_run _ _ _ _ _ (assertUserIdOrUserName_run _ _ _ Hargs)).
  destruct (teams s !! targetOrgId a) as [org|] eqn:Horg.
  2:{ left. unfold getTeamOrThrowError, prisma.team.findUnique, bind, read, throw.
      rewrite Horg. destruct (decide (Int_range (targetOrgId a))); cbn; eauto. }
  rewrite (bind_run _ _ _ _ _ (getTeamOrThrowError_run _ _ _ Horg)).
  cbn [fst snd]. unfold teamMetadataSchema_parse.
  destruct (is_organization (team_metadata org)) eqn:Hisorg; cbn [negb].
  2:{ left. unfold throw. eauto. }
  destruct (candidate a s) as [[[uid u]|]|e] eqn:Hcand.
  3:{ left. exists e. apply bind_fail. by rewrite getUnique_run, Hcand. }
  2:{ left. rewrite (bind_run _ _ s s None) by (by rewrite getUnique_run, Hcand).
      unfold assertUserPartOfOtherOrg, bind, throw. eauto. }
  rewrite (bind_run _ _ s s (Some (uid, u))) by (by rewrite getUnique_run, Hcand).
  destruct (movable (targetOrgId a) u) eqn:Hmov.
  2:{ left. unfold assertUserPartOfOtherOrg, bind, throw. cbn [snd].
      unfold movable in Hmov. apply negb_false_iff in Hmov. rewrite Hmov. eauto. }
  rewrite (bind_run _ _ _ _ _ (assertUserPartOfOtherOrg_run (uid, u) _ _ _ _ Hmov)).
  cbn [fst snd]. fold (targetName getOrgUsernameFromEmail a org u).
  set (name := targetName getOrgUsernameFromEmail a org u).
  unfold bind at 1. unfold prisma.user.findFirst, read.
  fold (holder name (targetOrgId a) s).
  destruct (collision_free (userId a) (holder name (targetOrgId a) s)) eqn:Hcoll.
  2:{ left. unfold collision_free in Hcoll.
      destruct (holder _ _ _); [|done]. rewrite Hcoll. cbn [negb].
      unfold throw. eauto. }
  assert (Hc : match holder name (targetOrgId a) s with
               | Some r => negb (bool_decide (Some r.1 = userId a))
               | None => false
               end = false).
  { unfold collision_free in Hcoll. destruct (holder _ _ _); [by rewrite Hcoll|done]. }
  rewrite Hc. clear Hc.
  rewrite (bind_run _ _ _ _ _ (assertRemigration_run (uid, u) _ _ _ _ Hmov)).
  fold (nonOrgUserNameOf u).
  destruct (truthy_string (nonOrgUserNameOf u)) eqn:Hn; cbn [negb].
  2:{ left. unfold throw. eauto. }
  right. unfold truthy_string in Hn.
  destruct (nonOrgUserNameOf u) as [n|] eqn:Hn'; [|done].
  apply negb_true_iff, bool_decide_eq_false in Hn.
  exists org, uid, u, n. by repeat split.
Qed.

Lemma migrate_success_inv now a s :
  (migrateUserToOrg getOrgFullOrigin getOrgUsernameFromEmail now a s).2 = Ok tt ->
  exists org uid u n, migration_checks getOrgUsernameFromEmail a s org uid u n.
Proof.
  intros H. destruct (migrate_checked now a s) as [[e He]|?]; [|done].
  by rewrite He in H.
Qed.

(** The teams the migration moved are the teams the reversal finds. *)
Lemma memberTeams_after_migration now a s org uid u n tid t :
  migration_checks getOrgUsernameFromEmail a s org uid u n ->
  (tid, t) ∈ memberTeams uid s ->
  (tid, reparent (Some (targetOrgId a)) t)
    ∈ memberTeams uid
        (migrateUserToOrg getOrgFullOrigin getOrgUsernameFromEmail now a s).1.
Proof.
  intros Hchecks Hin.
  destruct (migrate_run now a s org uid u n Hchecks) as (_ & _ & Hms & _ & Hts & _).
  destruct Hchecks as (_ & Horg & Hisorg & _).
  pose proof Hin as Hin'.
  apply elem_of_memberTeams in Hin as (Ht & Hno & Hm).
  assert (Hne' : tid ≠ targetOrgId a) by congruence.
  apply elem_of_memberTeams. repeat split.
  - rewrite (Hts tid Hne'), Ht. cbn. rewrite decide_True; [done|].
    apply memberTeams_fst_elem. eauto.
  - done.
  - rewrite Hms, lookup_insert_ne; [done|]. congruence.
Qed.

(** C3.  After a [migrateUserToOrg] that succeeded on the candidate
    (uid, u), removing that user from the target organization succeeds and
    leaves the user with no organization and with the standalone username
    the migration recorded ([migratedToOrgFrom.username] when there was one,
    the username before the migration otherwise, as for every user migrated
    for the first time or after a reversal); the (uid, targetOrgId)
    membership row is gone, and so are the user redirect of that username
    and the team redirect of every relocated team that has a slug.  The
    statement holds for every candidate, a standalone user in particular. *)
Theorem migrate_then_remove_restores now1 now2 a s uid u
    (Hcand : candidate a s = Ok (Some (uid, u)))
    (Hmigrated :
       (migrateUserToOrg getOrgFullOrigin getOrgUsernameFromEmail now1 a s).2 = Ok tt) :
  let s1 := (migrateUserToOrg getOrgFullOrigin getOrgUsernameFromEmail now1 a s).1 in
  let res := RemoveUserFromOrg.removeFromOrg now2 (targetOrgId a) uid s1 in
  res.2 = Ok tt /\
  (exists u2, users res.1 !! uid = Some u2 /\
              organizationId u2 = None /\
              username u2 = nonOrgUserNameOf u /\
              (truthy_string (user_migratedToOrgFrom u ≫= mig_username) = false ->
               username u2 = username u)) /\
  memberships res.1 !! (uid, targetOrgId a) = None /\
  (forall n, nonOrgUserNameOf u = Some n ->
             redirects res.1 !! (RedirectType.User, n, 0) = None) /\
  (forall relocated tid t sl,
      (updateTeams (targetOrgId a) (uid, u) s).2 = Ok relocated ->
      (tid, t) ∈ relocated -> slug t = Some sl -> sl ≠ "" ->
      redirects res.1 !! (RedirectType.Team, sl, 0) = None).
Proof.
  intros s1 res.
  destruct (migrate_success_inv now1 a s Hmigrated) as (org & uid' & u' & n & Hchecks).
  pose proof Hchecks as (_ & _ & _ & Hcand' & _ & _ & Hn & Hne).
  rewrite Hcand in Hcand'. injection Hcand' as <- <-.
  destruct (migrate_run now1 a s org uid u n Hchecks) as (_ & Hus & Hms & _ & _ & _).
  fold s1 in Hus, Hms.
  set (u1 := migrated_user now1 (targetOrgId a)
               (targetName getOrgUsernameFromEmail a org u) u n) in *.
  assert (Hu1 : users s1 !! uid = Some u1) by (by rewrite Hus, lookup_insert_eq).
  destruct (removeFromOrg_run now2 (targetOrgId a) uid s1 u1
              {| mig_username := Some n; reverted := None; revertTime := None;
                 lastMigrationTime := Some now1 |} n Hu1)
    as (Hout & Hus2 & _ & Hms2 & Hrs2); try done.
  fold res in Hout, Hus2, Hms2, Hrs2.
  rewrite Hms, lookup_insert_eq in Hout, Hms2.
  split; [done|]. split; [|split; [|split]].
  - exists (reverted_user now2 u1 n). rewrite Hus2, lookup_insert_eq.
    repeat split; [done|].
    intros Hrec. unfold nonOrgUserNameOf, or_string in Hn. by rewrite Hrec in Hn.
  - by rewrite Hms2, lookup_delete_eq.
  - intros n' Hn'. rewrite Hn in Hn'. injection Hn' as <-.
    rewrite Hrs2. apply foldl_drop_team_redirect_None, lookup_delete_eq.
  - intros relocated tid t sl Hrel Hin Hsl Hnesl.
    destruct (migrate_updateTeams_run (targetOrgId a) (uid, u) s) as (Ho & _).
    rewrite Ho in Hrel. injection Hrel as <-. cbn [fst] in Hin.
    rewrite Hrs2.
    apply (foldl_drop_team_redirect_elem _ _ tid
             (reparent (Some (targetOrgId a)) t) sl); [|done|done].
    by apply (memberTeams_after_migration now1 a s org uid u n).
Qed.

(** ** Running the migration twice *)

Lemma store_eq (s s' : Store) :
  users s = users s' -> teams s = teams s' ->
  memberships s = memberships s' -> redirects s = redirects s' -> s = s'.
Proof. destruct s, s'. cbn. by intros -> -> -> ->. Qed.






Lemma lookup_foldl_add_team_redirect prefix l r k :
  foldl (add_team_redirect prefix) r l !! k =
    if decide (k ∈ team_keys l) then Some (prefix +:+ "/team/" +:+ k.1.2)
    else r !! k.
Proof.
  revert r. induction l as [|x l IH]; intros r; cbn [foldl].
  { rewrite decide_False; [done|]. apply not_elem_of_nil. }
  rewrite IH. unfold add_team_redirect, team_keys.
  destruct (truthy_string (slug x.2)) eqn:E.
  - rewrite filter_cons_True by (cbn; rewrite E; exact I). rewrite fmap_cons.
    fold (team_keys l).
    destruct (decide (k ∈ team_keys l)) as [Hin|Hin].
    + rewrite decide_True; [done|]. by apply list_elem_of_further.
    + destruct (decide (k = (RedirectType.Team, default "" (slug x.2), 0)))
        as [->|Hk].
      * rewrite decide_True by apply list_elem_of_here.
        by rewrite lookup_insert_eq.
      * rewrite lookup_insert_ne by done.
        rewrite decide_False; [done|].
        intros [?|?]%elem_of_cons; done.
  - rewrite filter_cons_False by (cbn; rewrite E; exact id). done.
Qed.

Lemma candidate_by_id a s uid u :
  truthy_string (userName a) = false ->
  candidate a s = Ok (Some (uid, u)) -> userId a = Some uid.
Proof.
  intros Hid. unfold candidate, getUniqueUserThatDoesntBelongToOrg. rewrite Hid.
  unfold prisma.user.findUnique, read, throw.
  destruct (userId a) as [i|]; [|done]. cbn.
  destruct (users s !! i); cbn; [by intros [= <- _]|].
  by destruct (decide (Int_range i)).
Qed.

Lemma candidate_of_id a s uid u :
  truthy_string (userName a) = false ->
  userId a = Some uid -> users s !! uid = Some u ->
  candidate a s = Ok (Some (uid, u)).
Proof.
  intros Hid Hui Hu. unfold candidate, getUniqueUserThatDoesntBelongToOrg.
  rewrite Hid, Hui. unfold prisma.user.findUnique, read. cbn. by rewrite Hu.
Qed.

Lemma slug_after_truthy org :
  orb (truthy_string (slug org))
      (truthy_string (team_metadata org ≫= requestedSlug)) = true ->
  truthy_string (slug_after org) = true /\
  or_string (slug_after org) (team_metadata org ≫= requestedSlug)
  = or_string (slug org) (team_metadata org ≫= requestedSlug).
Proof.
  unfold slug_after, or_string.
  destruct (truthy_string (slug org)) eqn:Hs; cbn [orb].
  - intros _. by rewrite Hs.
  - intros Hrs. rewrite Hrs.
    destruct (team_metadata org ≫= requestedSlug) as [x|]; [|done].
    cbn in *. by rewrite Hrs.
Qed.

(** The teams the reversal or a second migration finds are the teams the
    migration moved. *)
Lemma memberTeams_before_migration now a s org uid u n tid t1 :
  migration_checks getOrgUsernameFromEmail a s org uid u n ->
  (tid, t1) ∈ memberTeams uid
      (migrateUserToOrg getOrgFullOrigin getOrgUsernameFromEmail now a s).1 ->
  exists t, (tid, t) ∈ memberTeams uid s /\ t1 = reparent (Some (targetOrgId a)) t.
Proof.
  intros Hchecks Hin.
  destruct (migrate_run now a s org uid u n
              Hchecks) as (_ & _ & Hms & _ & Hts & Htarget).
  destruct Hchecks as (_ & Horg & Hisorg & _).
  apply elem_of_memberTeams in Hin as (Ht1 & Hno & Hm).
  assert (Hne : tid ≠ targetOrgId a).
  { intros ->. rewrite Htarget in Ht1. injection Ht1 as <-. cbn in Hno. congruence. }
  rewrite (Hts tid Hne) in Ht1.
  destruct (teams s !! tid) as [t|] eqn:Ht; [|done]. cbn in Ht1.
  assert (Hin : (tid, t) ∈ memberTeams uid s).
  { apply elem_of_memberTeams. split; [done|]. split.
    - case_decide; injection Ht1 as <-; done.
    - rewrite Hms, lookup_insert_ne in Hm; [done|]. congruence. }
  exists t. split; [done|].
  rewrite decide_True in Ht1; [by injection Ht1|].
  apply memberTeams_fst_elem. eauto.
Qed.

Lemma memberTeams_fst_migration now a s org uid u n tid :
  migration_checks getOrgUsernameFromEmail a s org uid u n ->
  tid ∈ (memberTeams uid
           (migrateUserToOrg getOrgFullOrigin getOrgUsernameFromEmail now a s).1).*1
  <-> tid ∈ (memberTeams uid s).*1.
Proof.
  intros Hchecks. rewrite !memberTeams_fst_elem. split.
  - intros [t1 Hin].
    destruct (memberTeams_before_migration now a s org uid u n tid t1 Hchecks Hin)
      as (t & ? & _). eauto.
  - intros [t Hin]. eexists.
    by apply (memberTeams_after_migration now a s org uid u n).
Qed.

Lemma team_keys_migration now a s org uid u n k :
  migration_checks getOrgUsernameFromEmail a s org uid u n ->
  k ∈ team_keys (memberTeams uid
         (migrateUserToOrg getOrgFullOrigin getOrgUsernameFromEmail now a s).1)
  <-> k ∈ team_keys (memberTeams uid s).
Proof.
  intros Hchecks. unfold team_keys. rewrite !list_elem_of_fmap. split.
  - intros ([tid t1] & -> & Hin). apply list_elem_of_filter in Hin as [Hsl Hin].
    destruct (memberTeams_before_migration now a s org uid u n tid t1 Hchecks Hin)
      as (t & Hin' & ->).
    exists (tid, t). split; [done|]. by apply list_elem_of_filter.
  - intros ([tid t] & -> & Hin). apply list_elem_of_filter in Hin as [Hsl Hin].
    exists (tid, reparent (Some (targetOrgId a)) t). split; [done|].
    apply list_elem_of_filter. split; [done|].
    by apply (memberTeams_after_migration now a s org uid u n).
Qed.


Lemma slug_after_again org p :
  orb (truthy_string (slug org))
      (truthy_string (team_metadata org ≫= requestedSlug)) = true ->
  slug_after {| slug := slug_after org; parentId := p;
                team_metadata := team_metadata org |} = slug_after org.
Proof.
  intros H. destruct (slug_after_truthy org H) as [Hsa _].
  unfold slug_after at 1. cbn [slug]. by rewrite Hsa.
Qed.


(** ** Team slugs, by flow *)

Lemma addRedirect_never_throws n org name l s :
  (addRedirect getOrgFullOrigin n org name l s).2 = Ok tt.
Proof.
  destruct (truthy_string n) eqn:Hn.
  - destruct n as [n|]; [|done]. cbn in Hn.
    apply negb_true_iff, bool_decide_eq_false in Hn.
    apply (addRedirect_run n org name l Hn s).
  - unfold addRedirect. by rewrite Hn.
Qed.

Lemma removeRedirect_never_throws n l s :
  (RemoveUserFromOrg.removeRedirect n l s).2 = Ok tt.
Proof.
  destruct (truthy_string n) eqn:Hn.
  - destruct n as [n|]; [|done]. cbn in Hn.
    apply negb_true_iff, bool_decide_eq_false in Hn.
    apply (removeUser_removeRedirect_run n l Hn s).
  - unfold RemoveUserFromOrg.removeRedirect. by rewrite Hn.
Qed.

Lemma moveTeam_getTeam_run t org s :
  teams s !! t = Some org ->
  MoveTeamToOrg.getTeamOrThrowError t s = (s, Ok (t, org)).
Proof.
  intros H.
  unfold MoveTeamToOrg.getTeamOrThrowError, prisma.team.findUnique, bind, read.
  by rewrite H.
Qed.

(** [updateTeam] of moveTeamToOrg, for a team that exists: the row read
    comes back, and the only write is the team's parent. *)
Lemma moveTeam_updateTeam_run teamId targetOrgId s t :
  teams s !! teamId = Some t ->
  exists members,
    MoveTeamToOrg.updateTeam teamId targetOrgId s =
      (if bool_decide (parentId t = Some targetOrgId) then s
       else set_teams (insert teamId (reparent (Some targetOrgId) t)) s,
       Ok ((teamId, t), members)).
Proof.
  intros Ht. eexists.
  unfold MoveTeamToOrg.updateTeam, prisma.team.findUnique,
    prisma.membership.findMany, prisma.team.update, bind, read, ret.
  rewrite Ht. cbn [fmap option_fmap option_map snd].
  case_bool_decide; [done|]. by rewrite Ht.
Qed.

(** [moveTeamToOrg] writes the team's parent before it looks at the
    organization tag of the target. *)
Lemma moveTeamToOrg_plain_target now targetOrgId teamId moveMembers s org t :
  teams s !! targetOrgId = Some org ->
  is_organization (team_metadata org) = false ->
  teams s !! teamId = Some t ->
  parentId t ≠ Some targetOrgId ->
  MoveTeamToOrg.moveTeamToOrg getOrgFullOrigin getOrgUsernameFromEmail now
    targetOrgId teamId moveMembers s =
  (set_teams (insert teamId (reparent (Some targetOrgId) t)) s,
   Throw (Error (pretty targetOrgId +:+ " is not an Org"))).
Proof.
  intros Horg Hno Ht Hp. unfold MoveTeamToOrg.moveTeamToOrg.
  rewrite (bind_run _ _ _ _ _ (moveTeam_getTeam_run _ _ _ Horg)).
  destruct (moveTeam_updateTeam_run teamId targetOrgId s t Ht) as [members Hrun].
  rewrite bool_decide_eq_false_2 in Hrun by done.
  rewrite (bind_run _ _ _ _ _ Hrun).
  cbn [fst snd]. unfold teamMetadataSchema_parse. by rewrite Hno.
Qed.

(** C6, as amended.  The two user flows and the two team flows differ, not
    the two directions.  In [migrateUserToOrg] and in the user reversal a
    team without a slug is passed over: the redirect step does what it would
    do without that team, and never throws.  [moveTeamToOrg] (the target
    being an organization) and [removeTeamFromOrg] need the slug of the
    team they work on: for a team without a slug neither ever completes,
    and for a team whose slug is null both throw the [HttpError] 400 "No
    slug for team".  In [moveTeamToOrg] that error comes after the team
    has been reparented: the failed call leaves the team under
    [targetOrgId], and no other row of any table has changed. *)
Theorem missing_team_slug_by_flow
    (now : string) (s : Store) (team : Z * Team) (org : Team) (targetOrgId : Z)
    (moveMembers : option bool) (nonOrgUserName : option string)
    (organization : Z * Team) (targetOrgUsername : string)
    (before after : list (Z * Team))
    (Hslug : truthy_string (slug team.2) = false)
    (Hteam : teams s !! team.1 = Some team.2)
    (Horg : teams s !! targetOrgId = Some org)
    (Hisorg : is_organization (team_metadata org) = true) :
  let move := MoveTeamToOrg.moveTeamToOrg getOrgFullOrigin getOrgUsernameFromEmail now
                targetOrgId team.1 moveMembers s in
  let remove := RemoveTeamFromOrg.removeTeamFromOrg targetOrgId team.1 s in
  let noSlug := HttpError 400 "No slug for team. Not removing the redirect" in
  (forall s',
      addRedirect getOrgFullOrigin nonOrgUserName organization
        targetOrgUsername (before ++ team :: after) s' =
      addRedirect getOrgFullOrigin nonOrgUserName organization
        targetOrgUsername (before ++ after) s' /\
      (addRedirect getOrgFullOrigin nonOrgUserName organization
         targetOrgUsername (before ++ team :: after) s').2 = Ok tt) /\
  (forall s',
      RemoveUserFromOrg.removeRedirect nonOrgUserName (before ++ team :: after) s' =
      RemoveUserFromOrg.removeRedirect nonOrgUserName (before ++ after) s' /\
      (RemoveUserFromOrg.removeRedirect nonOrgUserName
         (before ++ team :: after) s').2 = Ok tt) /\
  move.2 ≠ Ok tt /\ remove.2 ≠ Ok tt /\
  (slug team.2 = None -> move.2 = Throw noSlug /\ remove.2 = Throw noSlug) /\
  (move.2 = Throw noSlug ->
   teams move.1 !! team.1 =
     Some {| slug := slug team.2; parentId := Some targetOrgId;
             team_metadata := team_metadata team.2 |} /\
   (forall j, j ≠ team.1 -> teams move.1 !! j = teams s !! j) /\
   users move.1 = users s /\ memberships move.1 = memberships s /\
   redirects move.1 = redirects s).
Proof.
  intros move remove noSlug.
  assert (Emove : move =
            (if bool_decide (parentId team.2 = Some targetOrgId) then s
             else set_teams (insert team.1 (reparent (Some targetOrgId) team.2)) s,
             Throw noSlug)).
  { subst move. unfold MoveTeamToOrg.moveTeamToOrg.
    rewrite (bind_run _ _ _ _ _ (moveTeam_getTeam_run _ _ _ Horg)).
    destruct (moveTeam_updateTeam_run team.1 targetOrgId s team.2 Hteam)
      as [members Hrun].
    rewrite (bind_run _ _ _ _ _ Hrun).
    cbn [fst snd]. unfold teamMetadataSchema_parse. rewrite Hisorg. cbn [negb].
    unfold MoveTeamToOrg.addRedirect. rewrite Hslug. reflexivity. }
  assert (Eremove : remove.2 = Throw noSlug).
  { subst remove.
    unfold RemoveTeamFromOrg.removeTeamFromOrg, RemoveTeamFromOrg.updateTeam,
      prisma.team.findUnique, prisma.team.update, try_catch.
    unfold bind, read, ret. rewrite Hteam.
    cbn [fmap option_fmap option_map snd].
    unfold RemoveTeamFromOrg.removeRedirect.
    case_bool_decide; cbn [negb]; [|by rewrite Hslug].
    rewrite Hteam. cbn [slug snd]. by rewrite Hslug. }
  clearbody move remove. subst move. cbn [fst snd]. rewrite Eremove.
  split; [|split; [|split; [done|split; [done|split; [done|]]]]].
  - intros s'. split; [|apply addRedirect_never_throws].
    unfold addRedirect.
    destruct (negb (truthy_string nonOrgUserName)); [done|].
    destruct (negb (truthy_string (or_string _ _))); [done|].
    unfold bind at 1 2. cbn [prisma.tempOrgRedirect.upsert write].
    apply for_each_skip. intros s0. by rewrite Hslug.
  - intros s'. split; [|apply removeRedirect_never_throws].
    unfold RemoveUserFromOrg.removeRedirect.
    destruct (negb (truthy_string nonOrgUserName)); [done|].
    unfold bind at 1 2. cbn [prisma.tempOrgRedirect.deleteMany write].
    apply for_each_skip. intros s0. by rewrite Hslug.
  - intros _.
    case_bool_decide as Hp;
      cbn [set_teams users teams memberships redirects].
    + repeat split; try done. rewrite Hteam, <-Hp. by destruct (team.2).
    + rewrite lookup_insert_eq. repeat split; try done.
      intros j Hj. by rewrite lookup_insert_ne.
Qed.

(** ** Users already in an organization *)



End Migration.

(** ** Concrete runs *)
Import Scenario.

(** C1.  [migrateUserToOrg] verifies the organization tag before its first
    write, [moveTeamToOrg] after one: with team 5 (sales, a plain team) as
    the target, moving team 12 throws "5 is not an Org" and team 12 is left
    with parent 5. *)
Theorem moveTeamToOrg_writes_before_org_check :
  teams directory !! 5 = Some sales /\
  is_organization (team_metadata sales) = false /\
  parentId <$> teams directory !! 12 = Some None /\
  (let res := moveTeam monday 5 12 None directory in
   res.2 = Throw (Error "5 is not an Org") /\
   parentId <$> teams res.1 !! 12 = Some (Some 5)).
Proof.
  assert (H5 : teams directory !! 5 = Some sales) by (vm_compute; reflexivity).
  assert (H12 : teams directory !! 12 = Some eng) by (vm_compute; reflexivity).
  split; [exact H5|]. split; [reflexivity|]. split; [by rewrite H12|].
  cbv zeta. unfold moveTeam.
  rewrite (moveTeamToOrg_plain_target origin usernameFromEmail monday 5 12 None
             directory sales eng) by done.
  split; [reflexivity|].
  cbn [fst set_teams teams]. by rewrite lookup_insert_eq.
Qed.


(** With the name kept, the repeated call by userName resolves alice and
    gets as far as the collision check, which refuses it: the comparison
    of C4, met on a second call. *)
Lemma migrate_by_userName_twice :
  let first := migrate monday byName directory in
  let second := migrate tuesday byName first.1 in
  first.2 = Ok tt /\
  second.2 = Throw (HttpError 400
    "Username alice already exists for orgId: 3 for some other user").
Proof.
  cbv zeta. split.
  - vm_compute. reflexivity.
  - vm_compute. reflexivity.
Qed.

(** C4.  With the candidate designated by userName, the collision check
    compares the holder's id with the absent userId: alice, the only holder
    of "alice" in organization 3, is refused "for some other user" when
    designated by name, and let through when designated by id. *)
Theorem collision_check_by_userName :
  (filter (fun r : Z * User =>
             username r.2 = Some "alice" /\ organizationId r.2 = Some 3)
          (map_to_list (users migrated))).*1 = [7] /\
  fst <$> holder "alice" 3 migrated = Some 7 /\
  candidate byName migrated = Ok (Some (7, alice_migrated)) /\
  (migrate tuesday byName migrated).2 =
    Throw (HttpError 400
      "Username alice already exists for orgId: 3 for some other user") /\
  (migrate tuesday byId migrated).2 = Ok tt.
Proof.
  split; [vm_compute; reflexivity|].
  split; [vm_compute; reflexivity|].
  split; [vm_compute; reflexivity|].
  split; vm_compute; reflexivity.
Qed.

(** C8.  Two standalone users called alice: the call by userName throws a
    plain [Error], not an [HttpError], and the handlers answer 500. *)
Theorem ambiguous_userName_is_plain_error :
  length (filter (fun r : Z * User => username r.2 = Some "alice")
                 (map_to_list (users two_alices))) = 2%nat /\
  (migrate monday byName two_alices).2 =
    Throw (Error "More than one user found with username: alice") /\
  responseStatus (Error "More than one user found with username: alice") = 500.
Proof.
  split; [vm_compute; reflexivity|].
  split; [vm_compute; reflexivity|].
  reflexivity.
Qed.


(** C6, counterexample.  Forward migration of a team without a slug is a
    hard failure in [moveTeamToOrg]: moving team 13 (ops) under organization
    3 throws after the team has been given its parent, and the steps that
    follow (the slug back-fill of the organization) do not run. *)
Lemma moveTeamToOrg_fails_without_team_slug :
  teams directory !! 13 = Some ops /\ slug ops = None /\
  (let res := moveTeam monday 3 13 None directory in
   res.2 = Throw (HttpError 400 "No slug for team. Not removing the redirect") /\
   parentId <$> teams res.1 !! 13 = Some (Some 3) /\
   slug <$> teams res.1 !! 3 = Some None).
Proof.
  split; [vm_compute; reflexivity|].
  split; [reflexivity|].
  cbv zeta. repeat split; vm_compute; reflexivity.
Qed.

(** C7, counterexample.  Team 5 (sales) has no parent, so it is not under
    organization 3; [removeTeamFromOrg] still deletes its redirect. *)
Lemma removeTeamFromOrg_outside_org_drops_redirect :
  parentId <$> teams directory !! 5 = Some None /\
  redirects directory !! (RedirectType.Team, "sales", 0) =
    Some "https://globex.cal.com/team/sales" /\
  (let res := RemoveTeamFromOrg.removeTeamFromOrg 3 5 directory in
   res.2 = Ok tt /\
   redirects res.1 !! (RedirectType.Team, "sales", 0) = None).
Proof.
  split; [vm_compute; reflexivity|].
  split; [vm_compute; reflexivity|].
  cbv zeta. split; vm_compute; reflexivity.
Qed.

(** C10, counterexample.  Alice is in organization 3 and her membership
    row is missing: the reversal throws at the membership delete, and the
    re-run fails at the check that she is part of organization 3, not at
    the already-reverted check. *)
Lemma removeFromOrg_rerun_fails_at_org_check :
  let first := RemoveUserFromOrg.removeFromOrg tuesday 3 7 unlinked in
  let second := RemoveUserFromOrg.removeFromOrg tuesday 3 7 first.1 in
  first.2 = Throw (PrismaClientKnownRequestError "P2025") /\
  second.2 = Throw (HttpError 400 "User with id: 7 is not part of orgId: 3") /\
  second.2 ≠ Throw (HttpError 400 "User with id: 7 is already reverted").
Proof.
  cbv zeta.
  assert (H2 : (RemoveUserFromOrg.removeFromOrg tuesday 3 7
                  (RemoveUserFromOrg.removeFromOrg tuesday 3 7 unlinked).1).2 =
               Throw (HttpError 400 "User with id: 7 is not part of orgId: 3"))
    by (vm_compute; reflexivity).
  split; [vm_compute; reflexivity|]. split; [exact H2|].
  rewrite H2. discriminate.
Qed.

(** ** The general statements at the directory *)


Lemma migrate_then_remove_restores_witness :
  candidate byId directory = Ok (Some (7, alice)) /\
  (migrate monday byId directory).2 = Ok tt /\
  (let res := RemoveUserFromOrg.removeFromOrg tuesday 3 7 migrated in
   res.2 = Ok tt /\
   username <$> users res.1 !! 7 = Some (Some "alice") /\
   memberships res.1 !! (7, 3) = None /\
   redirects res.1 !! (RedirectType.User, "alice", 0) = None /\
   redirects res.1 !! (RedirectType.Team, "eng", 0) = None).
Proof.
  assert (Hc : candidate byId directory = Ok (Some (7, alice)))
    by (vm_compute; reflexivity).
  assert (Hm : (migrate monday byId directory).2 = Ok tt)
    by (vm_compute; reflexivity).
  split; [exact Hc|]. split; [exact Hm|].
  destruct (migrate_then_remove_restores origin usernameFromEmail monday tuesday
              byId directory 7 alice Hc Hm)
    as (Hok & (u2 & Hu2 & _ & Hname & _) & Hmem & Huser & Hteam).
  cbv zeta. split; [exact Hok|]. split; [|split; [exact Hmem|split]].
  - assert (Hu2' : users (RemoveUserFromOrg.removeFromOrg tuesday 3 7 migrated).1 !! 7
                    = Some u2) by exact Hu2.
    rewrite Hu2'. cbn [fmap option_fmap option_map]. by rewrite Hname.
  - by apply Huser.
  - apply (Hteam (memberTeams 7 directory) 12 eng "eng").
    + apply (migrate_updateTeams_run 3 (7, alice) directory).
    + apply elem_of_memberTeams.
      split; [vm_compute; reflexivity|]. split; [reflexivity|].
      exists member. vm_compute. reflexivity.
    + reflexivity.
    + discriminate.
Defined.


Lemma missing_team_slug_by_flow_witness :
  truthy_string (slug ops) = false /\
  teams directory !! 13 = Some ops /\
  teams directory !! 3 = Some acme /\
  is_organization (team_metadata acme) = true /\
  (OrgMigration.addRedirect origin (Some "alice") (3, acme) "alice"
     [(12, eng); (13, ops)] directory).2 = Ok tt /\
  (moveTeam monday 3 13 None directory).2 =
    Throw (HttpError 400 "No slug for team. Not removing the redirect") /\
  (RemoveTeamFromOrg.removeTeamFromOrg 3 13 directory).2 =
    Throw (HttpError 400 "No slug for team. Not removing the redirect") /\
  teams (moveTeam monday 3 13 None directory).1 !! 13 = Some (reparent (Some 3) ops) /\
  teams (moveTeam monday 3 13 None directory).1 !! 3 = Some acme /\
  redirects (moveTeam monday 3 13 None directory).1 = redirects directory.
Proof.
  assert (Ht : teams directory !! 13 = Some ops) by (vm_compute; reflexivity).
  assert (Ho : teams directory !! 3 = Some acme) by (vm_compute; reflexivity).
  destruct (missing_team_slug_by_flow origin usernameFromEmail monday directory
              (13, ops) acme 3 None (Some "alice") (3, acme) "alice" [(12, eng)] []
              eq_refl Ht Ho eq_refl) as (Hadd & _ & _ & _ & Hnull & Hstore).
  destruct (Hnull eq_refl) as [Hmove Hremove].
  destruct (Hstore Hmove) as (Hrow & Hothers & _ & _ & Hrs).
  split; [reflexivity|]. split; [exact Ht|]. split; [exact Ho|].
  split; [reflexivity|]. split; [apply (Hadd directory)|].
  split; [exact Hmove|]. split; [exact Hremove|].
  split; [exact Hrow|]. split; [|exact Hrs].
  etransitivity; [apply (Hothers 3); discriminate|exact Ho].
Defined.

Lemma removeTeamFromOrg_outside_org_witness :
  teams directory !! 5 = Some sales /\
  parentId sales ≠ Some 3 /\
  (let res := RemoveTeamFromOrg.removeTeamFromOrg 3 5 directory in
   users res.1 = users directory /\ teams res.1 = teams directory /\
   memberships res.1 = memberships directory /\ res.2 = Ok tt /\
   redirects res.1 = delete (RedirectType.Team, "sales", 0) (redirects directory)).
Proof.
  assert (Ht : teams directory !! 5 = Some sales) by (vm_compute; reflexivity).
  assert (Hp : parentId sales ≠ Some 3) by discriminate.
  destruct (removeTeamFromOrg_outside_org 3 5 directory sales Ht Hp)
    as (Hu & Hts & Hms & Hslug & _).
  destruct (Hslug eq_refl) as [Hok Hr].
  by repeat split.
Defined.

Lemma removeFromOrg_rejects_witness :
  RemoveUserFromOrg.removeFromOrg tuesday 3 8 directory =
    (directory,
     Throw (HttpError 400
       "User with id: 8 wasn't migrated. So, there is nothing to revert")) /\
  RemoveUserFromOrg.removeFromOrg tuesday 3 14 directory =
    (directory, Throw (HttpError 400 "User with id: 14 is already reverted")) /\
  RemoveUserFromOrg.removeFromOrg tuesday 3 10 directory =
    (directory, Throw (HttpError 400 "User with id: 10 is not part of orgId: 3")).
Proof.
  assert (H8 : users directory !! 8 = Some bob) by (vm_compute; reflexivity).
  assert (H14 : users directory !! 14 = Some erin) by (vm_compute; reflexivity).
  assert (H10 : users directory !! 10 = Some dave) by (vm_compute; reflexivity).
  split; [|split].
  - exact (removeFromOrg_rejects_unmigrated_and_reverted tuesday 3 8 directory bob
             H8 (or_introl eq_refl)).
  - apply (removeFromOrg_rejects_unmigrated_and_reverted tuesday 3 14 directory erin H14).
    right. eexists. split; reflexivity.
  - apply (removeFromOrg_rejects_unmigrated_and_reverted tuesday 3 10 directory dave H10).
    right. eexists. split; reflexivity.
Defined.

Lemma removeFromOrg_missing_membership_witness :
  users unlinked !! 7 = Some alice_migrated /\
  memberships unlinked !! (7, 3) = None /\
  (let res := RemoveUserFromOrg.removeFromOrg tuesday 3 7 unlinked in
   res.2 = Throw (PrismaClientKnownRequestError "P2025") /\
   organizationId <$> users res.1 !! 7 = Some None /\
   teams res.1 !! 12 = Some eng /\
   RemoveUserFromOrg.removeFromOrg tuesday 3 7 res.1 =
     (res.1, Throw (HttpError 400 "User with id: 7 is not part of orgId: 3"))).
Proof.
  assert (Hu : users unlinked !! 7 = Some alice_migrated) by (vm_compute; reflexivity).
  assert (Hmiss : memberships unlinked !! (7, 3) = None) by (vm_compute; reflexivity).
  split; [exact Hu|]. split; [exact Hmiss|].
  destruct (removeFromOrg_missing_membership tuesday 3 7 unlinked alice_migrated
              {| mig_username := Some "alice"; reverted := None; revertTime := None;
                 lastMigrationTime := Some monday |} "alice"
              Hu eq_refl eq_refl eq_refl eq_refl)
    as (Hout & (u' & Hu' & Horg' & _) & Hteams & Hrerun); [discriminate|exact Hmiss|].
  cbv zeta. split; [exact Hout|]. split; [|split].
  - rewrite Hu'. cbn [fmap option_fmap option_map]. by rewrite Horg'.
  - apply (Hteams 12 (reparent (Some 3) eng)).
    + vm_compute. reflexivity.
    + reflexivity.
    + exists member. vm_compute. reflexivity.
  - apply (Hrerun tuesday).
Defined.


(** * Further properties of the four operations and their handlers *)

(** ** The team reversal *)

Lemma removeTeamFromOrg_run targetOrgId teamId s row :
  teams s !! teamId = Some row ->
  RemoveTeamFromOrg.removeTeamFromOrg targetOrgId teamId s =
    let s1 := if bool_decide (parentId row = Some targetOrgId)
              then set_teams (insert teamId (reparent None row)) s else s in
    if truthy_string (slug row)
    then (set_redirects (delete (RedirectType.Team, default "" (slug row), 0)) s1, Ok tt)
    else (s1, Throw (HttpError 400 "No slug for team. Not removing the redirect")).
Proof.
  intros Ht.
  unfold RemoveTeamFromOrg.removeTeamFromOrg, RemoveTeamFromOrg.updateTeam,
    prisma.team.findUnique, prisma.team.update, try_catch.
  unfold bind, read, ret. rewrite Ht.
  cbn [fmap option_fmap option_map snd].
  unfold RemoveTeamFromOrg.removeRedirect.
  case_bool_decide; cbn [negb].
  - rewrite Ht. cbn [slug snd]. by destruct (truthy_string (slug row)).
  - by destruct (truthy_string (slug row)).
Qed.

(** X1.  [removeTeamFromOrg] for a team whose [parentId] is
    [targetOrgId] touches no user and no membership.  When the call
    completes, the team had a slug, its parent has been cleared, no other
    team row has changed, and the standalone redirect of the slug is the
    one redirect deleted.  When the call throws the [HttpError] 400 of a
    missing slug, the team had no slug, its parent has been cleared all
    the same, the update coming first, and the redirect table is as it
    was. *)
Theorem removeTeamFromOrg_inside_org
    (targetOrgId teamId : Z) (s : Store) (row : Team)
    (Ht : teams s !! teamId = Some row)
    (Hp : parentId row = Some targetOrgId) :
  let res := RemoveTeamFromOrg.removeTeamFromOrg targetOrgId teamId s in
  let detached := {| slug := slug row; parentId := None;
                     team_metadata := team_metadata row |} in
  users res.1 = users s /\ memberships res.1 = memberships s /\
  (res.2 = Ok tt ->
   truthy_string (slug row) = true /\
   teams res.1 = <[teamId := detached]> (teams s) /\
   redirects res.1 =
     delete (RedirectType.Team, default "" (slug row), 0) (redirects s)) /\
  (res.2 = Throw (HttpError 400 "No slug for team. Not removing the redirect") ->
   truthy_string (slug row) = false /\
   teams res.1 = <[teamId := detached]> (teams s) /\
   redirects res.1 = redirects s).
Proof.
  intros res detached. subst res detached. rewrite (removeTeamFromOrg_run _ _ _ row Ht).
  cbv zeta. rewrite bool_decide_eq_true_2 by done.
  destruct (truthy_string (slug row)); cbn; repeat split; intros; done.
Qed.

(** X2.  [removeTeamFromOrg] is idempotent: after a call that completed,
    the same call completes again and leaves the store exactly as the
    first call left it. *)
Theorem removeTeamFromOrg_twice (targetOrgId teamId : Z) (s : Store)
    (Hok : (RemoveTeamFromOrg.removeTeamFromOrg targetOrgId teamId s).2 = Ok tt) :
  let first := RemoveTeamFromOrg.removeTeamFromOrg targetOrgId teamId s in
  RemoveTeamFromOrg.removeTeamFromOrg targetOrgId teamId first.1 = (first.1, Ok tt).
Proof.
  intros first. subst first.
  destruct (teams s !! teamId) as [row|] eqn:Ht.
  2:{ exfalso. revert Hok.
      unfold RemoveTeamFromOrg.removeTeamFromOrg, RemoveTeamFromOrg.updateTeam,
        prisma.team.findUnique, bind, read. rewrite Ht.
      by destruct (decide (Int_range teamId)). }
  rewrite (removeTeamFromOrg_run _ _ _ row Ht) in Hok |- *. cbv zeta in *.
  destruct (truthy_string (slug row)) eqn:Hslug; [|done]. clear Hok. cbn [fst].
  set (k := (RedirectType.Team, default "" (slug row), 0)).
  case_bool_decide as Hp.
  - rewrite (removeTeamFromOrg_run _ _ _ (reparent None row))
      by (cbn; by rewrite lookup_insert_eq).
    cbv zeta. cbn [reparent parentId slug]. rewrite bool_decide_eq_false_2 by done.
    rewrite Hslug. f_equal. apply store_eq; cbn; try done.
    fold k. by rewrite delete_delete_eq.
  - rewrite (removeTeamFromOrg_run _ _ _ row) by done.
    cbv zeta. rewrite bool_decide_eq_false_2 by done.
    rewrite Hslug. f_equal. apply store_eq; cbn; try done.
    fold k. by rewrite delete_delete_eq.
Qed.

(** ** The user reversal, as a whole *)

Lemma lookup_foldl_drop_team_redirect l r k :
  foldl drop_team_redirect r l !! k =
    if decide (k ∈ team_keys l) then None else r !! k.
Proof.
  revert r. induction l as [|x l IH]; intros r; cbn [foldl].
  { rewrite decide_False; [done|]. apply not_elem_of_nil. }
  rewrite IH. unfold drop_team_redirect, team_keys.
  destruct (truthy_string (slug x.2)) eqn:E.
  - rewrite filter_cons_True by (cbn; rewrite E; exact I). rewrite fmap_cons.
    fold (team_keys l).
    destruct (decide (k ∈ team_keys l)) as [Hin|Hin].
    + rewrite decide_True; [done|]. by apply list_elem_of_further.
    + destruct (decide (k = (RedirectType.Team, default "" (slug x.2), 0)))
        as [->|Hk].
      * rewrite decide_True by apply list_elem_of_here.
        by rewrite lookup_delete_eq.
      * rewrite lookup_delete_ne by done.
        rewrite decide_False; [done|].
        intros [?|?]%elem_of_cons; done.
  - rewrite filter_cons_False by (cbn; rewrite E; exact id). done.
Qed.

Lemma elem_of_team_keys l k :
  k ∈ team_keys l <->
  exists tid t sl, (tid, t) ∈ l /\ slug t = Some sl /\ sl ≠ "" /\
                   k = (RedirectType.Team, sl, 0).
Proof.
  unfold team_keys. rewrite list_elem_of_fmap. split.
  - intros ([tid t] & -> & Hin). apply list_elem_of_filter in Hin as [Hsl Hin].
    cbn in Hsl. destruct (slug t) as [sl|] eqn:Hs; [|done].
    exists tid, t, sl. cbn. rewrite Hs. cbn in *.
    repeat split; try done. intros ->. done.
  - intros (tid & t & sl & Hin & Hs & Hne & ->).
    exists (tid, t). cbn. rewrite Hs. split; [done|].
    apply list_elem_of_filter. split; [|done].
    cbn. rewrite Hs. cbn. by rewrite bool_decide_eq_false_2.
Qed.

(** Every check of [removeFromOrg] comes before its first write. *)
Lemma removeFromOrg_checked now targetOrgId userId s :
  (exists e,
      RemoveUserFromOrg.removeFromOrg now targetOrgId userId s = (s, Throw e) /\
      ((exists statusCode m,
           e = HttpError statusCode m /\ (statusCode = 400 \/ statusCode = 500)) \/
       e = prisma.P2020)) \/
  (exists u m n,
      users s !! userId = Some u /\ organizationId u = Some targetOrgId /\
      user_migratedToOrgFrom u = Some m /\ truthy_bool (reverted m) = false /\
      mig_username m = Some n /\ n ≠ "").
Proof.
  unfold RemoveUserFromOrg.removeFromOrg, prisma.user.findUnique.
  unfold bind at 1.
  destruct (users s !! userId) as [u|] eqn:Hu; cbn [fst snd].
  2:{ left. destruct (decide (Int_range userId)); unfold throw; eauto 8. }
  case_bool_decide as Horg; cbn [negb].
  2:{ left. unfold throw. eauto 8. }
  destruct (user_migratedToOrgFrom u) as [m|] eqn:Hm.
  2:{ left. unfold throw. eauto 8. }
  destruct (truthy_bool (reverted m)) eqn:Hrev.
  { left. unfold throw. eauto 8. }
  destruct (truthy_string (mig_username m)) eqn:Hn; cbn [negb].
  2:{ left. unfold throw. eauto 8. }
  right. destruct (mig_username m) as [n|] eqn:Hn'; [|done].
  cbn in Hn. apply negb_true_iff, bool_decide_eq_false in Hn.
  exists u, m, n. by repeat split.
Qed.

(** How [removeFromOrg] throws. *)
Lemma removeFromOrg_throw now targetOrgId userId s e :
  (RemoveUserFromOrg.removeFromOrg now targetOrgId userId s).2 = Throw e ->
  let res := RemoveUserFromOrg.removeFromOrg now targetOrgId userId s in
  (exists statusCode m,
      e = HttpError statusCode m /\ (statusCode = 400 \/ statusCode = 500) /\
      res.1 = s) \/
  (e = prisma.P2020 /\ res.1 = s) \/
  (e = PrismaClientKnownRequestError "P2025" /\
   memberships s !! (userId, targetOrgId) = None /\
   memberships res.1 = memberships s /\
   organizationId <$> users res.1 !! userId = Some None).
Proof.
  intros Hthrow res.
  destruct (removeFromOrg_checked now targetOrgId userId s)
    as [(e' & Hrun & He)|(u & m & n & Hu & Horg & Hm & Hrev & Hn & Hne)].
  - subst res. rewrite Hrun in Hthrow |- *. cbn in *. injection Hthrow as <-.
    destruct He as [(c & m & -> & Hc)| ->]; [left; eauto|right; left; done].
  - right. right.
    destruct (removeFromOrg_run now targetOrgId userId s u m n Hu Horg Hm Hrev Hn Hne)
      as (Hout & Hus & _ & Hms & _).
    fold res in Hout, Hus, Hms, Hthrow. rewrite Hthrow in Hout.
    destruct (memberships s !! (userId, targetOrgId)); [done|].
    injection Hout as ->. repeat split; try done.
    by rewrite Hus, lookup_insert_eq.
Qed.

(** X3.  What the outcome of [removeFromOrg] tells.  When the call
    completes, the (userId, targetOrgId) membership row existed and is
    gone, and the user has no organization.  When it throws an
    [HttpError], the status is 400 or 500 and the store is untouched:
    every check comes before the first write.  When it throws P2025, the
    error of the membership delete, the row was missing, the membership
    table is as it was, and the user has already been taken out of the
    organization. *)
Theorem removeFromOrg_outcomes
    (now : string) (targetOrgId userId : Z) (s : Store) :
  let res := RemoveUserFromOrg.removeFromOrg now targetOrgId userId s in
  (res.2 = Ok tt ->
   is_Some (memberships s !! (userId, targetOrgId)) /\
   memberships res.1 !! (userId, targetOrgId) = None /\
   organizationId <$> users res.1 !! userId = Some None) /\
  (forall statusCode m,
      res.2 = Throw (HttpError statusCode m) ->
      res.1 = s /\ (statusCode = 400 \/ statusCode = 500)) /\
  (res.2 = Throw (PrismaClientKnownRequestError "P2025") ->
   memberships s !! (userId, targetOrgId) = None /\
   memberships res.1 = memberships s /\
   organizationId <$> users res.1 !! userId = Some None).
Proof.
  intros res.
  destruct (removeFromOrg_checked now targetOrgId userId s)
    as [(e & Hrun & He)|(u & m & n & Hu & Horg & Hm & Hrev & Hn & Hne)].
  - fold res in Hrun. rewrite Hrun. cbn [fst snd].
    split; [done|]. split.
    + intros c' m' [= ->]. split; [done|].
      by destruct He as [(c & m & [= -> _] & Hc)|?].
    + intros [= ->]. by destruct He as [(c & m & ? & _)|?].
  - destruct (removeFromOrg_run now targetOrgId userId s u m n Hu Horg Hm Hrev Hn Hne)
      as (Hout & Hus & _ & Hms & _).
    fold res in Hout, Hus, Hms.
    assert (Hu' : organizationId <$> users res.1 !! userId = Some None)
      by (by rewrite Hus, lookup_insert_eq).
    rewrite Hout.
    destruct (memberships s !! (userId, targetOrgId)) as [row|] eqn:Hrow.
    + split; [|split; [done|done]].
      intros _. split; [eauto|]. split; [|done].
      by rewrite Hms, lookup_delete_eq.
    + split; [done|]. split; [done|]. intros _. by repeat split.
Qed.

(** X4.  When [removeFromOrg] completes for the user row u, the row is
    rewritten with the username recorded in [migratedToOrgFrom.username]
    (which was not empty), no organization, the same email, the other
    metadata keys as they were, and [migratedToOrgFrom] replaced by {
    username: null, reverted: true, revertTime: now }; no other user row
    changes; and the (userId, targetOrgId) membership row, which existed,
    is the one row deleted. *)
Theorem removeFromOrg_reverts_user
    (now : string) (targetOrgId userId : Z) (s : Store) (u : User)
    (Hu : users s !! userId = Some u)
    (Hok : (RemoveUserFromOrg.removeFromOrg now targetOrgId userId s).2 = Ok tt) :
  let res := RemoveUserFromOrg.removeFromOrg now targetOrgId userId s in
  exists n,
    user_migratedToOrgFrom u ≫= mig_username = Some n /\ n ≠ "" /\
    users res.1 =
      <[userId :=
          {| username := Some n;
             email := email u;
             organizationId := None;
             metadata :=
               Some {| migratedToOrgFrom :=
                         Some {| mig_username := None; reverted := Some true;
                                 revertTime := Some now;
                                 lastMigrationTime := None |};
                       otherKeys := match metadata u with
                                    | Some md => otherKeys md
                                    | None => []
                                    end |} |}]> (users s) /\
    is_Some (memberships s !! (userId, targetOrgId)) /\
    memberships res.1 = delete (userId, targetOrgId) (memberships s).
Proof.
  intros res.
  destruct (removeFromOrg_checked now targetOrgId userId s)
    as [(e0 & Hrun & _)|(u' & m & n & Hu' & Horg & Hm & Hrev & Hn & Hne)].
  { by rewrite Hrun in Hok. }
  rewrite Hu in Hu'. injection Hu' as <-.
  destruct (removeFromOrg_run now targetOrgId userId s u m n Hu Horg Hm Hrev Hn Hne)
    as (Hout & Hus & _ & Hms & _).
  fold res in Hout, Hus, Hms, Hok. rewrite Hok in Hout.
  exists n. rewrite Hm. cbn. split; [done|]. split; [done|].
  split; [exact Hus|].
  destruct (memberships s !! (userId, targetOrgId)); [|done]. split; [eauto|done].
Qed.

(** X5.  When [removeFromOrg] completes, every team the user has a
    membership of and that is not an organization ends with no parent,
    whatever its parent was, and the standalone redirect of its slug is
    gone; organizations, teams the user has no membership of and absent
    ids are left as they were; the user redirect of the recorded username
    is gone; and no redirect is added or changed: each entry is either
    gone or as before. *)
Theorem removeFromOrg_detaches_teams
    (now : string) (targetOrgId userId : Z) (s : Store) (u : User)
    (Hu : users s !! userId = Some u)
    (Hok : (RemoveUserFromOrg.removeFromOrg now targetOrgId userId s).2 = Ok tt) :
  let res := RemoveUserFromOrg.removeFromOrg now targetOrgId userId s in
  (forall tid row,
      teams s !! tid = Some row ->
      is_Some (memberships s !! (userId, tid)) ->
      is_organization (team_metadata row) = false ->
      teams res.1 !! tid =
        Some {| slug := slug row; parentId := None;
                team_metadata := team_metadata row |} /\
      (truthy_string (slug row) = true ->
       redirects res.1 !! (RedirectType.Team, default "" (slug row), 0) = None)) /\
  (forall tid row,
      teams s !! tid = Some row ->
      is_organization (team_metadata row) = true ->
      teams res.1 !! tid = Some row) /\
  (forall tid,
      memberships s !! (userId, tid) = None -> teams res.1 !! tid = teams s !! tid) /\
  (forall tid, teams s !! tid = None -> teams res.1 !! tid = None) /\
  (forall n, user_migratedToOrgFrom u ≫= mig_username = Some n ->
             redirects res.1 !! (RedirectType.User, n, 0) = None) /\
  (forall k, redirects res.1 !! k = None \/ redirects res.1 !! k = redirects s !! k).
Proof.
  intros res.
  destruct (removeFromOrg_checked now targetOrgId userId s)
    as [(e0 & Hrun & _)|(u' & m & n' & Hu' & Horg & Hm & Hrev & Hn' & Hne)].
  { by rewrite Hrun in Hok. }
  rewrite Hu in Hu'. injection Hu' as <-.
  destruct (removeFromOrg_run now targetOrgId userId s u m n' Hu Horg Hm Hrev Hn' Hne)
    as (_ & _ & Hts & _ & Hrs).
  fold res in Hts, Hrs.
  split; [|split; [|split; [|split; [|split]]]].
  - intros tid row Ht Hmem Hno.
    assert (Hin : (tid, row) ∈ memberTeams userId s) by (by apply elem_of_memberTeams).
    split.
    + rewrite Hts, Ht. cbn. rewrite decide_True; [done|].
      apply memberTeams_fst_elem. eauto.
    + intros Hslug. rewrite Hrs, lookup_foldl_drop_team_redirect.
      rewrite decide_True; [done|].
      destruct (slug row) as [sl|] eqn:Hs; [|done].
      apply elem_of_team_keys. exists tid, row, sl. cbn in *.
      repeat split; try done. intros ->. done.
  - intros tid row Ht Hyes. rewrite Hts, Ht. cbn. rewrite decide_False; [done|].
    intros Hin. apply memberTeams_fst_elem in Hin as [t Hin].
    apply elem_of_memberTeams in Hin as (Ht' & Hno & _). congruence.
  - intros tid Hmem. rewrite Hts. destruct (teams s !! tid) as [row|]; [|done].
    cbn. rewrite decide_False; [done|].
    intros Hin. apply memberTeams_fst_elem in Hin as [t Hin].
    apply elem_of_memberTeams in Hin as (_ & _ & [? Hsome]). congruence.
  - intros tid Ht. by rewrite Hts, Ht.
  - intros n Hn. rewrite Hm in Hn. cbn in Hn. rewrite Hn' in Hn. injection Hn as <-.
    rewrite Hrs. apply foldl_drop_team_redirect_None, lookup_delete_eq.
  - intros k. rewrite Hrs, lookup_foldl_drop_team_redirect.
    case_decide; [by left|].
    destruct (decide (k = (RedirectType.User, n', 0))) as [->|Hk].
    + left. apply lookup_delete_eq.
    + right. by rewrite lookup_delete_ne.
Qed.

(** X6.  [removeFromOrg] is not idempotent on success: after a call that
    completed, the same call throws an [HttpError] 400 saying the user is
    not part of the organization, and leaves the store as the first call
    left it. *)
Theorem removeFromOrg_second_call
    (now now' : string) (targetOrgId userId : Z) (s : Store)
    (Hok : (RemoveUserFromOrg.removeFromOrg now targetOrgId userId s).2 = Ok tt) :
  let first := RemoveUserFromOrg.removeFromOrg now targetOrgId userId s in
  RemoveUserFromOrg.removeFromOrg now' targetOrgId userId first.1 =
    (first.1, Throw (HttpError 400
                       ("User with id: " +:+ pretty userId
                        +:+ " is not part of orgId: " +:+ pretty targetOrgId))).
Proof.
  intros first.
  destruct (removeFromOrg_checked now targetOrgId userId s)
    as [(e0 & Hrun & _)|(u & m & n & Hu & Horg & Hm & Hrev & Hn & Hne)].
  { by rewrite Hrun in Hok. }
  destruct (removeFromOrg_run now targetOrgId userId s u m n Hu Horg Hm Hrev Hn Hne)
    as (_ & Hus & _).
  fold first in Hus.
  unfold RemoveUserFromOrg.removeFromOrg at 1, prisma.user.findUnique.
  unfold bind at 1. unfold read. rewrite Hus, lookup_insert_eq. reflexivity.
Qed.

(** ** The user migration, as a whole *)

Section MigrationAsAWhole.
Variable getOrgFullOrigin : string -> string.
Variable getOrgUsernameFromEmail : string -> string -> string.
Import OrgMigration.

Lemma candidate_throws a s e :
  xorb (truthy_number (userId a)) (truthy_string (userName a)) = true ->
  candidate a s = Throw e ->
  e = Error ("More than one user found with username: " +:+ default "" (userName a)) \/
  e = prisma.P2020.
Proof.
  intros Hargs. unfold candidate, getUniqueUserThatDoesntBelongToOrg,
    prisma.user.findMany, prisma.user.findUnique, bind, read, throw, ret.
  destruct (truthy_string (userName a)) eqn:Hn.
  - cbn -[filter map_to_list]. case_bool_decide; cbn; [|done]. intros [= <-]. by left.
  - destruct (userId a) as [i|]; [|done].
    destruct (users s !! i); [done|].
    destruct (decide (Int_range i)); [done|]. cbn. intros [= <-]. by right.
Qed.

(** The errors of the checks, with the store as it was found. *)
Lemma migrate_check_errors now a s :
  (exists e,
      migrateUserToOrg getOrgFullOrigin getOrgUsernameFromEmail now a s = (s, Throw e) /\
      ((exists m, e = HttpError 400 m) \/
       e = Error (pretty (targetOrgId a) +:+ " is not an Org") \/
       (e = Error ("More than one user found with username: "
                   +:+ default "" (userName a)) /\
        candidate a s = Throw e) \/
       e = prisma.P2020)) \/
  (exists org uid u n, migration_checks getOrgUsernameFromEmail a s org uid u n).
Proof.
  unfold migrateUserToOrg.
  destruct (xorb (truthy_number (userId a)) (truthy_string (userName a))) eqn:Hargs.
  2:{ left. unfold assertUserIdOrUserName, bind, throw.
      destruct (truthy_number (userId a)), (truthy_string (userName a));
        try discriminate; cbn; eauto 6. }
  rewrite (bind_run _ _ _ _ _ (assertUserIdOrUserName_run _ _ _ Hargs)).
  destruct (teams s !! targetOrgId a) as [org|] eqn:Horg.
  2:{ left. unfold getTeamOrThrowError, prisma.team.findUnique, bind, read, throw.
      rewrite Horg. destruct (decide (Int_range (targetOrgId a))); cbn; eauto 8. }
  rewrite (bind_run _ _ _ _ _ (getTeamOrThrowError_run _ _ _ Horg)).
  cbn [fst snd]. unfold teamMetadataSchema_parse.
  destruct (is_organization (team_metadata org)) eqn:Hisorg; cbn [negb].
  2:{ left. unfold throw. eauto 6. }
  destruct (candidate a s) as [[[uid u]|]|e] eqn:Hcand.
  3:{ left. exists e. split.
      - apply bind_fail. by rewrite getUnique_run, Hcand.
      - right. right.
        destruct (candidate_throws a s e Hargs Hcand) as [He|He]; [left|by right].
        by rewrite <-He. }
  2:{ left. rewrite (bind_run _ _ s s None) by (by rewrite getUnique_run, Hcand).
      unfold assertUserPartOfOtherOrg, bind, throw. eauto 6. }
  rewrite (bind_run _ _ s s (Some (uid, u))) by (by rewrite getUnique_run, Hcand).
  destruct (movable (targetOrgId a) u) eqn:Hmov.
  2:{ left. unfold assertUserPartOfOtherOrg, bind, throw. cbn [snd].
      unfold movable in Hmov. apply negb_false_iff in Hmov. rewrite Hmov. eauto 6. }
  rewrite (bind_run _ _ _ _ _ (assertUserPartOfOtherOrg_run (uid, u) _ _ _ _ Hmov)).
  cbn [fst snd]. fold (targetName getOrgUsernameFromEmail a org u).
  set (name := targetName getOrgUsernameFromEmail a org u).
  unfold bind at 1. unfold prisma.user.findFirst, read.
  fold (holder name (targetOrgId a) s).
  destruct (collision_free (userId a) (holder name (targetOrgId a) s)) eqn:Hcoll.
  2:{ left. unfold collision_free in Hcoll.
      destruct (holder _ _ _); [|done]. rewrite Hcoll. cbn [negb].
      unfold throw. eauto 6. }
  assert (Hc : match holder name (targetOrgId a) s with
               | Some r => negb (bool_decide (Some r.1 = userId a))
               | None => false
               end = false).
  { unfold collision_free in Hcoll. destruct (holder _ _ _); [by rewrite Hcoll|done]. }
  rewrite Hc. clear Hc.
  rewrite (bind_run _ _ _ _ _ (assertRemigration_run (uid, u) _ _ _ _ Hmov)).
  fold (nonOrgUserNameOf u).
  destruct (truthy_string (nonOrgUserNameOf u)) eqn:Hn; cbn [negb].
  2:{ left. unfold throw. eauto 6. }
  right. unfold truthy_string in Hn.
  destruct (nonOrgUserNameOf u) as [n|] eqn:Hn'; [|done].
  apply negb_true_iff, bool_decide_eq_false in Hn.
  exists org, uid, u, n. by repeat split.
Qed.

(** A migration that got through, read back from its outcome. *)
Lemma migrate_success_checks now a s org uid u :
  teams s !! targetOrgId a = Some org ->
  candidate a s = Ok (Some (uid, u)) ->
  (migrateUserToOrg getOrgFullOrigin getOrgUsernameFromEmail now a s).2 = Ok tt ->
  exists n, migration_checks getOrgUsernameFromEmail a s org uid u n /\
            orb (truthy_string (slug org))
                (truthy_string (team_metadata org ≫= requestedSlug)) = true.
Proof.
  intros Horg Hcand Hok.
  destruct (migrate_success_inv getOrgFullOrigin getOrgUsernameFromEmail now a s Hok)
    as (org' & uid' & u' & n & Hchecks).
  pose proof Hchecks as (_ & Horg' & _ & Hcand' & _).
  rewrite Horg in Horg'. injection Horg' as <-.
  rewrite Hcand in Hcand'. injection Hcand' as <- <-.
  exists n. split; [done|].
  destruct (migrate_run getOrgFullOrigin getOrgUsernameFromEmail now a s org uid u n
              Hchecks) as (Hout & _).
  rewrite Hok in Hout. by destruct (orb _ _).
Qed.

(** X7.  The errors [migrateUserToOrg] raises itself.  An [HttpError] it
    throws has status 400.  A plain [Error] it throws says that the target
    is not an organization, or that more than one user goes by the
    userName; neither is an [HttpError], so a handler answers them with
    500. *)
Theorem migrateUserToOrg_errors (now : string) (a : Args) (s : Store) :
  let res := migrateUserToOrg getOrgFullOrigin getOrgUsernameFromEmail now a s in
  (forall statusCode m,
      res.2 = Throw (HttpError statusCode m) ->
      statusCode = 400 /\ responseStatus (HttpError statusCode m) = 400) /\
  (forall m,
      res.2 = Throw (Error m) ->
      (m = pretty (targetOrgId a) +:+ " is not an Org" \/
       m = "More than one user found with username: " +:+ default "" (userName a)) /\
      responseStatus (Error m) = 500).
Proof.
  intros res.
  assert (Hclass : forall e, res.2 = Throw e ->
            (exists m, e = HttpError 400 m) \/
            e = Error (pretty (targetOrgId a) +:+ " is not an Org") \/
            e = Error ("More than one user found with username: "
                       +:+ default "" (userName a)) \/
            e = prisma.P2020).
  { intros e Hthrow.
    destruct (migrate_check_errors now a s)
      as [(e' & Hrun & He)|(org & uid & u & n & Hchecks)].
    - fold res in Hrun. rewrite Hrun in Hthrow. cbn in Hthrow. injection Hthrow as <-.
      destruct He as [?|[?|[[? _]|?]]]; eauto.
    - destruct (migrate_run getOrgFullOrigin getOrgUsernameFromEmail now a s org uid u n
                  Hchecks) as (Hout & _).
      fold res in Hout. rewrite Hthrow in Hout. destruct (orb _ _); [done|].
      injection Hout as ->. eauto. }
  split.
  - intros c m Hthrow.
    destruct (Hclass _ Hthrow) as [[m' [= -> _]]|[?|[?|?]]]; done.
  - intros m Hthrow. split; [|done].
    destruct (Hclass _ Hthrow) as [[m' ?]|[[= ->]|[[= ->]|?]]];
      [done|by left|by right|done].
Qed.

(** X8.  The errors [migrateUserToOrg] raises itself, and the store.  A
    plain [Error] comes with the store untouched.  An [HttpError] comes
    with the store untouched, every check coming before the first write,
    unless it is the one of the slug back-fill, which runs last: then the
    user is in the organization and has the membership asked for, and no
    redirect has been written, the organization having no slug to build
    one from. *)
Theorem migrateUserToOrg_failure_leaves_store
    (now : string) (a : Args) (s : Store) :
  let res := migrateUserToOrg getOrgFullOrigin getOrgUsernameFromEmail now a s in
  (forall m, res.2 = Throw (Error m) -> res.1 = s) /\
  (forall statusCode m,
      res.2 = Throw (HttpError statusCode m) ->
      res.1 = s \/
      (HttpError statusCode m =
         HttpError 400
           ("Org with id: " +:+ pretty (targetOrgId a)
            +:+ " doesn't have a slug. Tried using requestedSlug but that's also not present. So, all migration done but failed to set the Organization slug. Please set it manually") /\
       redirects res.1 = redirects s /\
       exists uid u,
         candidate a s = Ok (Some (uid, u)) /\
         organizationId <$> users res.1 !! uid = Some (Some (targetOrgId a)) /\
         memberships res.1 !! (uid, targetOrgId a) =
           Some {| role := targetOrgRole a;
                   accepted := default true (targetOrgMembershipAccepted a) |})).
Proof.
  intros res.
  destruct (migrate_check_errors now a s)
    as [(e' & Hrun & He)|(org & uid & u & n & Hchecks)].
  - fold res in Hrun. rewrite Hrun. cbn [fst snd]. split; [done|]. intros; by left.
  - destruct (migrate_run getOrgFullOrigin getOrgUsernameFromEmail now a s org uid u n
                Hchecks) as (Hout & Hus & Hms & Hrs & _).
    fold res in Hout, Hus, Hms, Hrs.
    destruct (truthy_string (slug org)) eqn:Hslug;
      [rewrite Hout; by split|].
    destruct (truthy_string (team_metadata org ≫= requestedSlug)) eqn:Hrs';
      [rewrite Hout; by split|].
    cbn [orb] in Hout. split; [by rewrite Hout|].
    intros c m Hthrow. right. rewrite Hthrow in Hout. injection Hout as -> ->.
    split; [done|]. split.
    + rewrite Hrs. unfold added_redirects, or_string. by rewrite Hslug, Hrs'.
    + destruct Hchecks as (_ & _ & _ & Hcand & _).
      exists uid, u. split; [done|]. split.
      * by rewrite Hus, lookup_insert_eq.
      * by rewrite Hms, lookup_insert_eq.
Qed.

(** X9.  When [migrateUserToOrg] completes for the candidate (uid, u), the
    user row is rewritten with the username asked for (or, none being
    given, the one derived from the email address and the organization's
    auto-accept domain), [organizationId] the target, the same email, the
    other metadata keys as they were, and [migratedToOrgFrom] replaced by
    the standalone username (the one already recorded when there is one,
    the current username otherwise) and the time of the call: a [reverted]
    flag of an earlier reversal is dropped.  No other user row changes.
    The (uid, targetOrgId) membership is created or overwritten with the
    role given and [accepted], true by default; no other membership
    changes. *)
Theorem migrateUserToOrg_moves_user
    (now : string) (a : Args) (s : Store) (org : Team) (uid : Z) (u : User)
    (Horg : teams s !! targetOrgId a = Some org)
    (Hcand : candidate a s = Ok (Some (uid, u)))
    (Hok : (migrateUserToOrg getOrgFullOrigin getOrgUsernameFromEmail now a s).2 = Ok tt) :
  let res := migrateUserToOrg getOrgFullOrigin getOrgUsernameFromEmail now a s in
  truthy_string (nonOrgUserNameOf u) = true /\
  users res.1 =
    <[uid :=
        {| username := Some (targetName getOrgUsernameFromEmail a org u);
           email := email u;
           organizationId := Some (targetOrgId a);
           metadata :=
             Some {| migratedToOrgFrom :=
                       Some {| mig_username := nonOrgUserNameOf u;
                               reverted := None;
                               revertTime := None;
                               lastMigrationTime := Some now |};
                     otherKeys := match metadata u with
                                  | Some md => otherKeys md
                                  | None => []
                                  end |} |}]> (users s) /\
  memberships res.1 =
    <[(uid, targetOrgId a) :=
        {| role := targetOrgRole a;
           accepted := default true (targetOrgMembershipAccepted a) |}]>
      (memberships s).
Proof.
  intros res.
  destruct (migrate_success_checks now a s org uid u Horg Hcand Hok) as (n & Hchecks & _).
  destruct (migrate_run getOrgFullOrigin getOrgUsernameFromEmail now a s org uid u n
              Hchecks) as (_ & Hus & Hms & _).
  fold res in Hus, Hms.
  destruct Hchecks as (_ & _ & _ & _ & _ & _ & Hn & Hne).
  rewrite Hn. split.
  - cbn. by rewrite bool_decide_eq_false_2.
  - split; [exact Hus|exact Hms].
Qed.

(** X10.  When [migrateUserToOrg] completes, every team the user has a
    membership of and that is not an organization ends with the target as
    its parent, whatever its parent was, slug and metadata kept; other
    organizations, teams the user has no membership of and absent ids are
    left as they were; and the target's own row changes in its slug only,
    which is the requestedSlug when the organization had no slug. *)
Theorem migrateUserToOrg_relocates_teams
    (now : string) (a : Args) (s : Store) (org : Team) (uid : Z) (u : User)
    (Horg : teams s !! targetOrgId a = Some org)
    (Hcand : candidate a s = Ok (Some (uid, u)))
    (Hok : (migrateUserToOrg getOrgFullOrigin getOrgUsernameFromEmail now a s).2 = Ok tt) :
  let res := migrateUserToOrg getOrgFullOrigin getOrgUsernameFromEmail now a s in
  (forall tid row,
      teams s !! tid = Some row ->
      is_Some (memberships s !! (uid, tid)) ->
      is_organization (team_metadata row) = false ->
      teams res.1 !! tid =
        Some {| slug := slug row; parentId := Some (targetOrgId a);
                team_metadata := team_metadata row |}) /\
  (forall tid row,
      tid ≠ targetOrgId a -> teams s !! tid = Some row ->
      is_organization (team_metadata row) = true ->
      teams res.1 !! tid = Some row) /\
  (forall tid,
      tid ≠ targetOrgId a -> memberships s !! (uid, tid) = None ->
      teams res.1 !! tid = teams s !! tid) /\
  (forall tid, teams s !! tid = None -> teams res.1 !! tid = None) /\
  teams res.1 !! targetOrgId a =
    Some {| slug := if truthy_string (slug org) then slug org
                    else team_metadata org ≫= requestedSlug;
            parentId := parentId org;
            team_metadata := team_metadata org |}.
Proof.
  intros res.
  destruct (migrate_success_checks now a s org uid u Horg Hcand Hok)
    as (n & Hchecks & Hslug).
  destruct (migrate_run getOrgFullOrigin getOrgUsernameFromEmail now a s org uid u n
              Hchecks) as (_ & _ & _ & _ & Hts & Htarget).
  fold res in Hts, Htarget.
  destruct Hchecks as (_ & _ & Hisorg & _).
  split; [|split; [|split; [|split]]].
  - intros tid row Ht Hmem Hno.
    assert (Hne : tid ≠ targetOrgId a) by congruence.
    rewrite (Hts tid Hne), Ht. cbn. rewrite decide_True; [done|].
    apply memberTeams_fst_elem. exists row. by apply elem_of_memberTeams.
  - intros tid row Hne Ht Hyes. rewrite (Hts tid Hne), Ht. cbn.
    rewrite decide_False; [done|].
    intros Hin. apply memberTeams_fst_elem in Hin as [t Hin].
    apply elem_of_memberTeams in Hin as (Ht' & Hno & _). congruence.
  - intros tid Hne Hmem. rewrite (Hts tid Hne).
    destruct (teams s !! tid) as [row|]; [|done].
    cbn. rewrite decide_False; [done|].
    intros Hin. apply memberTeams_fst_elem in Hin as [t Hin].
    apply elem_of_memberTeams in Hin as (_ & _ & [? Hsome]). congruence.
  - intros tid Ht. destruct (decide (tid = targetOrgId a)) as [->|Hne]; [congruence|].
    by rewrite (Hts tid Hne), Ht.
  - rewrite Htarget. do 2 f_equal. unfold slug_after.
    destruct (truthy_string (slug org)); [done|]. cbn [orb] in Hslug.
    rewrite Hslug. by destruct (team_metadata org ≫= requestedSlug).
Qed.

(** X11.  When [migrateUserToOrg] completes, the organization has a slug
    or a requestedSlug, and with the origin of the first of the two that
    is set: the standalone username redirects to
    origin/username-in-the-organization; each relocated team with a slug
    redirects to origin/team/slug; every other user redirect, every team
    redirect of a slug none of the user's teams has, and every entry with
    a [fromOrgId] other than 0 is as it was. *)
Theorem migrateUserToOrg_redirects
    (now : string) (a : Args) (s : Store) (org : Team) (uid : Z) (u : User)
    (Horg : teams s !! targetOrgId a = Some org)
    (Hcand : candidate a s = Ok (Some (uid, u)))
    (Hok : (migrateUserToOrg getOrgFullOrigin getOrgUsernameFromEmail now a s).2 = Ok tt) :
  let res := migrateUserToOrg getOrgFullOrigin getOrgUsernameFromEmail now a s in
  let orgSlug := or_string (slug org) (team_metadata org ≫= requestedSlug) in
  let orgUrlPrefix := getOrgFullOrigin (default "" orgSlug) in
  truthy_string orgSlug = true /\
  redirects res.1 !! (RedirectType.User, default "" (nonOrgUserNameOf u), 0) =
    Some (orgUrlPrefix +:+ "/" +:+ targetName getOrgUsernameFromEmail a org u) /\
  (forall tid row,
      teams s !! tid = Some row ->
      is_Some (memberships s !! (uid, tid)) ->
      is_organization (team_metadata row) = false ->
      truthy_string (slug row) = true ->
      redirects res.1 !! (RedirectType.Team, default "" (slug row), 0) =
        Some (orgUrlPrefix +:+ "/team/" +:+ default "" (slug row))) /\
  (forall from,
      Some from ≠ nonOrgUserNameOf u ->
      redirects res.1 !! (RedirectType.User, from, 0) =
        redirects s !! (RedirectType.User, from, 0)) /\
  (forall from,
      (forall tid row, teams s !! tid = Some row ->
                       is_Some (memberships s !! (uid, tid)) ->
                       slug row ≠ Some from) ->
      redirects res.1 !! (RedirectType.Team, from, 0) =
        redirects s !! (RedirectType.Team, from, 0)) /\
  (forall type from fromOrgId,
      fromOrgId ≠ 0 ->
      redirects res.1 !! (type, from, fromOrgId) = redirects s !! (type, from, fromOrgId)).
Proof.
  intros res orgSlug orgUrlPrefix.
  destruct (migrate_success_checks now a s org uid u Horg Hcand Hok)
    as (n & Hchecks & Hslug).
  destruct (migrate_run getOrgFullOrigin getOrgUsernameFromEmail now a s org uid u n
              Hchecks) as (_ & _ & _ & Hrs & _).
  fold res in Hrs.
  destruct Hchecks as (_ & _ & _ & _ & _ & _ & Hn & Hne).
  assert (Hos : truthy_string orgSlug = true).
  { unfold orgSlug, or_string. destruct (truthy_string (slug org)) eqn:E; [done|].
    exact Hslug. }
  assert (Hl : forall k, redirects res.1 !! k =
             if decide (k ∈ team_keys (memberTeams uid s))
             then Some (orgUrlPrefix +:+ "/team/" +:+ k.1.2)
             else <[(RedirectType.User, n, 0) :=
                      orgUrlPrefix +:+ "/" +:+ targetName getOrgUsernameFromEmail a org u]>
                    (redirects s) !! k).
  { intros k. rewrite Hrs. unfold added_redirects. fold orgSlug. rewrite Hos.
    apply lookup_foldl_add_team_redirect. }
  assert (Hkeys : forall k, k ∈ team_keys (memberTeams uid s) ->
            exists tid row sl, teams s !! tid = Some row /\
              is_Some (memberships s !! (uid, tid)) /\ slug row = Some sl /\
              k = (RedirectType.Team, sl, 0)).
  { intros k Hk. unfold team_keys in Hk. apply list_elem_of_fmap in Hk as ([tid row] & -> & Hin).
    apply list_elem_of_filter in Hin as [Hsl Hin].
    apply elem_of_memberTeams in Hin as (Ht & _ & Hmem).
    cbn in Hsl. destruct (slug row) as [sl|] eqn:Hs; [|done].
    exists tid, row, sl. cbn. by rewrite Hs. }
  split; [exact Hos|]. rewrite Hn. cbn [default from_option id].
  split; [|split; [|split; [|split]]].
  - rewrite Hl. rewrite decide_False.
    + by rewrite lookup_insert_eq.
    + intros Hk. apply Hkeys in Hk as (? & ? & ? & _ & _ & _ & [=]).
  - intros tid row Ht Hmem Hno Hsl. rewrite Hl. rewrite decide_True; [done|].
    unfold team_keys. apply list_elem_of_fmap. exists (tid, row). split; [done|].
    apply list_elem_of_filter. split; [cbn; by rewrite Hsl|].
    by apply elem_of_memberTeams.
  - intros from Hfrom. rewrite Hl. rewrite decide_False.
    + rewrite lookup_insert_ne; [done|]. congruence.
    + intros Hk. apply Hkeys in Hk as (? & ? & ? & _ & _ & _ & [=]).
  - intros from Hfrom. rewrite Hl. rewrite decide_False.
    + by rewrite lookup_insert_ne.
    + intros Hk. apply Hkeys in Hk as (tid & row & sl & Ht & Hmem & Hs & [= ->]).
      by apply (Hfrom tid row).
  - intros type from o Ho. rewrite Hl. rewrite decide_False.
    + rewrite lookup_insert_ne; [done|]. congruence.
    + intros Hk. apply Hkeys in Hk as (? & ? & ? & _ & _ & _ & [=]). congruence.
Qed.

(** X12.  [migrateUserToOrg] never creates or deletes a user or a team,
    and never deletes a membership or a redirect, whether it completes or
    throws. *)
Theorem migrateUserToOrg_keeps_rows (now : string) (a : Args) (s : Store) :
  let res := migrateUserToOrg getOrgFullOrigin getOrgUsernameFromEmail now a s in
  (forall j, is_Some (users res.1 !! j) <-> is_Some (users s !! j)) /\
  (forall j, is_Some (teams res.1 !! j) <-> is_Some (teams s !! j)) /\
  (forall k, is_Some (memberships s !! k) -> is_Some (memberships res.1 !! k)) /\
  (forall k, is_Some (redirects s !! k) -> is_Some (redirects res.1 !! k)).
Proof.
  intros res.
  destruct (migrate_checked getOrgFullOrigin getOrgUsernameFromEmail now a s)
    as [(e & Hrun)|(org & uid & u & n & Hchecks)].
  { subst res. rewrite Hrun. by cbn. }
  destruct (migrate_run getOrgFullOrigin getOrgUsernameFromEmail now a s org uid u n
              Hchecks) as (_ & Hus & Hms & Hrs & Hts & Htarget).
  fold res in Hus, Hms, Hrs, Hts, Htarget.
  destruct Hchecks as (_ & Horg & _ & Hcand & _).
  pose proof (candidate_lookup a s uid u Hcand) as Hu.
  split; [|split; [|split]].
  - intros j. rewrite Hus. destruct (decide (j = uid)) as [->|Hj].
    + rewrite lookup_insert_eq, Hu. split; eauto.
    + by rewrite lookup_insert_ne.
  - intros j. destruct (decide (j = targetOrgId a)) as [->|Hj].
    + rewrite Htarget, Horg. split; eauto.
    + rewrite (Hts j Hj). destruct (teams s !! j); cbn; [split; eauto|done].
  - intros k Hk. rewrite Hms. destruct (decide (k = (uid, targetOrgId a))) as [->|Hne].
    + rewrite lookup_insert_eq. eauto.
    + by rewrite lookup_insert_ne.
  - intros k Hk. rewrite Hrs. unfold added_redirects.
    destruct (truthy_string (or_string _ _)); [|done].
    rewrite lookup_foldl_add_team_redirect. case_decide; [eauto|].
    destruct (decide (k = (RedirectType.User, n, 0))) as [->|Hne].
    + rewrite lookup_insert_eq. eauto.
    + by rewrite lookup_insert_ne.
Qed.

End MigrationAsAWhole.

(** ** Who is migrated *)

(** A duplicate-free list whose elements all equal [y] is [y] alone. *)
Lemma NoDup_all_equal {A} (l : list A) (y : A) :
  NoDup l -> y ∈ l -> (forall x, x ∈ l -> x = y) -> l = [y].
Proof.
  intros Hnd Hy Hall. destruct l as [|a [|b l]].
  - by apply not_elem_of_nil in Hy.
  - f_equal. apply Hall, list_elem_of_here.
  - exfalso. apply NoDup_cons in Hnd as [Hnotin _]. apply Hnotin.
    rewrite (Hall a) by apply list_elem_of_here.
    rewrite <-(Hall b) by apply list_elem_of_further, list_elem_of_here.
    apply list_elem_of_here.
Qed.

(** The users [getUniqueUserThatDoesntBelongToOrg] keeps for a userName. *)
Lemma elem_of_foundUsers name ex s j v :
  (j, v) ∈ filter (fun r : Z * User =>
                     organizationId r.2 = Some ex \/ organizationId r.2 = None)
                  (filter (fun r : Z * User => username r.2 = Some name)
                          (map_to_list (users s)))
  <-> users s !! j = Some v /\ username v = Some name /\
      (organizationId v = Some ex \/ organizationId v = None).
Proof.
  rewrite !list_elem_of_filter, elem_of_map_to_list. cbn. tauto.
Qed.

(** X13.  Resolution by userName: [getUniqueUserThatDoesntBelongToOrg]
    returns the user (uid, u) exactly when u goes by that username, is in
    no organization or in the given one, and is the only such user.  Users
    of other organizations with the same username are not looked at, and
    the order of the table scan does not matter. *)
Theorem getUniqueUser_by_userName
    (name : string) (userId : option Z) (excludeOrgId : Z) (s : Store)
    (uid : Z) (u : User) (Hname : name ≠ "") :
  (OrgMigration.getUniqueUserThatDoesntBelongToOrg (Some name) userId excludeOrgId s).2
    = Ok (Some (uid, u))
  <->
  (users s !! uid = Some u /\ username u = Some name /\
   (organizationId u = Some excludeOrgId \/ organizationId u = None) /\
   forall j v, users s !! j = Some v -> username v = Some name ->
               (organizationId v = Some excludeOrgId \/ organizationId v = None) ->
               j = uid).
Proof.
  unfold OrgMigration.getUniqueUserThatDoesntBelongToOrg. cbn [truthy_string].
  rewrite bool_decide_eq_false_2 by done. cbn [negb].
  unfold prisma.user.findMany, bind, read, throw, ret.
  cbn -[filter map_to_list].
  set (l := filter _ (filter _ (map_to_list (users s)))).
  assert (Hnd : NoDup l) by (do 2 apply NoDup_filter; apply NoDup_map_to_list).
  assert (Hl : forall j v, (j, v) ∈ l <->
            users s !! j = Some v /\ username v = Some name /\
            (organizationId v = Some excludeOrgId \/ organizationId v = None))
    by (intros j v; apply elem_of_foundUsers).
  split.
  - case_bool_decide as Hlen; cbn; [done|]. intros [= Hh].
    destruct l as [|x [|y l']] eqn:El; cbn in *; [done| |lia].
    injection Hh as ->.
    destruct (proj1 (Hl uid u) (list_elem_of_here _ _)) as (Hu & Hn & Ho).
    repeat split; try done.
    intros j v Hj Hnj Hoj.
    assert (Hin : (j, v) ∈ [(uid, u)]) by (by apply Hl).
    apply list_elem_of_singleton in Hin. by injection Hin.
  - intros (Hu & Hn & Ho & Huniq).
    assert (El : l = [(uid, u)]).
    { apply NoDup_all_equal; [done|by apply Hl|].
      intros [j v] Hin. apply Hl in Hin as (Hj & Hnj & Hoj).
      assert (j = uid) as -> by (by apply (Huniq j v)).
      congruence. }
    rewrite El. cbn. by rewrite bool_decide_eq_false_2 by lia.
Qed.

(** X14.  Whenever [assertUserPartOfOtherOrg] lets a user through,
    [assertUserPartOfOrgAndRemigrationAllowed] does too: the second guard
    of [migrateUserToOrg], which runs after the first, never throws. *)
Theorem remigration_guard_is_subsumed
    (r r' : Z * User) (userName : option string) (userId : option Z)
    (targetOrgId : Z) (targetOrgUsername : string) (s s' : Store)
    (Hfirst : OrgMigration.assertUserPartOfOtherOrg (Some r) userName userId targetOrgId s
              = (s', Ok r')) :
  OrgMigration.assertUserPartOfOrgAndRemigrationAllowed r' targetOrgId targetOrgUsername userId s'
    = (s', Ok tt).
Proof.
  unfold OrgMigration.assertUserPartOfOtherOrg in Hfirst.
  unfold OrgMigration.assertUserPartOfOrgAndRemigrationAllowed.
  destruct (truthy_number (organizationId r.2)) eqn:Hin; cbn [andb] in Hfirst.
  - destruct (bool_decide (organizationId r.2 = Some targetOrgId)) eqn:Ht;
      cbn [negb] in Hfirst; [|done].
    injection Hfirst as <- <-. by rewrite Hin, Ht.
  - injection Hfirst as <- <-. by rewrite Hin.
Qed.

Section Resolution.
Variable getOrgFullOrigin : string -> string.
Variable getOrgUsernameFromEmail : string -> string -> string.
Import OrgMigration.

Lemma migrate_no_candidate now a s org :
  xorb (truthy_number (userId a)) (truthy_string (userName a)) = true ->
  teams s !! targetOrgId a = Some org ->
  is_organization (team_metadata org) = true ->
  candidate a s = Ok None ->
  migrateUserToOrg getOrgFullOrigin getOrgUsernameFromEmail now a s =
    (s, Throw (HttpError 400
                 ("User "
                  +:+ (if truthy_string (userName a) then default "" (userName a)
                       else "ID:" +:+ show_number (userId a))
                  +:+ " is part of an org already"))).
Proof.
  intros Hargs Horg Hisorg Hcand. unfold migrateUserToOrg.
  rewrite (bind_run _ _ _ _ _ (assertUserIdOrUserName_run _ _ _ Hargs)).
  rewrite (bind_run _ _ _ _ _ (getTeamOrThrowError_run _ _ _ Horg)).
  cbn [fst snd]. unfold teamMetadataSchema_parse. rewrite Hisorg. cbn [negb].
  rewrite (bind_run _ _ s s None) by (by rewrite getUnique_run, Hcand).
  reflexivity.
Qed.

(** X15.  With an organization as the target, a userId within the range
    of the id column that has no row, and a userName that nobody goes by
    or only users of other organizations go by, are both answered with an
    [HttpError] 400 saying the user is part of an org already, and the
    store is untouched. *)
Theorem migrateUserToOrg_user_not_found
    (now : string) (a : Args) (s : Store) (org : Team)
    (Horg : teams s !! targetOrgId a = Some org)
    (Hisorg : is_organization (team_metadata org) = true) :
  (forall i,
      userId a = Some i -> i ≠ 0 -> Int_range i ->
      truthy_string (userName a) = false ->
      users s !! i = None ->
      migrateUserToOrg getOrgFullOrigin getOrgUsernameFromEmail now a s =
        (s, Throw (HttpError 400
                     ("User ID:" +:+ pretty i +:+ " is part of an org already")))) /\
  (forall name,
      userName a = Some name -> name ≠ "" -> truthy_number (userId a) = false ->
      (forall j v, users s !! j = Some v -> username v = Some name ->
                   organizationId v ≠ None /\
                   organizationId v ≠ Some (targetOrgId a)) ->
      migrateUserToOrg getOrgFullOrigin getOrgUsernameFromEmail now a s =
        (s, Throw (HttpError 400
                     ("User " +:+ name +:+ " is part of an org already")))).
Proof.
  split.
  - intros i Hi Hi0 Hrange Hn Hu.
    rewrite (migrate_no_candidate now a s org); try done.
    + by rewrite Hn, Hi.
    + rewrite Hi, Hn. cbn. by rewrite bool_decide_eq_false_2.
    + unfold candidate, getUniqueUserThatDoesntBelongToOrg. rewrite Hn, Hi.
      unfold prisma.user.findUnique. cbn. rewrite Hu. by rewrite decide_True.
  - intros name Hname Hne Hi Hnone.
    assert (Hn : truthy_string (userName a) = true).
    { rewrite Hname. cbn. by rewrite bool_decide_eq_false_2. }
    rewrite (migrate_no_candidate now a s org); try done.
    + by rewrite Hn, Hname.
    + by rewrite Hi, Hn.
    + unfold candidate, getUniqueUserThatDoesntBelongToOrg. rewrite Hn, Hname.
      unfold prisma.user.findMany, bind, read, throw, ret.
      cbn -[filter map_to_list].
      set (l := filter _ (filter _ (map_to_list (users s)))).
      assert (El : l = []).
      { destruct l as [|[j v] l'] eqn:E; [done|]. exfalso.
        assert (Hin : (j, v) ∈ l) by (rewrite E; apply list_elem_of_here).
        apply elem_of_foundUsers in Hin as (Hj & Hnj & Hoj).
        destruct (Hnone j v Hj Hnj) as [H1 H2]. by destruct Hoj. }
      rewrite El. cbn. done.
Qed.

End Resolution.

(** ** There and back, and the two designations *)

Section RoundTrip.
Variable getOrgFullOrigin : string -> string.
Variable getOrgUsernameFromEmail : string -> string -> string.
Import OrgMigration.


(** X17.  For a user in no organization, designation by userName and by
    userId agree: when the userName, given without a userId, resolves to
    (uid, u) with uid not 0 (which the code takes for no id), the call by
    name completes exactly when the call with [userId] uid in its place
    does, and both leave the same store. *)
Theorem standalone_user_by_name_or_by_id
    (now : string) (a : Args) (s : Store) (uid : Z) (u : User)
    (Hname : truthy_string (userName a) = true)
    (Hnoid : userId a = None)
    (Hcand : candidate a s = Ok (Some (uid, u)))
    (Hstandalone : organizationId u = None)
    (Huid : uid ≠ 0) :
  let byName := migrateUserToOrg getOrgFullOrigin getOrgUsernameFromEmail now a s in
  let byId := migrateUserToOrg getOrgFullOrigin getOrgUsernameFromEmail now
                (designate a (Some uid) None) s in
  (byName.2 = Ok tt <-> byId.2 = Ok tt) /\
  (byName.2 = Ok tt -> byName.1 = byId.1).
Proof.
  intros byName byId.
  set (a' := designate a (Some uid) None) in *.
  pose proof (candidate_lookup a s uid u Hcand) as Hu.
  assert (Hcand' : candidate a' s = Ok (Some (uid, u)))
    by (by apply (candidate_of_id a' s uid u)).
  assert (Hholder : forall org,
            collision_free (userId a)
              (holder (targetName getOrgUsernameFromEmail a org u) (targetOrgId a) s) =
            collision_free (userId a')
              (holder (targetName getOrgUsernameFromEmail a' org u) (targetOrgId a') s)).
  { intros org. change (targetName getOrgUsernameFromEmail a' org u)
      with (targetName getOrgUsernameFromEmail a org u). cbn [targetOrgId a' designate].
    destruct (holder _ _ s) as [[j v]|] eqn:Hh; [|done]. cbn.
    apply head_Some_elem_of, list_elem_of_filter in Hh as [[_ Hv] Hj].
    apply elem_of_map_to_list in Hj. cbn in Hv.
    assert (Hj' : j ≠ uid) by (intros ->; congruence).
    rewrite (bool_decide_eq_false_2 (Some j = Some uid)) by congruence.
    apply bool_decide_eq_false_2. by rewrite Hnoid. }
  assert (Hiff : forall org n,
            migration_checks getOrgUsernameFromEmail a s org uid u n <->
            migration_checks getOrgUsernameFromEmail a' s org uid u n).
  { intros org n. unfold migration_checks. rewrite (Hholder org), Hcand, Hcand'.
    cbn [userId userName targetOrgId a' designate truthy_number truthy_string].
    rewrite Hname, Hnoid, (bool_decide_eq_false_2 (uid = 0)) by done. cbn. tauto. }
  assert (Hinv : forall b, (migrateUserToOrg getOrgFullOrigin getOrgUsernameFromEmail
                              now b s).2 = Ok tt ->
            candidate b s = Ok (Some (uid, u)) ->
            exists org n, migration_checks getOrgUsernameFromEmail b s org uid u n).
  { intros b Hok Hc.
    destruct (migrate_success_inv getOrgFullOrigin getOrgUsernameFromEmail now b s Hok)
      as (org & uid' & u' & n & Hchecks).
    pose proof Hchecks as (_ & _ & _ & Hc' & _).
    rewrite Hc in Hc'. injection Hc' as <- <-. eauto. }
  assert (Hrun : forall org n,
            migration_checks getOrgUsernameFromEmail a s org uid u n ->
            byName.2 = byId.2 /\ byName.1 = byId.1).
  { intros org n Hchecks. pose proof (proj1 (Hiff org n) Hchecks) as Hchecks'.
    destruct (migrate_run getOrgFullOrigin getOrgUsernameFromEmail now a s org uid u n
                Hchecks) as (Ho & Hus & Hms & Hrs & Hts & Htt).
    destruct (migrate_run getOrgFullOrigin getOrgUsernameFromEmail now a' s org uid u n
                Hchecks') as (Ho' & Hus' & Hms' & Hrs' & Hts' & Htt').
    fold byName in Ho, Hus, Hms, Hrs, Hts, Htt.
    fold byId in Ho', Hus', Hms', Hrs', Hts', Htt'.
    change (targetOrgId a') with (targetOrgId a) in *.
    split; [by rewrite Ho, Ho'|].
    apply store_eq.
    - by rewrite Hus, Hus'.
    - apply map_eq. intros tid.
      destruct (decide (tid = targetOrgId a)) as [->|Hne].
      + by rewrite Htt, Htt'.
      + by rewrite (Hts tid Hne), (Hts' tid Hne).
    - by rewrite Hms, Hms'.
    - by rewrite Hrs, Hrs'. }
  split; [split|].
  - intros Hok. destruct (Hinv a Hok Hcand) as (org & n & Hchecks).
    destruct (Hrun org n Hchecks) as [E _]. by rewrite <-E.
  - intros Hok. destruct (Hinv a' Hok Hcand') as (org & n & Hchecks).
    apply Hiff in Hchecks. destruct (Hrun org n Hchecks) as [E _]. by rewrite E.
  - intros Hok. destruct (Hinv a Hok Hcand) as (org & n & Hchecks).
    by destruct (Hrun org n Hchecks).
Qed.

End RoundTrip.

(** ** Migration, reversal, migration *)

(** The teams a later call finds for the user are the teams the reversal
    detached. *)
Lemma memberTeams_removal now targetOrgId userId s u m n tid t2 :
  users s !! userId = Some u ->
  organizationId u = Some targetOrgId ->
  user_migratedToOrgFrom u = Some m ->
  truthy_bool (reverted m) = false ->
  mig_username m = Some n -> n ≠ "" ->
  (forall org, teams s !! targetOrgId = Some org ->
               is_organization (team_metadata org) = true) ->
  (tid, t2) ∈ memberTeams userId
      (RemoveUserFromOrg.removeFromOrg now targetOrgId userId s).1
  <-> exists t, (tid, t) ∈ memberTeams userId s /\ t2 = reparent None t.
Proof.
  intros Hu Horg Hm Hrev Hn Hne Htarget.
  destruct (removeFromOrg_run now targetOrgId userId s u m n Hu Horg Hm Hrev Hn Hne)
    as (_ & _ & Hts & Hms & _).
  set (s2 := (RemoveUserFromOrg.removeFromOrg now targetOrgId userId s).1) in *.
  assert (Hmem : forall tid', tid' ≠ targetOrgId ->
            memberships s2 !! (userId, tid') = memberships s !! (userId, tid')).
  { intros tid' Hne'. rewrite Hms. destruct (memberships s !! (userId, targetOrgId));
      [|done]. rewrite lookup_delete_ne; [done|]. congruence. }
  rewrite elem_of_memberTeams. split.
  - intros (Ht2 & Hno & Hin). rewrite Hts in Ht2.
    destruct (teams s !! tid) as [t|] eqn:Ht; [|done]. cbn in Ht2.
    assert (Hno' : is_organization (team_metadata t) = false).
    { case_decide; injection Ht2 as <-; done. }
    assert (Hne' : tid ≠ targetOrgId).
    { intros ->. specialize (Htarget t Ht). congruence. }
    rewrite (Hmem tid Hne') in Hin.
    assert (Hmt : (tid, t) ∈ memberTeams userId s) by (by apply elem_of_memberTeams).
    exists t. split; [done|].
    rewrite decide_True in Ht2; [by injection Ht2|].
    apply memberTeams_fst_elem. eauto.
  - intros (t & Hin & ->). pose proof Hin as Hin'.
    apply elem_of_memberTeams in Hin as (Ht & Hno & Hmem').
    assert (Hne' : tid ≠ targetOrgId).
    { intros ->. specialize (Htarget t Ht). congruence. }
    split; [|split; [done|by rewrite (Hmem tid Hne')]].
    rewrite Hts, Ht. cbn. rewrite decide_True; [done|].
    apply memberTeams_fst_elem. eauto.
Qed.

Lemma holder_None name orgId s :
  holder name orgId s = None <->
  forall j v, users s !! j = Some v ->
              ¬ (username v = Some name /\ organizationId v = Some orgId).
Proof.
  unfold holder. rewrite head_None. split.
  - intros Hnil j v Hj HP.
    assert (Hin : (j, v) ∈ filter (fun r : Z * User =>
                     username r.2 = Some name /\ organizationId r.2 = Some orgId)
                   (map_to_list (users s))).
    { apply list_elem_of_filter. split; [done|]. by apply elem_of_map_to_list. }
    rewrite Hnil in Hin. by apply not_elem_of_nil in Hin.
  - intros Hnone. destruct (filter _ _) as [|[j v] l] eqn:E; [done|]. exfalso.
    assert (Hin : (j, v) ∈ filter (fun r : Z * User =>
                     username r.2 = Some name /\ organizationId r.2 = Some orgId)
                   (map_to_list (users s))) by (rewrite E; apply list_elem_of_here).
    apply list_elem_of_filter in Hin as [HP Hin]. apply elem_of_map_to_list in Hin.
    by apply (Hnone j v).
Qed.

Section Cycle.
Variable getOrgFullOrigin : string -> string.
Variable getOrgUsernameFromEmail : string -> string -> string.
Import OrgMigration.

(** X28.  A migration by userId of a user in no organization, the
    reversal, and the same migration again: the second migration
    completes, and leaves the team, membership and redirect tables and
    every other user row as the first left them, and the whole store as a
    single migration made at its time leaves it; the store is the one the
    first migration left when the two read the same time, so
    [lastMigrationTime] alone tells them apart. *)
Theorem migrate_remove_migrate
    (now1 now2 now3 : string) (a : Args) (s : Store) (uid : Z) (u : User)
    (Hid : truthy_string (userName a) = false)
    (Hcand : candidate a s = Ok (Some (uid, u)))
    (Hstandalone : organizationId u = None)
    (Hfirst :
       (migrateUserToOrg getOrgFullOrigin getOrgUsernameFromEmail now1 a s).2 = Ok tt) :
  let s1 := (migrateUserToOrg getOrgFullOrigin getOrgUsernameFromEmail now1 a s).1 in
  let s2 := (RemoveUserFromOrg.removeFromOrg now2 (targetOrgId a) uid s1).1 in
  let third := migrateUserToOrg getOrgFullOrigin getOrgUsernameFromEmail now3 a s2 in
  third.2 = Ok tt /\
  teams third.1 = teams s1 /\
  memberships third.1 = memberships s1 /\
  redirects third.1 = redirects s1 /\
  (forall j, j ≠ uid -> users third.1 !! j = users s1 !! j) /\
  third.1 = (migrateUserToOrg getOrgFullOrigin getOrgUsernameFromEmail now3 a s).1 /\
  (now3 = now1 -> third.1 = s1).
Proof.
  intros s1 s2 third.
  destruct (migrate_success_inv getOrgFullOrigin getOrgUsernameFromEmail now1 a s Hfirst)
    as (org & uid' & u' & n & Hchecks).
  pose proof Hchecks as (Hargs & Horg & Hisorg & Hcand' & Hmov & Hcoll & Hn & Hne).
  rewrite Hcand in Hcand'. injection Hcand' as <- <-.
  pose proof (candidate_by_id a s uid u Hid Hcand) as Hui.
  pose proof (candidate_lookup a s uid u Hcand) as Hu.
  set (name := targetName getOrgUsernameFromEmail a org u) in *.
  set (org1 := {| slug := slug_after org; parentId := parentId org;
                  team_metadata := team_metadata org |}).
  set (u1 := migrated_user now1 (targetOrgId a) name u n).
  set (mrec := {| mig_username := Some n; reverted := None; revertTime := None;
                  lastMigrationTime := Some now1 |}).
  set (u2 := reverted_user now2 u1 n).
  set (mk := {| role := targetOrgRole a;
                accepted := default true (targetOrgMembershipAccepted a) |}).
  destruct (migrate_run getOrgFullOrigin getOrgUsernameFromEmail now1 a s org uid u n
              Hchecks) as (Ho1 & Hu1 & Hm1 & Hr1 & Ht1 & Htt1).
  destruct (migrate_run getOrgFullOrigin getOrgUsernameFromEmail now3 a s org uid u n
              Hchecks) as (_ & Hu3 & Hm3 & Hr3 & Ht3 & Htt3).
  fold s1 name u1 mk org1 in Ho1, Hu1, Hm1, Hr1, Ht1, Htt1.
  fold name mk org1 in Hu3, Hm3, Hr3, Ht3, Htt3.
  rewrite Hfirst in Ho1. symmetry in Ho1.
  assert (Hslugs : orb (truthy_string (slug org))
                       (truthy_string (team_metadata org ≫= requestedSlug)) = true)
    by (by destruct (orb _ _)).
  destruct (slug_after_truthy org Hslugs) as [Hsa Hos].
  assert (Hus1 : users s1 !! uid = Some u1) by (by rewrite Hu1, lookup_insert_eq).
  assert (Hmem1 : memberships s1 !! (uid, targetOrgId a) = Some mk)
    by (by rewrite Hm1, lookup_insert_eq).
  destruct (removeFromOrg_run now2 (targetOrgId a) uid s1 u1 mrec n Hus1)
    as (_ & Hu2 & Ht2 & Hm2 & Hr2); try done.
  fold s2 u2 in Hu2, Ht2, Hm2, Hr2. rewrite Hmem1 in Hm2.
  assert (Hnot : targetOrgId a ∉ (memberTeams uid s).*1).
  { intros Hin. apply memberTeams_fst_elem in Hin as [t Hin].
    apply elem_of_memberTeams in Hin as (Ht & Hno & _). congruence. }
  assert (Hfst1 : forall tid, tid ∈ (memberTeams uid s1).*1 <-> tid ∈ (memberTeams uid s).*1)
    by (intros tid;
        apply (memberTeams_fst_migration getOrgFullOrigin getOrgUsernameFromEmail
                 now1 a s org uid u n tid Hchecks)).
  assert (Hkeys1 : forall k, k ∈ team_keys (memberTeams uid s1)
                             <-> k ∈ team_keys (memberTeams uid s))
    by (intros k;
        apply (team_keys_migration getOrgFullOrigin getOrgUsernameFromEmail
                 now1 a s org uid u n k Hchecks)).
  assert (Hrem : forall tid t2, (tid, t2) ∈ memberTeams uid s2 <->
                   exists t, (tid, t) ∈ memberTeams uid s1 /\ t2 = reparent None t).
  { intros tid t2.
    apply (memberTeams_removal now2 (targetOrgId a) uid s1 u1 mrec n); try done.
    intros org' Horg'. rewrite Htt1 in Horg'. by injection Horg' as <-. }
  assert (Hfst2 : forall tid, tid ∈ (memberTeams uid s2).*1 <-> tid ∈ (memberTeams uid s).*1).
  { intros tid. rewrite <-Hfst1, !memberTeams_fst_elem. split.
    - intros [t2 Hin]. apply Hrem in Hin as (t & Hin & _). eauto.
    - intros [t Hin]. exists (reparent None t). apply Hrem. eauto. }
  assert (Hkeys2 : forall k, k ∈ team_keys (memberTeams uid s2)
                             <-> k ∈ team_keys (memberTeams uid s)).
  { intros k. rewrite <-Hkeys1. unfold team_keys. rewrite !list_elem_of_fmap. split.
    - intros ([tid t2] & -> & Hin). apply list_elem_of_filter in Hin as [Hsl Hin].
      apply Hrem in Hin as (t & Hin & ->).
      exists (tid, t). split; [done|]. by apply list_elem_of_filter.
    - intros ([tid t] & -> & Hin). apply list_elem_of_filter in Hin as [Hsl Hin].
      exists (tid, reparent None t). split; [done|].
      apply list_elem_of_filter. split; [done|]. apply Hrem. eauto. }
  (* the checks, after the reversal *)
  assert (Hus2 : users s2 !! uid = Some u2) by (by rewrite Hu2, lookup_insert_eq).
  assert (Hto2 : teams s2 !! targetOrgId a = Some org1).
  { rewrite Ht2, Htt1. cbn. rewrite decide_False; [done|]. by rewrite Hfst1. }
  assert (Hholder : holder name (targetOrgId a) s = None).
  { unfold collision_free in Hcoll. destruct (holder _ _ s) as [[j v]|] eqn:Hh; [|done].
    exfalso. apply bool_decide_eq_true in Hcoll. cbn in Hcoll. rewrite Hui in Hcoll.
    injection Hcoll as ->.
    apply head_Some_elem_of, list_elem_of_filter in Hh as [[_ Hv] Hj].
    apply elem_of_map_to_list in Hj. cbn in Hv. congruence. }
  assert (Hchecks2 : migration_checks getOrgUsernameFromEmail a s2 org1 uid u2 n).
  { split; [done|]. split; [done|]. split; [done|].
    split; [by apply candidate_of_id|]. split; [done|].
    split; [|split; [|done]].
    - change (targetName getOrgUsernameFromEmail a org1 u2) with name.
      assert (Hnone : holder name (targetOrgId a) s2 = None); [|by rewrite Hnone].
      apply holder_None. intros j v Hj [Hv1 Hv2].
      destruct (decide (j = uid)) as [->|Hju].
      + rewrite Hus2 in Hj. injection Hj as <-. done.
      + rewrite Hu2, lookup_insert_ne, Hu1, lookup_insert_ne in Hj by done.
        by apply (proj1 (holder_None name (targetOrgId a) s) Hholder j v Hj).
    - reflexivity. }
  destruct (migrate_run getOrgFullOrigin getOrgUsernameFromEmail now3 a s2 org1 uid u2 n
              Hchecks2) as (Ho4 & Hu4 & Hm4 & Hr4 & Ht4 & Htt4).
  fold third in Ho4, Hu4, Hm4, Hr4, Ht4, Htt4.
  change (targetName getOrgUsernameFromEmail a org1 u2) with name in *.
  fold mk in Hm4.
  assert (Hso1 : truthy_string (slug org1) = true) by exact Hsa.
  assert (Hsa1 : slug_after org1 = slug_after org)
    by exact (slug_after_again org (parentId org) Hslugs).
  rewrite Hso1 in Ho4. cbn [orb] in Ho4. rewrite Hsa1 in Htt4.
  change (teams third.1 !! targetOrgId a = Some org1) in Htt4.
  (* the tables *)
  assert (Eu : users third.1 =
               <[uid := migrated_user now3 (targetOrgId a) name u n]> (users s)).
  { rewrite Hu4, Hu2, Hu1. by rewrite !insert_insert_eq. }
  assert (Em : memberships third.1 = memberships s1).
  { rewrite Hm4, Hm2, Hm1. by rewrite insert_delete_eq, insert_insert_eq. }
  assert (Et : teams third.1 = teams s1).
  { apply map_eq. intros tid. destruct (decide (tid = targetOrgId a)) as [->|Hne'].
    - by rewrite Htt4, Htt1.
    - rewrite (Ht4 tid Hne'), Ht2, (Ht1 tid Hne').
      destruct (teams s !! tid) as [t|]; [|done]. cbn. f_equal.
      destruct (decide (tid ∈ (memberTeams uid s).*1)) as [Hin|Hin].
      + rewrite (decide_True (P := tid ∈ (memberTeams uid s2).*1)) by (by apply Hfst2).
        by rewrite (decide_True (P := tid ∈ (memberTeams uid s1).*1)) by (by apply Hfst1).
      + rewrite (decide_False (P := tid ∈ (memberTeams uid s2).*1)) by (by rewrite Hfst2).
        by rewrite (decide_False (P := tid ∈ (memberTeams uid s1).*1))
          by (by rewrite Hfst1). }
  assert (Er : redirects third.1 = redirects s1).
  { rewrite Hr4, Hr1. unfold added_redirects. cbn [slug team_metadata org1].
    rewrite Hos. destruct (truthy_string (or_string (slug org) _)) eqn:Hto.
    2:{ exfalso. unfold or_string in Hto.
        destruct (truthy_string (slug org)) eqn:E; [congruence|].
        cbn [orb] in Hslugs. congruence. }
    set (prefix := getOrgFullOrigin _).
    apply map_eq. intros k. rewrite !lookup_foldl_add_team_redirect.
    destruct (decide (k ∈ team_keys (memberTeams uid s))) as [Hin|Hin].
    - rewrite decide_True; [done|]. by apply Hkeys2.
    - rewrite decide_False by (by rewrite Hkeys2).
      destruct (decide (k = (RedirectType.User, n, 0))) as [->|Hk].
      + by rewrite !lookup_insert_eq.
      + rewrite !lookup_insert_ne by done.
        rewrite Hr2, lookup_foldl_drop_team_redirect.
        rewrite decide_False by (by rewrite Hkeys1).
        rewrite lookup_delete_ne by done.
        rewrite Hr1. unfold added_redirects. rewrite Hto. fold prefix.
        rewrite lookup_foldl_add_team_redirect, decide_False by done.
        by rewrite lookup_insert_ne. }
  assert (Et13 : teams s1 = teams (migrateUserToOrg getOrgFullOrigin
                                     getOrgUsernameFromEmail now3 a s).1).
  { apply map_eq. intros tid. destruct (decide (tid = targetOrgId a)) as [->|Hne'].
    - by rewrite Htt1, Htt3.
    - by rewrite (Ht1 tid Hne'), (Ht3 tid Hne'). }
  split; [done|]. split; [done|]. split; [done|]. split; [done|].
  split; [|split].
  - intros j Hj. by rewrite Eu, Hu1, !lookup_insert_ne.
  - apply store_eq.
    + by rewrite Eu, Hu3.
    + by rewrite Et.
    + by rewrite Em, Hm1, Hm3.
    + by rewrite Er, Hr1, Hr3.
  - intros ->. apply store_eq; try done. by rewrite Eu, Hu1.
Qed.

End Cycle.

(** ** Moving a team *)

Section TeamMove.
Variable getOrgFullOrigin : string -> string.
Variable getOrgUsernameFromEmail : string -> string -> string.

Lemma moveTeam_updateTeam_members teamId targetOrgId s t :
  teams s !! teamId = Some t ->
  MoveTeamToOrg.updateTeam teamId targetOrgId s =
    (if bool_decide (parentId t = Some targetOrgId) then s
     else set_teams (insert teamId (reparent (Some targetOrgId) t)) s,
     Ok ((teamId, t), membersOf teamId s)).
Proof.
  intros Ht.
  unfold MoveTeamToOrg.updateTeam, prisma.team.findUnique,
    prisma.membership.findMany, prisma.team.update, bind, read, ret.
  rewrite Ht. cbn [fmap option_fmap option_map snd].
  case_bool_decide; [done|]. by rewrite Ht.
Qed.

Lemma moveTeamToOrg_run now targetOrgId teamId moveMembers s org t :
  teamId ≠ targetOrgId ->
  teams s !! targetOrgId = Some org ->
  is_organization (team_metadata org) = true ->
  teams s !! teamId = Some t ->
  truthy_string (slug t) = true ->
  MoveTeamToOrg.moveTeamToOrg getOrgFullOrigin getOrgUsernameFromEmail now
    targetOrgId teamId moveMembers s =
  if orb (truthy_string (slug org))
         (truthy_string (team_metadata org ≫= requestedSlug))
  then
    if truthy_bool moveMembers then
      for_each (membersOf teamId s)
        (fun membership =>
           OrgMigration.migrateUserToOrg getOrgFullOrigin getOrgUsernameFromEmail now
             (memberArgs targetOrgId membership))
        (teamMoved getOrgFullOrigin targetOrgId teamId org t s)
    else (teamMoved getOrgFullOrigin targetOrgId teamId org t s, Ok tt)
  else (teamMoved getOrgFullOrigin targetOrgId teamId org t s, Throw (slugError targetOrgId)).
Proof.
  intros Hne Horg Hisorg Ht Hslug. unfold MoveTeamToOrg.moveTeamToOrg.
  rewrite (bind_run _ _ _ _ _ (moveTeam_getTeam_run _ _ _ Horg)).
  rewrite (bind_run _ _ _ _ _ (moveTeam_updateTeam_members _ _ _ _ Ht)).
  cbn [fst snd]. unfold teamMetadataSchema_parse. rewrite Hisorg. cbn [negb].
  unfold MoveTeamToOrg.addRedirect. rewrite Hslug. cbn [negb].
  unfold teamMoved.
  set (s1 := if bool_decide (parentId t = Some targetOrgId) then s
             else set_teams (insert teamId (reparent (Some targetOrgId) t)) s).
  assert (Hs1 : teams s1 !! targetOrgId = Some org).
  { unfold s1. case_bool_decide; [done|]. cbn. by rewrite lookup_insert_ne. }
  set (orgSlug := or_string (slug org) (team_metadata org ≫= requestedSlug)).
  assert (Htr : truthy_string orgSlug =
                orb (truthy_string (slug org))
                    (truthy_string (team_metadata org ≫= requestedSlug))).
  { unfold orgSlug, or_string. by destruct (truthy_string (slug org)) eqn:E. }
  unfold MoveTeamToOrg.setOrgSlugIfNotSet, MoveTeamToOrg.setOrgSlug.
  rewrite <-Htr.
  destruct (truthy_string orgSlug) eqn:Hto.
  - assert (Hos : or_string orgSlug None = orgSlug)
      by (unfold or_string at 1; by rewrite Hto).
    rewrite Hos, Hto. cbn [negb].
    unfold bind at 1. unfold prisma.tempOrgRedirect.upsert, write.
    destruct (truthy_string (slug org)) eqn:Hso.
    + unfold bind at 1. unfold ret at 1. by destruct (truthy_bool moveMembers).
    + cbn [orb] in Htr. rewrite <-Htr. cbn [negb].
      unfold bind at 1. unfold bind at 1. unfold prisma.team.update.
      cbn [set_redirects teams]. rewrite Hs1. unfold ret at 1.
      by destruct (truthy_bool moveMembers).
  - assert (Hos : or_string orgSlug None = None)
      by (unfold or_string at 1; by rewrite Hto).
    rewrite Hos. cbn [negb truthy_string].
    symmetry in Htr. apply orb_false_iff in Htr as [Hso Hrs].
    rewrite Hso, Hrs. cbn [negb]. unfold bind at 1. unfold ret at 1.
    unfold bind at 1. unfold throw. reflexivity.
Qed.

Lemma moveTeamToOrg_success_inv now targetOrgId teamId moveMembers s :
  (MoveTeamToOrg.moveTeamToOrg getOrgFullOrigin getOrgUsernameFromEmail now
     targetOrgId teamId moveMembers s).2 = Ok tt ->
  exists org t,
    teams s !! targetOrgId = Some org /\ is_organization (team_metadata org) = true /\
    teams s !! teamId = Some t /\ truthy_string (slug t) = true.
Proof.
  unfold MoveTeamToOrg.moveTeamToOrg.
  destruct (teams s !! targetOrgId) as [org|] eqn:Horg.
  2:{ unfold MoveTeamToOrg.getTeamOrThrowError, prisma.team.findUnique, bind, read.
      rewrite Horg. by destruct (decide (Int_range targetOrgId)). }
  rewrite (bind_run _ _ _ _ _ (moveTeam_getTeam_run _ _ _ Horg)).
  destruct (teams s !! teamId) as [t|] eqn:Ht.
  2:{ unfold MoveTeamToOrg.updateTeam, prisma.team.findUnique,
        prisma.membership.findMany, bind, read.
      rewrite Ht. by destruct (decide (Int_range teamId)). }
  rewrite (bind_run _ _ _ _ _ (moveTeam_updateTeam_members _ _ _ _ Ht)).
  cbn [fst snd]. unfold teamMetadataSchema_parse.
  destruct (is_organization (team_metadata org)) eqn:Hisorg; cbn [negb]; [|done].
  unfold MoveTeamToOrg.addRedirect at 1.
  destruct (truthy_string (slug t)) eqn:Hslug; cbn [negb].
  - intros _. exists org, t. by repeat split.
  - unfold bind at 1. by unfold throw.
Qed.


Lemma teamMoved_tables targetOrgId teamId org t s :
  teamId ≠ targetOrgId ->
  teams s !! targetOrgId = Some org ->
  teams s !! teamId = Some t ->
  let s' := teamMoved getOrgFullOrigin targetOrgId teamId org t s in
  let orgSlug := or_string (slug org) (team_metadata org ≫= requestedSlug) in
  users s' = users s /\ memberships s' = memberships s /\
  teams s' !! teamId = Some (reparent (Some targetOrgId) t) /\
  teams s' !! targetOrgId =
    Some {| slug := slug_after org; parentId := parentId org;
            team_metadata := team_metadata org |} /\
  (forall j, j ≠ teamId -> j ≠ targetOrgId -> teams s' !! j = teams s !! j) /\
  redirects s' =
    if truthy_string orgSlug
    then <[(RedirectType.Team, default "" (slug t), 0) :=
             getOrgFullOrigin (default "" orgSlug) +:+ "/" +:+ default "" (slug t)]>
           (redirects s)
    else redirects s.
Proof.
  intros Hne Horg Ht s' orgSlug. subst s'. unfold teamMoved, slug_after. fold orgSlug.
  assert (Htr : truthy_string orgSlug =
                orb (truthy_string (slug org))
                    (truthy_string (team_metadata org ≫= requestedSlug))).
  { unfold orgSlug, or_string. by destruct (truthy_string (slug org)) eqn:E. }
  assert (Hsame : parentId t = Some targetOrgId -> reparent (Some targetOrgId) t = t).
  { intros <-. by destruct t. }
  assert (Horg_eta : {| slug := slug org; parentId := parentId org;
                        team_metadata := team_metadata org |} = org)
    by (by destruct org).
  rewrite Htr.
  destruct (truthy_string (slug org)) eqn:Hso;
    destruct (truthy_string (team_metadata org ≫= requestedSlug)) eqn:Hrs;
    cbn [orb]; case_bool_decide as Hp;
    cbn [set_teams set_redirects users teams memberships redirects];
    rewrite ?lookup_insert_eq, ?(lookup_insert_ne _ targetOrgId teamId) by done;
    rewrite ?lookup_insert_eq, ?(lookup_insert_ne _ teamId targetOrgId) by done;
    rewrite ?Horg_eta, ?Horg, ?Ht;
    repeat split; try done; try (by rewrite Hsame);
    intros j Hj1 Hj2; by rewrite ?lookup_insert_ne by done.
Qed.

(** X18.  [moveTeamToOrg] without [moveMembers], for a team with a slug
    and another row, an organization, as the target: users and memberships
    are untouched, and no team but these two changes.  When the call
    completes, the organization had a slug or a requestedSlug, the team
    has the target as its parent, the organization's slug is the first of
    the two that is set, and the team's slug redirects to origin/slug.
    When the call throws the [HttpError] 400 of the slug back-fill, the
    organization had neither, the team is already under its new parent,
    and no redirect has been written. *)
Theorem moveTeamToOrg_without_members
    (now : string) (targetOrgId teamId : Z) (moveMembers : option bool)
    (s : Store) (org t : Team)
    (Hne : teamId ≠ targetOrgId)
    (Horg : teams s !! targetOrgId = Some org)
    (Hisorg : is_organization (team_metadata org) = true)
    (Ht : teams s !! teamId = Some t)
    (Hslug : truthy_string (slug t) = true)
    (Hmm : truthy_bool moveMembers = false) :
  let res := MoveTeamToOrg.moveTeamToOrg getOrgFullOrigin getOrgUsernameFromEmail now
               targetOrgId teamId moveMembers s in
  let orgSlug := or_string (slug org) (team_metadata org ≫= requestedSlug) in
  let moved := {| slug := slug t; parentId := Some targetOrgId;
                  team_metadata := team_metadata t |} in
  users res.1 = users s /\ memberships res.1 = memberships s /\
  (forall j, j ≠ teamId -> j ≠ targetOrgId -> teams res.1 !! j = teams s !! j) /\
  (res.2 = Ok tt ->
   truthy_string orgSlug = true /\
   teams res.1 !! teamId = Some moved /\
   teams res.1 !! targetOrgId =
     Some {| slug := orgSlug; parentId := parentId org;
             team_metadata := team_metadata org |} /\
   redirects res.1 =
     <[(RedirectType.Team, default "" (slug t), 0) :=
         getOrgFullOrigin (default "" orgSlug) +:+ "/" +:+ default "" (slug t)]>
       (redirects s)) /\
  (res.2 = Throw (HttpError 400
             ("Org with id: " +:+ pretty targetOrgId
              +:+ " doesn't have a slug. Tried using requestedSlug but that's also not present. So, all migration done but failed to set the Organization slug. Please set it manually")) ->
   truthy_string orgSlug = false /\
   teams res.1 !! teamId = Some moved /\
   teams res.1 !! targetOrgId = Some org /\
   redirects res.1 = redirects s).
Proof.
  intros res orgSlug moved.
  destruct (teamMoved_tables targetOrgId teamId org t s Hne Horg Ht)
    as (Hus & Hms & Htt & Hto & Hts & Hrs).
  fold orgSlug in Hrs.
  assert (E : res = (teamMoved getOrgFullOrigin targetOrgId teamId org t s,
                     if truthy_string orgSlug then Ok tt
                     else Throw (slugError targetOrgId))).
  { subst res. rewrite (moveTeamToOrg_run now _ _ _ _ org t) by done.
    rewrite Hmm.
    assert (Htr : truthy_string orgSlug =
                  orb (truthy_string (slug org))
                      (truthy_string (team_metadata org ≫= requestedSlug))).
    { unfold orgSlug, or_string. by destruct (truthy_string (slug org)) eqn:E. }
    rewrite <-Htr. by destruct (truthy_string orgSlug). }
  clearbody res. subst res. cbn [fst snd].
  split; [done|]. split; [done|]. split; [done|].
  destruct (truthy_string orgSlug) eqn:Hos.
  - split; [|done]. intros _. split; [done|]. split; [done|]. split; [|done].
    rewrite Hto. do 2 f_equal.
    unfold slug_after. unfold orgSlug, or_string in Hos |- *.
    destruct (truthy_string (slug org)); [done|]. rewrite Hos.
    by destruct (team_metadata org ≫= requestedSlug).
  - split; [done|]. intros _. split; [done|]. split; [done|]. split; [|done].
    rewrite Hto.
    unfold slug_after. unfold orgSlug, or_string in Hos.
    destruct (truthy_string (slug org)); [by destruct org|].
    rewrite Hos. by destruct org.
Qed.

(** X19.  [moveTeamToOrg] without [moveMembers] is idempotent, the team
    and the target being two rows: after a call that completed, the same
    call completes again and leaves the store exactly as the first call
    left it. *)
Theorem moveTeamToOrg_twice
    (now now' : string) (targetOrgId teamId : Z) (moveMembers : option bool) (s : Store)
    (Hne : teamId ≠ targetOrgId)
    (Hmm : truthy_bool moveMembers = false)
    (Hok : (MoveTeamToOrg.moveTeamToOrg getOrgFullOrigin getOrgUsernameFromEmail now
              targetOrgId teamId moveMembers s).2 = Ok tt) :
  let first := MoveTeamToOrg.moveTeamToOrg getOrgFullOrigin getOrgUsernameFromEmail now
                 targetOrgId teamId moveMembers s in
  MoveTeamToOrg.moveTeamToOrg getOrgFullOrigin getOrgUsernameFromEmail now'
    targetOrgId teamId moveMembers first.1 = (first.1, Ok tt).
Proof.
  intros first.
  destruct (moveTeamToOrg_success_inv now _ _ _ _ Hok)
    as (org & t & Horg & Hisorg & Ht & Hslug).
  assert (E : first = MoveTeamToOrg.moveTeamToOrg getOrgFullOrigin
                        getOrgUsernameFromEmail now targetOrgId teamId moveMembers s)
    by reflexivity.
  clearbody first.
  rewrite (moveTeamToOrg_run now _ _ _ _ org t) in E, Hok by done.
  rewrite Hmm in E, Hok.
  destruct (orb _ _) eqn:Hslugs in E, Hok; [|done]. subst first. cbn [fst].
  destruct (teamMoved_tables targetOrgId teamId org t s Hne Horg Ht)
    as (Hus & Hms & Htt & Hto & Hts & Hrs).
  set (s' := teamMoved getOrgFullOrigin targetOrgId teamId org t s) in *.
  set (org' := {| slug := slug_after org; parentId := parentId org;
                  team_metadata := team_metadata org |}) in *.
  destruct (slug_after_truthy org Hslugs) as [Hsa Hos].
  rewrite (moveTeamToOrg_run now' _ _ _ _ org' (reparent (Some targetOrgId) t))
    by done.
  rewrite Hmm. cbn [slug team_metadata org']. rewrite Hsa. cbn [orb].
  f_equal.
  destruct (teamMoved_tables targetOrgId teamId org' (reparent (Some targetOrgId) t) s'
              Hne Hto Htt) as (Hus2 & Hms2 & Htt2 & Hto2 & Hts2 & Hrs2).
  apply store_eq; try done.
  - apply map_eq. intros j.
    destruct (decide (j = teamId)) as [->|Hj1]; [by rewrite Htt2, Htt|].
    destruct (decide (j = targetOrgId)) as [->|Hj2].
    + rewrite Hto2, Hto. unfold org'. cbn [slug parentId team_metadata].
      by rewrite slug_after_again.
    + by apply Hts2.
  - rewrite Hrs2. cbn [slug team_metadata org' reparent]. rewrite Hos.
    rewrite Hrs. destruct (truthy_string (or_string _ _)); [|done].
    by rewrite insert_insert_eq.
Qed.

(** X20.  [moveTeamToOrg] without [moveMembers], the team and the target
    being two rows, then [removeTeamFromOrg] with the same ids.  When both
    calls complete, users and memberships are as before the move, the
    team has no parent (whatever its parent was before the move), the
    redirect of its slug is gone, and the other teams, the organization
    with its back-filled slug among them, are as the move left them. *)
Theorem moveTeamToOrg_then_removeTeamFromOrg
    (now : string) (targetOrgId teamId : Z) (moveMembers : option bool)
    (s : Store) (t : Team)
    (Hne : teamId ≠ targetOrgId)
    (Ht : teams s !! teamId = Some t)
    (Hmm : truthy_bool moveMembers = false)
    (Hok : (MoveTeamToOrg.moveTeamToOrg getOrgFullOrigin getOrgUsernameFromEmail now
              targetOrgId teamId moveMembers s).2 = Ok tt)
    (Hback : (RemoveTeamFromOrg.removeTeamFromOrg targetOrgId teamId
                (MoveTeamToOrg.moveTeamToOrg getOrgFullOrigin getOrgUsernameFromEmail
                   now targetOrgId teamId moveMembers s).1).2 = Ok tt) :
  let moved := (MoveTeamToOrg.moveTeamToOrg getOrgFullOrigin getOrgUsernameFromEmail
                  now targetOrgId teamId moveMembers s).1 in
  let res := RemoveTeamFromOrg.removeTeamFromOrg targetOrgId teamId moved in
  users res.1 = users s /\ memberships res.1 = memberships s /\
  teams res.1 !! teamId =
    Some {| slug := slug t; parentId := None; team_metadata := team_metadata t |} /\
  (forall j, j ≠ teamId -> teams res.1 !! j = teams moved !! j) /\
  redirects res.1 =
    delete (RedirectType.Team, default "" (slug t), 0) (redirects s).
Proof.
  intros moved res.
  destruct (moveTeamToOrg_success_inv now _ _ _ _ Hok)
    as (org & t' & Horg & Hisorg & Ht' & Hslug).
  rewrite Ht in Ht'. injection Ht' as <-.
  assert (E : moved = (MoveTeamToOrg.moveTeamToOrg getOrgFullOrigin
                         getOrgUsernameFromEmail now targetOrgId teamId moveMembers s).1)
    by reflexivity.
  clearbody moved.
  rewrite (moveTeamToOrg_run now _ _ _ _ org t) in E, Hok by done.
  rewrite Hmm in E, Hok.
  destruct (orb _ _) eqn:Hslugs in E, Hok; [|done]. cbn [fst] in E.
  destruct (teamMoved_tables targetOrgId teamId org t s Hne Horg Ht)
    as (Hus & Hms & Htt & Hto & Hts & Hrs).
  rewrite <-E in Hus, Hms, Htt, Hto, Hts, Hrs. clear E.
  assert (E : res = RemoveTeamFromOrg.removeTeamFromOrg targetOrgId teamId moved)
    by reflexivity.
  clearbody res.
  rewrite (removeTeamFromOrg_run _ _ _ _ Htt) in E. cbv zeta in E.
  cbn [reparent parentId slug] in E.
  rewrite bool_decide_eq_true_2, Hslug in E by done. subst res.
  cbn [fst snd set_teams set_redirects users teams memberships redirects].
  split; [done|]. split; [done|].
  split; [by rewrite lookup_insert_eq|].
  split; [intros j Hj; by rewrite lookup_insert_ne|].
  rewrite Hrs. destruct (truthy_string (or_string _ _)); [|done].
  by rewrite delete_insert_eq.
Qed.

End TeamMove.

(** ** Moving a team with its members *)

Lemma membersOf_elem teamId s uid m :
  ((uid, teamId), m) ∈ membersOf teamId s <-> memberships s !! (uid, teamId) = Some m.
Proof.
  unfold membersOf. rewrite list_elem_of_filter, elem_of_map_to_list. cbn. tauto.
Qed.

Lemma membersOf_NoDup teamId s :
  NoDup ((fun r : (Z * Z) * Membership => r.1.1) <$> membersOf teamId s).
Proof.
  apply NoDup_fmap_2_strong.
  - intros [[u1 t1] m1] [[u2 t2] m2] H1 H2 E. cbn in E. subst u2.
    unfold membersOf in H1, H2.
    apply list_elem_of_filter in H1 as [E1 H1], H2 as [E2 H2]. cbn in E1, E2. subst.
    apply elem_of_map_to_list in H1, H2. congruence.
  - apply NoDup_filter, NoDup_map_to_list.
Qed.

Section Members.
Variable getOrgFullOrigin : string -> string.
Variable getOrgUsernameFromEmail : string -> string -> string.

(** One turn of the loop over the members, when it gets through. *)
Lemma member_step now targetOrgId (x : (Z * Z) * Membership) st st1 :
  OrgMigration.migrateUserToOrg getOrgFullOrigin getOrgUsernameFromEmail now
    (memberArgs targetOrgId x) st = (st1, Ok tt) ->
  exists u org n,
    users st !! x.1.1 = Some u /\ teams st !! targetOrgId = Some org /\
    users st1 =
      <[x.1.1 := migrated_user now targetOrgId
                   (getOrgUsernameFromEmail (email u)
                      (or_default (team_metadata org ≫= orgAutoAcceptEmail) ""))
                   u n]> (users st) /\
    memberships st1 =
      <[(x.1.1, targetOrgId) := {| role := role x.2; accepted := accepted x.2 |}]>
        (memberships st) /\
    exists org1, teams st1 !! targetOrgId = Some org1 /\
                 team_metadata org1 = team_metadata org.
Proof.
  intros Hrun.
  assert (Hok : (OrgMigration.migrateUserToOrg getOrgFullOrigin getOrgUsernameFromEmail
                   now (memberArgs targetOrgId x) st).2 = Ok tt) by (by rewrite Hrun).
  destruct (migrate_success_inv _ _ _ _ _ Hok) as (org & uid & u & n & Hchecks).
  destruct (migrate_run getOrgFullOrigin getOrgUsernameFromEmail now _ _ org uid u n
              Hchecks) as (_ & Hus & Hms & _ & _ & Htarget).
  rewrite Hrun in Hus, Hms, Htarget. cbn [fst] in Hus, Hms, Htarget.
  destruct Hchecks as (_ & Horg & _ & Hcand & _).
  pose proof (candidate_by_id (memberArgs targetOrgId x) st uid u eq_refl Hcand) as Hui.
  cbn in Hui. injection Hui as <-.
  exists u, org, n. split; [by apply (candidate_lookup _ _ _ _ Hcand)|].
  split; [exact Horg|]. split; [exact Hus|]. split; [exact Hms|].
  eexists. split; [exact Htarget|done].
Qed.

(** What the loop over the members leaves alone. *)
Lemma members_loop_frame now targetOrgId (l : list ((Z * Z) * Membership)) st st' :
  for_each l
    (fun membership =>
       OrgMigration.migrateUserToOrg getOrgFullOrigin getOrgUsernameFromEmail now
         (memberArgs targetOrgId membership)) st = (st', Ok tt) ->
  (forall j, j ∉ (fun r : (Z * Z) * Membership => r.1.1) <$> l ->
             users st' !! j = users st !! j) /\
  (forall k, k.1 ∉ (fun r : (Z * Z) * Membership => r.1.1) <$> l \/ k.2 ≠ targetOrgId ->
             memberships st' !! k = memberships st !! k) /\
  (forall org, teams st !! targetOrgId = Some org ->
               exists org', teams st' !! targetOrgId = Some org' /\
                            team_metadata org' = team_metadata org).
Proof.
  revert st. induction l as [|x l IH]; intros st Hrun; cbn [for_each] in Hrun.
  { injection Hrun as <-. repeat split; eauto. }
  unfold bind in Hrun.
  destruct (OrgMigration.migrateUserToOrg _ _ now (memberArgs targetOrgId x) st)
    as [st1 [[]|e]] eqn:Hstep; [|done].
  destruct (member_step _ _ _ _ _ Hstep)
    as (u & org & n & Hu & Horg & Hus & Hms & org1 & Horg1 & Hmd).
  destruct (IH st1 Hrun) as (IHu & IHm & IHt).
  split; [|split].
  - intros j Hj. rewrite fmap_cons, not_elem_of_cons in Hj. destruct Hj as [Hj1 Hj2].
    rewrite (IHu j Hj2), Hus. by rewrite lookup_insert_ne.
  - intros k Hk. rewrite IHm, Hms.
    + rewrite lookup_insert_ne; [done|]. intros <-. cbn in Hk.
      destruct Hk as [Hk|Hk]; [|done]. apply Hk. apply list_elem_of_here.
    + destruct Hk as [Hk|Hk]; [left|by right].
      rewrite fmap_cons, not_elem_of_cons in Hk. by destruct Hk.
  - intros org0 Horg0. rewrite Horg in Horg0. injection Horg0 as <-.
    destruct (IHt org1 Horg1) as (org' & Horg' & Hmd').
    exists org'. split; [done|congruence].
Qed.

(** What the loop over the members does for each of them. *)
Lemma members_loop_moves now targetOrgId (l : list ((Z * Z) * Membership)) st st' :
  NoDup ((fun r : (Z * Z) * Membership => r.1.1) <$> l) ->
  for_each l
    (fun membership =>
       OrgMigration.migrateUserToOrg getOrgFullOrigin getOrgUsernameFromEmail now
         (memberArgs targetOrgId membership)) st = (st', Ok tt) ->
  forall x u org,
    x ∈ l -> users st !! x.1.1 = Some u -> teams st !! targetOrgId = Some org ->
    (exists u', users st' !! x.1.1 = Some u' /\
                organizationId u' = Some targetOrgId /\
                email u' = email u /\
                username u' =
                  Some (getOrgUsernameFromEmail (email u)
                          (or_default (team_metadata org ≫= orgAutoAcceptEmail) ""))) /\
    memberships st' !! (x.1.1, targetOrgId) =
      Some {| role := role x.2; accepted := accepted x.2 |}.
Proof.
  revert st. induction l as [|y l IH]; intros st Hnd Hrun x u org Hin Hu Horg.
  { by apply not_elem_of_nil in Hin. }
  cbn [for_each] in Hrun. unfold bind in Hrun.
  destruct (OrgMigration.migrateUserToOrg _ _ now (memberArgs targetOrgId y) st)
    as [st1 [[]|e]] eqn:Hstep; [|done].
  destruct (member_step _ _ _ _ _ Hstep)
    as (uy & org0 & n & Huy & Horg0 & Hus & Hms & org1 & Horg1 & Hmd).
  rewrite Horg in Horg0. injection Horg0 as <-.
  rewrite fmap_cons in Hnd. apply NoDup_cons in Hnd as [Hnotin Hnd].
  destruct (members_loop_frame now targetOrgId l st1 st' Hrun) as (Fu & Fm & _).
  destruct (decide (x.1.1 = y.1.1)) as [Exy|Nxy].
  - rewrite Exy in Hu |- *. rewrite Huy in Hu. injection Hu as ->.
    assert (Ex2 : x = y).
    { apply elem_of_cons in Hin as [?|Hin]; [done|]. exfalso. apply Hnotin.
      rewrite <-Exy. apply list_elem_of_fmap. by exists x. }
    subst x. split.
    + rewrite (Fu _ Hnotin), Hus, lookup_insert_eq. eexists. by repeat split.
    + rewrite (Fm (y.1.1, targetOrgId)) by (by left).
      by rewrite Hms, lookup_insert_eq.
  - apply elem_of_cons in Hin as [->|Hin]; [done|].
    assert (Hu1 : users st1 !! x.1.1 = Some u) by (by rewrite Hus, lookup_insert_ne).
    destruct (IH st1 Hnd Hrun x u org1 Hin Hu1 Horg1) as [Hrow Hmem].
    rewrite Hmd in Hrow. by split.
Qed.

(** X21.  When [moveTeamToOrg] with [moveMembers] completes, the team and
    the target being two rows, every user who had a membership of the team
    is in the organization, with the same email and with the username
    derived from the email address and the organization's auto-accept
    domain (no username is passed on); holds a membership of the
    organization with the role and [accepted] of the team membership; and
    keeps the team membership. *)
Theorem moveTeamToOrg_moves_members
    (now : string) (targetOrgId teamId : Z) (moveMembers : option bool) (s : Store)
    (org : Team) (uid : Z) (u : User) (m : Membership)
    (Hne : teamId ≠ targetOrgId)
    (Hmm : truthy_bool moveMembers = true)
    (Horg : teams s !! targetOrgId = Some org)
    (Hu : users s !! uid = Some u)
    (Hm : memberships s !! (uid, teamId) = Some m)
    (Hok : (MoveTeamToOrg.moveTeamToOrg getOrgFullOrigin getOrgUsernameFromEmail now
              targetOrgId teamId moveMembers s).2 = Ok tt) :
  let res := MoveTeamToOrg.moveTeamToOrg getOrgFullOrigin getOrgUsernameFromEmail now
               targetOrgId teamId moveMembers s in
  (exists u', users res.1 !! uid = Some u' /\
              organizationId u' = Some targetOrgId /\
              email u' = email u /\
              username u' =
                Some (getOrgUsernameFromEmail (email u)
                        (or_default (team_metadata org ≫= orgAutoAcceptEmail) ""))) /\
  memberships res.1 !! (uid, targetOrgId) =
    Some {| role := role m; accepted := accepted m |} /\
  memberships res.1 !! (uid, teamId) = Some m.
Proof.
  intros res.
  destruct (moveTeamToOrg_success_inv _ _ now _ _ _ _ Hok)
    as (org' & t & Horg' & Hisorg & Ht & Hslug).
  rewrite Horg in Horg'. injection Horg' as <-.
  assert (E : res = MoveTeamToOrg.moveTeamToOrg getOrgFullOrigin
                      getOrgUsernameFromEmail now targetOrgId teamId moveMembers s)
    by reflexivity.
  clearbody res.
  rewrite (moveTeamToOrg_run _ _ now _ _ _ _ org t) in E, Hok by done.
  rewrite Hmm in E, Hok.
  destruct (orb _ _) eqn:Hslugs in E, Hok; [|done].
  destruct (teamMoved_tables getOrgFullOrigin targetOrgId teamId org t s Hne Horg Ht)
    as (Hus & Hms & _ & Hto & _ & _).
  set (st := teamMoved getOrgFullOrigin targetOrgId teamId org t s) in *.
  rewrite <-E in Hok. destruct res as [st' o]. cbn [fst snd] in *. subst o.
  symmetry in E.
  assert (Hin : ((uid, teamId), m) ∈ membersOf teamId s) by (by apply membersOf_elem).
  destruct (members_loop_moves now targetOrgId _ st st' (membersOf_NoDup teamId s) E
              ((uid, teamId), m) u
              {| slug := slug_after org; parentId := parentId org;
                 team_metadata := team_metadata org |} Hin) as [Hrow Hmem].
  { cbn. by rewrite Hus. }
  { exact Hto. }
  split; [exact Hrow|]. split; [exact Hmem|].
  destruct (members_loop_frame now targetOrgId _ st st' E) as (_ & Fm & _).
  rewrite (Fm (uid, teamId)) by (by right). by rewrite Hms.
Qed.

End Members.

(** ** The redirect of a team moved with its members *)

Section MemberRedirects.
Variable getOrgFullOrigin : string -> string.
Variable getOrgUsernameFromEmail : string -> string -> string.

(** One turn of the loop over the members, for the team being moved: the
    organization already has its slug, the team is a plain team with a slug
    and the member still has the team's membership. *)
Lemma member_step_team now targetOrgId teamId (x : (Z * Z) * Membership)
    (org t : Team) st st1 :
  teamId ≠ targetOrgId ->
  OrgMigration.migrateUserToOrg getOrgFullOrigin getOrgUsernameFromEmail now
    (memberArgs targetOrgId x) st = (st1, Ok tt) ->
  teams st !! targetOrgId = Some org -> truthy_string (slug org) = true ->
  teams st !! teamId = Some t -> truthy_string (slug t) = true ->
  is_organization (team_metadata t) = false ->
  is_Some (memberships st !! (x.1.1, teamId)) ->
  (exists org1, teams st1 !! targetOrgId = Some org1 /\ slug org1 = slug org /\
                team_metadata org1 = team_metadata org) /\
  (exists t1, teams st1 !! teamId = Some t1 /\ slug t1 = slug t /\
              team_metadata t1 = team_metadata t) /\
  (forall k, k.2 ≠ targetOrgId -> memberships st1 !! k = memberships st !! k) /\
  redirects st1 !! (RedirectType.Team, default "" (slug t), 0) =
    Some (getOrgFullOrigin (default "" (slug org)) +:+ "/team/"
          +:+ default "" (slug t)).
Proof.
  intros Hne Hrun Horg Hso Ht Hst Hplain Hmem.
  assert (Hok : (OrgMigration.migrateUserToOrg getOrgFullOrigin getOrgUsernameFromEmail
                   now (memberArgs targetOrgId x) st).2 = Ok tt) by (by rewrite Hrun).
  destruct (migrate_success_inv _ _ _ _ _ Hok) as (org' & uid & u & n & Hchecks).
  destruct (migrate_run getOrgFullOrigin getOrgUsernameFromEmail now _ _ org' uid u n
              Hchecks) as (_ & _ & Hms & Hrs & Hts & Htarget).
  rewrite Hrun in Hms, Hrs, Hts, Htarget. cbn [fst] in Hms, Hrs, Hts, Htarget.
  destruct Hchecks as (_ & Horg' & _ & Hcand & _).
  change (OrgMigration.targetOrgId (memberArgs targetOrgId x)) with targetOrgId in *.
  rewrite Horg in Horg'. injection Horg' as <-.
  pose proof (candidate_by_id (memberArgs targetOrgId x) st uid u eq_refl Hcand) as Hui.
  cbn in Hui. injection Hui as <-.
  split; [|split; [|split]].
  - eexists. split; [exact Htarget|]. cbn. unfold slug_after. by rewrite Hso.
  - rewrite (Hts teamId Hne), Ht. cbn. eexists. split; [done|].
    by case_decide.
  - intros k Hk. rewrite Hms. rewrite lookup_insert_ne; [done|]. intros <-. done.
  - rewrite Hrs. unfold added_redirects, or_string. rewrite Hso, Hso.
    rewrite lookup_foldl_add_team_redirect. cbn [fst snd].
    rewrite decide_True; [done|].
    apply elem_of_team_keys. destruct (slug t) as [sl|] eqn:Hsl; [|done].
    exists teamId, t, sl. split; [by apply elem_of_memberTeams|].
    split; [done|]. split; [|done]. intros ->. done.
Qed.

(** Once a member has been moved, the redirect of the team is the one the
    user migration writes. *)
Lemma members_loop_redirect now targetOrgId teamId (l : list ((Z * Z) * Membership))
    (org t : Team) st st' :
  teamId ≠ targetOrgId ->
  for_each l
    (fun membership =>
       OrgMigration.migrateUserToOrg getOrgFullOrigin getOrgUsernameFromEmail now
         (memberArgs targetOrgId membership)) st = (st', Ok tt) ->
  teams st !! targetOrgId = Some org -> truthy_string (slug org) = true ->
  teams st !! teamId = Some t -> truthy_string (slug t) = true ->
  is_organization (team_metadata t) = false ->
  (forall x, x ∈ l -> is_Some (memberships st !! (x.1.1, teamId))) ->
  l ≠ [] ->
  redirects st' !! (RedirectType.Team, default "" (slug t), 0) =
    Some (getOrgFullOrigin (default "" (slug org)) +:+ "/team/"
          +:+ default "" (slug t)).
Proof.
  intros Hne. revert org t st.
  induction l as [|y l IH]; intros org t st Hrun Horg Hso Ht Hst Hplain Hmem Hnil;
    [done|].
  cbn [for_each] in Hrun. unfold bind in Hrun.
  destruct (OrgMigration.migrateUserToOrg _ _ now (memberArgs targetOrgId y) st)
    as [st1 [[]|e]] eqn:Hstep; [|done].
  destruct (member_step_team now targetOrgId teamId y org t st st1 Hne Hstep Horg Hso
              Ht Hst Hplain)
    as ((org1 & Horg1 & Hso1 & _) & (t1 & Ht1 & Hst1 & Hmd1) & Hms1 & Hr1).
  { apply Hmem, list_elem_of_here. }
  destruct l as [|z l].
  { cbn in Hrun. injection Hrun as <-. exact Hr1. }
  rewrite <-Hso1, <-Hst1.
  apply (IH org1 t1 st1); try done.
  - by rewrite Hso1.
  - by rewrite Hst1.
  - by rewrite Hmd1.
  - intros x Hx. rewrite Hms1 by done. by apply Hmem, list_elem_of_further.
Qed.

(** X22.  The redirect of a moved team depends on [moveMembers].  For a
    plain team with at least one member, moved under another row, when
    [moveTeamToOrg] completes: with [moveMembers] the team's slug
    redirects to origin/team/slug, the entry the migration of a member
    writes over the one [moveTeamToOrg] wrote; without, it redirects to
    origin/slug. *)
Theorem moveTeamToOrg_members_rewrite_redirect
    (now : string) (targetOrgId teamId : Z) (moveMembers : option bool) (s : Store)
    (org t : Team) (uid : Z) (m : Membership)
    (Hne : teamId ≠ targetOrgId)
    (Horg : teams s !! targetOrgId = Some org)
    (Ht : teams s !! teamId = Some t)
    (Hplain : is_organization (team_metadata t) = false)
    (Hm : memberships s !! (uid, teamId) = Some m)
    (Hok : (MoveTeamToOrg.moveTeamToOrg getOrgFullOrigin getOrgUsernameFromEmail now
              targetOrgId teamId moveMembers s).2 = Ok tt) :
  let res := MoveTeamToOrg.moveTeamToOrg getOrgFullOrigin getOrgUsernameFromEmail now
               targetOrgId teamId moveMembers s in
  let orgUrlPrefix :=
    getOrgFullOrigin
      (default "" (or_string (slug org) (team_metadata org ≫= requestedSlug))) in
  redirects res.1 !! (RedirectType.Team, default "" (slug t), 0) =
    Some (if truthy_bool moveMembers
          then orgUrlPrefix +:+ "/team/" +:+ default "" (slug t)
          else orgUrlPrefix +:+ "/" +:+ default "" (slug t)).
Proof.
  intros res orgUrlPrefix.
  destruct (moveTeamToOrg_success_inv _ _ now _ _ _ _ Hok)
    as (org' & t' & Horg' & Hisorg & Ht' & Hslug).
  rewrite Horg in Horg'. injection Horg' as <-.
  rewrite Ht in Ht'. injection Ht' as <-.
  assert (E : res = MoveTeamToOrg.moveTeamToOrg getOrgFullOrigin
                      getOrgUsernameFromEmail now targetOrgId teamId moveMembers s)
    by reflexivity.
  clearbody res.
  rewrite (moveTeamToOrg_run _ _ now _ _ _ _ org t) in E, Hok by done.
  destruct (orb _ _) eqn:Hslugs in E, Hok; [|by destruct (truthy_bool moveMembers)].
  destruct (teamMoved_tables getOrgFullOrigin targetOrgId teamId org t s Hne Horg Ht)
    as (_ & Hms & Htt & Hto & _ & Hrs).
  destruct (slug_after_truthy org Hslugs) as [Hsa Hos].
  assert (Hos' : truthy_string (or_string (slug org) (team_metadata org ≫= requestedSlug))
                 = true).
  { unfold or_string. destruct (truthy_string (slug org)) eqn:E'; [done|exact Hslugs]. }
  rewrite Hos' in Hrs.
  set (st := teamMoved getOrgFullOrigin targetOrgId teamId org t s) in *.
  destruct (truthy_bool moveMembers).
  2:{ subst res. cbn [fst]. by rewrite Hrs, lookup_insert_eq. }
  rewrite <-E in Hok. destruct res as [st' o]. cbn [fst snd] in *. subst o.
  symmetry in E.
  pose proof (members_loop_redirect now targetOrgId teamId (membersOf teamId s)
                {| slug := slug_after org; parentId := parentId org;
                   team_metadata := team_metadata org |}
                (reparent (Some targetOrgId) t) st st' Hne E Hto Hsa Htt Hslug Hplain)
    as Hloop.
  cbn [slug reparent] in Hloop. rewrite Hloop.
  - unfold orgUrlPrefix. do 3 f_equal. unfold slug_after, or_string.
    destruct (truthy_string (slug org)); [done|]. cbn [orb] in Hslugs.
    rewrite Hslugs. by destruct (team_metadata org ≫= requestedSlug).
  - intros [[u' t'] m'] Hx. unfold membersOf in Hx.
    apply list_elem_of_filter in Hx as [Et Hx]. cbn in Et. subst t'.
    apply elem_of_map_to_list in Hx. rewrite Hms. cbn. eauto.
  - intros Hnil. assert (Hin : ((uid, teamId), m) ∈ membersOf teamId s)
      by (by apply membersOf_elem).
    rewrite Hnil in Hin. by apply not_elem_of_nil in Hin.
Qed.

End MemberRedirects.

(** ** How the team flows fail, and the handlers *)

(** A loop that throws, throws in one of its turns. *)
Lemma for_each_throw {A} (body : A -> M unit) (l : list A) st st' e :
  for_each l body st = (st', Throw e) ->
  exists x st0 st1, x ∈ l /\ body x st0 = (st1, Throw e).
Proof.
  revert st. induction l as [|y l IH]; intros st; cbn [for_each]; [done|].
  unfold bind. destruct (body y st) as [st1 [[]|e']] eqn:Hy.
  - intros Hrun. destruct (IH st1 Hrun) as (x & st0 & st2 & Hin & Hx).
    exists x, st0, st2. split; [by apply list_elem_of_further|done].
  - intros [= <- <-]. exists y, st, st1. split; [apply list_elem_of_here|done].
Qed.

Section Errors.
Variable getOrgFullOrigin : string -> string.
Variable getOrgUsernameFromEmail : string -> string -> string.
Variable prismaMessage : exn -> string.

Lemma member_error_class now targetOrgId (x : (Z * Z) * Membership) st st1 e :
  OrgMigration.migrateUserToOrg getOrgFullOrigin getOrgUsernameFromEmail now
    (memberArgs targetOrgId x) st = (st1, Throw e) ->
  (exists m, e = HttpError 400 m) \/ e = Error (pretty targetOrgId +:+ " is not an Org") \/
  e = prisma.P2020.
Proof.
  intros Hrun.
  destruct (migrate_check_errors getOrgFullOrigin getOrgUsernameFromEmail now
              (memberArgs targetOrgId x) st)
    as [(e' & Hrun' & He)|(org & uid & u & n & Hchecks)].
  - rewrite Hrun in Hrun'. injection Hrun' as _ <-.
    destruct He as [?|[?|[[-> Hcand]|?]]]; [by left|right; by left| |right; by right].
    exfalso. revert Hcand.
    unfold candidate, OrgMigration.getUniqueUserThatDoesntBelongToOrg. cbn.
    unfold prisma.user.findUnique.
    destruct (users st !! x.1.1); [done|]. by destruct (decide (Int_range x.1.1)).
  - destruct (migrate_run getOrgFullOrigin getOrgUsernameFromEmail now _ st org uid u n
                Hchecks) as (Hout & _).
    rewrite Hrun in Hout. cbn [snd] in Hout. destruct (orb _ _); [done|].
    injection Hout as ->. eauto.
Qed.

Lemma moveTeam_error_class now targetOrgId teamId moveMembers s e :
  (MoveTeamToOrg.moveTeamToOrg getOrgFullOrigin getOrgUsernameFromEmail now
     targetOrgId teamId moveMembers s).2 = Throw e ->
  (exists m, e = HttpError 400 m) \/ e = Error (pretty targetOrgId +:+ " is not an Org") \/
  e = prisma.P2020.
Proof.
  unfold MoveTeamToOrg.moveTeamToOrg.
  destruct (teams s !! targetOrgId) as [org|] eqn:Horg.
  2:{ unfold MoveTeamToOrg.getTeamOrThrowError, prisma.team.findUnique, bind, read, throw.
      rewrite Horg. destruct (decide (Int_range targetOrgId)); cbn; intros [= <-]; eauto. }
  rewrite (bind_run _ _ _ _ _ (moveTeam_getTeam_run _ _ _ Horg)).
  destruct (teams s !! teamId) as [t|] eqn:Ht.
  2:{ unfold MoveTeamToOrg.updateTeam, prisma.team.findUnique,
        prisma.membership.findMany, bind, read, throw.
      rewrite Ht. destruct (decide (Int_range teamId)); cbn; intros [= <-]; eauto. }
  rewrite (bind_run _ _ _ _ _ (moveTeam_updateTeam_members _ _ _ _ Ht)).
  cbn [fst snd]. unfold teamMetadataSchema_parse.
  destruct (is_organization (team_metadata org)) eqn:Hisorg; cbn [negb].
  2:{ unfold throw. cbn. intros [= <-]. eauto. }
  set (s1 := if bool_decide (parentId t = Some targetOrgId) then s
             else set_teams (insert teamId (reparent (Some targetOrgId) t)) s).
  assert (Hs1 : is_Some (teams s1 !! targetOrgId)).
  { unfold s1. case_bool_decide; [by rewrite Horg|]. cbn.
    destruct (decide (teamId = targetOrgId)) as [->|Hne].
    - rewrite lookup_insert_eq. eauto.
    - rewrite lookup_insert_ne by done. by rewrite Horg. }
  unfold MoveTeamToOrg.addRedirect.
  destruct (truthy_string (slug t)) eqn:Hslug; cbn [negb].
  2:{ unfold bind at 1. unfold throw. cbn. intros [= <-]. eauto. }
  unfold bind at 1.
  match goal with
  | |- context [(if ?b then ret tt else ?m) s1] =>
      assert (Hadd : exists s2, (if b then ret tt else m) s1 = (s2, Ok tt) /\
                                teams s2 = teams s1)
        by (destruct b; eexists; split; reflexivity);
      destruct Hadd as (s2 & -> & Hs2)
  end.
  rewrite <-Hs2 in Hs1. clear Hs2.
  unfold MoveTeamToOrg.setOrgSlugIfNotSet, MoveTeamToOrg.setOrgSlug.
  unfold bind at 1.
  assert (Hloop : forall st,
      ((if truthy_bool moveMembers
        then for_each (membersOf teamId s)
               (fun membership =>
                  OrgMigration.migrateUserToOrg getOrgFullOrigin getOrgUsernameFromEmail
                    now (memberArgs targetOrgId membership))
        else ret tt) st).2 = Throw e ->
      (exists m, e = HttpError 400 m) \/
      e = Error (pretty targetOrgId +:+ " is not an Org") \/
      e = prisma.P2020).
  { intros st. destruct (truthy_bool moveMembers); [|done].
    destruct (for_each _ _ st) as [st' [[]|e']] eqn:Hrun; [done|].
    cbn. intros [= ->].
    destruct (for_each_throw _ _ _ _ _ Hrun) as (x & st0 & st1 & _ & Hx).
    by apply (member_error_class now targetOrgId x st0 st1). }
  destruct (truthy_string (slug org)) eqn:Hso.
  { unfold ret at 1. apply Hloop. }
  destruct (truthy_string (team_metadata org ≫= requestedSlug)) eqn:Hrs; cbn [negb].
  2:{ unfold throw. cbn. intros [= <-]. eauto. }
  unfold bind at 1. unfold prisma.team.update.
  destruct Hs1 as [row Hrow]. rewrite Hrow. unfold ret at 1. apply Hloop.
Qed.

Lemma removeTeam_error_class targetOrgId teamId s e :
  (RemoveTeamFromOrg.removeTeamFromOrg targetOrgId teamId s).2 = Throw e ->
  (exists m, e = HttpError 400 m) \/ e = prisma.P2020.
Proof.
  destruct (teams s !! teamId) as [row|] eqn:Ht.
  - rewrite (removeTeamFromOrg_run _ _ _ row Ht). cbv zeta.
    destruct (truthy_string (slug row)); [done|]. cbn. intros [= <-]. eauto.
  - unfold RemoveTeamFromOrg.removeTeamFromOrg, RemoveTeamFromOrg.updateTeam,
      prisma.team.findUnique, bind, read, throw. rewrite Ht.
    destruct (decide (Int_range teamId)); cbn; intros [= <-]; eauto.
Qed.

(** X23.  The errors the two team flows raise themselves.  An
    [HttpError] thrown by [moveTeamToOrg], the migration of the members
    included, or by [removeTeamFromOrg] has status 400.  A plain [Error]
    thrown by [moveTeamToOrg] says that the target is not an organization,
    and a handler answers it with 500; [removeTeamFromOrg] throws no plain
    [Error]. *)
Theorem team_flows_errors
    (now : string) (targetOrgId teamId : Z) (moveMembers : option bool) (s : Store) :
  let move := MoveTeamToOrg.moveTeamToOrg getOrgFullOrigin getOrgUsernameFromEmail now
                targetOrgId teamId moveMembers s in
  let remove := RemoveTeamFromOrg.removeTeamFromOrg targetOrgId teamId s in
  (forall statusCode m, move.2 = Throw (HttpError statusCode m) -> statusCode = 400) /\
  (forall m, move.2 = Throw (Error m) ->
             m = pretty targetOrgId +:+ " is not an Org" /\
             responseStatus (Error m) = 500) /\
  (forall statusCode m, remove.2 = Throw (HttpError statusCode m) -> statusCode = 400) /\
  (forall m, remove.2 ≠ Throw (Error m)).
Proof.
  intros move remove. split; [|split; [|split]].
  - intros c m Hthrow.
    destruct (moveTeam_error_class _ _ _ _ _ _ Hthrow) as [[m' [= -> _]]|[?|?]]; done.
  - intros m Hthrow. split; [|done].
    destruct (moveTeam_error_class _ _ _ _ _ _ Hthrow) as [[m' ?]|[[= ->]|?]]; done.
  - intros c m Hthrow.
    by destruct (removeTeam_error_class _ _ _ _ Hthrow) as [[m' [= -> _]]|?].
  - intros m Hthrow.
    by destruct (removeTeam_error_class _ _ _ _ Hthrow) as [[m' ?]|?].
Qed.

(** X24.  A missing row, asked for by an id within the range of the id
    column, is answered with an [HttpError] 400 that names the id, before
    anything is written: the organization in [migrateUserToOrg] (the user
    being designated one way, not both) and in [moveTeamToOrg] (where it
    is looked up first), the team in [moveTeamToOrg] and in
    [removeTeamFromOrg], the user in [removeFromOrg]. *)
Theorem missing_rows_are_reported (now : string) (s : Store) :
  (forall a,
      xorb (truthy_number (OrgMigration.userId a))
           (truthy_string (OrgMigration.userName a)) = true ->
      Int_range (OrgMigration.targetOrgId a) ->
      teams s !! OrgMigration.targetOrgId a = None ->
      OrgMigration.migrateUserToOrg getOrgFullOrigin getOrgUsernameFromEmail now a s =
        (s, Throw (HttpError 400
                     ("Org with id: " +:+ pretty (OrgMigration.targetOrgId a)
                      +:+ " not found")))) /\
  (forall targetOrgId teamId moveMembers,
      Int_range targetOrgId ->
      teams s !! targetOrgId = None ->
      MoveTeamToOrg.moveTeamToOrg getOrgFullOrigin getOrgUsernameFromEmail now
        targetOrgId teamId moveMembers s =
        (s, Throw (HttpError 400
                     ("Org with id: " +:+ pretty targetOrgId +:+ " not found")))) /\
  (forall targetOrgId teamId moveMembers,
      is_Some (teams s !! targetOrgId) ->
      Int_range teamId ->
      teams s !! teamId = None ->
      MoveTeamToOrg.moveTeamToOrg getOrgFullOrigin getOrgUsernameFromEmail now
        targetOrgId teamId moveMembers s =
        (s, Throw (HttpError 400
                     ("Team with id: " +:+ pretty teamId +:+ " not found")))) /\
  (forall targetOrgId teamId,
      Int_range teamId ->
      teams s !! teamId = None ->
      RemoveTeamFromOrg.removeTeamFromOrg targetOrgId teamId s =
        (s, Throw (HttpError 400
                     ("Team with id: " +:+ pretty teamId +:+ " not found")))) /\
  (forall targetOrgId userId,
      Int_range userId ->
      users s !! userId = None ->
      RemoveUserFromOrg.removeFromOrg now targetOrgId userId s =
        (s, Throw (HttpError 400
                     ("User with id: " +:+ pretty userId +:+ " not found")))).
Proof.
  split; [|split; [|split; [|split]]].
  - intros a Hargs Hrange Horg. unfold OrgMigration.migrateUserToOrg.
    rewrite (bind_run _ _ _ _ _ (assertUserIdOrUserName_run _ _ _ Hargs)).
    unfold OrgMigration.getTeamOrThrowError, prisma.team.findUnique, bind, read, throw.
    by rewrite Horg, decide_True.
  - intros targetOrgId teamId moveMembers Hrange Horg.
    unfold MoveTeamToOrg.moveTeamToOrg, MoveTeamToOrg.getTeamOrThrowError,
      prisma.team.findUnique, bind, read, throw.
    by rewrite Horg, decide_True.
  - intros targetOrgId teamId moveMembers [org Horg] Hrange Ht.
    unfold MoveTeamToOrg.moveTeamToOrg.
    rewrite (bind_run _ _ _ _ _ (moveTeam_getTeam_run _ _ _ Horg)).
    unfold MoveTeamToOrg.updateTeam, prisma.team.findUnique,
      prisma.membership.findMany, bind, read, throw.
    by rewrite Ht, decide_True.
  - intros targetOrgId teamId Hrange Ht.
    unfold RemoveTeamFromOrg.removeTeamFromOrg, RemoveTeamFromOrg.updateTeam,
      prisma.team.findUnique, bind, read, throw.
    by rewrite Ht, decide_True.
  - intros targetOrgId userId Hrange Hu.
    unfold RemoveUserFromOrg.removeFromOrg, prisma.user.findUnique, bind, read, throw.
    by rewrite Hu, decide_True.
Qed.

(** X25.  Without a session, or with a session whose role is not ADMIN,
    none of the three handlers touches the store.  The handlers of
    moveTeamToOrg and removeTeamFromOrg answer 403, or 400 with the parse
    error when the body did not parse (they look at the body before the
    role); the handler of removeUserFromOrg answers 403 in every case. *)
Theorem handlers_require_admin
    (now : string) (session : option Session) (s : Store)
    (Hnot : forall session', session = Some session' ->
                             user_role session' ≠ UserPermissionRole.ADMIN) :
  (forall parsedBody,
      let res := MoveTeamToOrg.handler getOrgFullOrigin getOrgUsernameFromEmail
                   prismaMessage now session parsedBody s in
      res.1 = s /\
      (status res.2 = 403 \/
       exists error, parsedBody = ParseFailure error /\
                     res.2 = {| status := 400; message := error |})) /\
  (forall parsedBody,
      let res := RemoveTeamFromOrg.handler prismaMessage session parsedBody s in
      res.1 = s /\
      (status res.2 = 403 \/
       exists error, parsedBody = ParseFailure error /\
                     res.2 = {| status := 400; message := error |})) /\
  (forall parsedBody,
      let res := RemoveUserFromOrg.handler prismaMessage now session parsedBody s in
      res.1 = s /\ status res.2 = 403).
Proof.
  assert (Hadmin : forall session', session = Some session' ->
            bool_decide (user_role session' = UserPermissionRole.ADMIN) = false)
    by (intros session' E; apply bool_decide_eq_false_2; by apply Hnot).
  split; [|split]; intros parsedBody res; subst res.
  - unfold MoveTeamToOrg.handler.
    destruct session as [session'|]; [|split; [done|by left]].
    rewrite (Hadmin session' eq_refl). cbn [negb].
    destruct parsedBody as [data|error]; cbn; (split; [done|]); [by left|right; eauto].
  - unfold RemoveTeamFromOrg.handler.
    destruct session as [session'|]; [|split; [done|by left]].
    rewrite (Hadmin session' eq_refl). cbn [negb].
    destruct parsedBody as [data|error]; cbn; (split; [done|]); [by left|right; eauto].
  - unfold RemoveUserFromOrg.handler.
    destruct session as [session'|]; [|by split].
    rewrite (Hadmin session' eq_refl). by split.
Qed.

(** X26.  Each of the three handlers answers 200 exactly when the session
    is an administrator's, the body parsed, and the operation ran to
    completion: no error the operations throw carries the status 200. *)
Theorem handlers_answer_200_when_done
    (now : string) (session : option Session) (s : Store) :
  (forall parsedBody,
      status (MoveTeamToOrg.handler getOrgFullOrigin getOrgUsernameFromEmail
                prismaMessage now session parsedBody s).2 = 200 <->
      exists session' data,
        session = Some session' /\ user_role session' = UserPermissionRole.ADMIN /\
        parsedBody = ParseSuccess data /\
        (MoveTeamToOrg.moveTeamToOrg getOrgFullOrigin getOrgUsernameFromEmail now
           (MoveTeamToOrg.targetOrgId data) (MoveTeamToOrg.teamId data)
           (MoveTeamToOrg.moveMembers data) s).2 = Ok tt) /\
  (forall parsedBody,
      status (RemoveTeamFromOrg.handler prismaMessage session parsedBody s).2 = 200 <->
      exists session' data,
        session = Some session' /\ user_role session' = UserPermissionRole.ADMIN /\
        parsedBody = ParseSuccess data /\
        (RemoveTeamFromOrg.removeTeamFromOrg
           (RemoveTeamFromOrg.targetOrgId data) (RemoveTeamFromOrg.teamId data) s).2
          = Ok tt) /\
  (forall parsedBody,
      status (RemoveUserFromOrg.handler prismaMessage now session parsedBody s).2 = 200 <->
      exists session' data,
        session = Some session' /\ user_role session' = UserPermissionRole.ADMIN /\
        parsedBody = ParseSuccess data /\
        (RemoveUserFromOrg.removeFromOrg now
           (RemoveUserFromOrg.targetOrgId data) (RemoveUserFromOrg.userId data) s).2
          = Ok tt).
Proof.
  split; [|split]; intros parsedBody.
  - unfold MoveTeamToOrg.handler. split.
    + destruct session as [session'|]; [|done].
      case_bool_decide as Hadmin; cbn [negb].
      2:{ by destruct parsedBody. }
      destruct parsedBody as [data|error]; [|done].
      destruct (MoveTeamToOrg.moveTeamToOrg _ _ _ _ _ _ s) as [s' [[]|e]] eqn:Hrun.
      * intros _. exists session', data. by rewrite Hrun.
      * assert (Hthrow : (MoveTeamToOrg.moveTeamToOrg getOrgFullOrigin
                            getOrgUsernameFromEmail now (MoveTeamToOrg.targetOrgId data)
                            (MoveTeamToOrg.teamId data) (MoveTeamToOrg.moveMembers data)
                            s).2 = Throw e) by (by rewrite Hrun).
        destruct (moveTeam_error_class _ _ _ _ _ _ Hthrow) as [[m ->]|[->| ->]]; done.
    + intros (session' & data & -> & Hadmin & -> & Hok).
      rewrite bool_decide_eq_true_2 by done. cbn [negb].
      destruct (MoveTeamToOrg.moveTeamToOrg _ _ _ _ _ _ s) as [s' [[]|e]]; done.
  - unfold RemoveTeamFromOrg.handler. split.
    + destruct session as [session'|]; [|done].
      case_bool_decide as Hadmin; cbn [negb].
      2:{ by destruct parsedBody. }
      destruct parsedBody as [data|error]; [|done].
      destruct (RemoveTeamFromOrg.removeTeamFromOrg _ _ s) as [s' [[]|e]] eqn:Hrun.
      * intros _. exists session', data. by rewrite Hrun.
      * assert (Hthrow : (RemoveTeamFromOrg.removeTeamFromOrg
                            (RemoveTeamFromOrg.targetOrgId data)
                            (RemoveTeamFromOrg.teamId data) s).2 = Throw e)
          by (by rewrite Hrun).
        destruct (removeTeam_error_class _ _ _ _ Hthrow) as [[m ->]| ->]; done.
    + intros (session' & data & -> & Hadmin & -> & Hok).
      rewrite bool_decide_eq_true_2 by done. cbn [negb].
      destruct (RemoveTeamFromOrg.removeTeamFromOrg _ _ s) as [s' [[]|e]]; done.
  - unfold RemoveUserFromOrg.handler. split.
    + destruct session as [session'|]; [|done].
      case_bool_decide as Hadmin; cbn [negb]; [|done].
      destruct parsedBody as [data|error]; [|done].
      destruct (RemoveUserFromOrg.removeFromOrg _ _ _ s) as [s' [[]|e]] eqn:Hrun.
      * intros _. exists session', data. by rewrite Hrun.
      * assert (Hthrow : (RemoveUserFromOrg.removeFromOrg now
                            (RemoveUserFromOrg.targetOrgId data)
                            (RemoveUserFromOrg.userId data) s).2 = Throw e)
          by (by rewrite Hrun).
        destruct (removeFromOrg_throw now _ _ s e Hthrow)
          as [(c & m & -> & [->| ->] & _)|[(-> & _)|(-> & _)]]; done.
    + intros (session' & data & -> & Hadmin & -> & Hok).
      rewrite bool_decide_eq_true_2 by done. cbn [negb].
      destruct (RemoveUserFromOrg.removeFromOrg _ _ _ s) as [s' [[]|e]]; done.
Qed.

End Errors.

Section UserHandler.
Variable prismaMessage : exn -> string.


End UserHandler.

(** ** The further properties at the directory *)

Lemma removeTeamFromOrg_inside_org_witness :
  teams migrated !! 12 = Some (reparent (Some 3) eng) /\
  (let res := RemoveTeamFromOrg.removeTeamFromOrg 3 12 migrated in
   res.2 = Ok tt /\ teams res.1 !! 12 = Some eng /\
   redirects res.1 !! (RedirectType.Team, "eng", 0) = None).
Proof.
  assert (Ht : teams migrated !! 12 = Some (reparent (Some 3) eng))
    by (vm_compute; reflexivity).
  assert (Hok : (RemoveTeamFromOrg.removeTeamFromOrg 3 12 migrated).2 = Ok tt)
    by (vm_compute; reflexivity).
  split; [exact Ht|].
  destruct (removeTeamFromOrg_inside_org 3 12 migrated _ Ht eq_refl)
    as (_ & _ & Hdone & _).
  destruct (Hdone Hok) as (_ & Hts & Hr).
  cbv zeta. split; [exact Hok|]. split.
  - rewrite Hts. by rewrite lookup_insert_eq.
  - rewrite Hr. apply lookup_delete_eq.
Defined.

Lemma removeTeamFromOrg_twice_witness :
  (RemoveTeamFromOrg.removeTeamFromOrg 3 12 migrated).2 = Ok tt /\
  (let first := RemoveTeamFromOrg.removeTeamFromOrg 3 12 migrated in
   RemoveTeamFromOrg.removeTeamFromOrg 3 12 first.1 = (first.1, Ok tt)).
Proof.
  assert (Hok : (RemoveTeamFromOrg.removeTeamFromOrg 3 12 migrated).2 = Ok tt)
    by (vm_compute; reflexivity).
  split; [exact Hok|]. exact (removeTeamFromOrg_twice 3 12 migrated Hok).
Defined.

Lemma removeFromOrg_reverts_user_witness :
  users migrated !! 7 = Some alice_migrated /\
  (RemoveUserFromOrg.removeFromOrg tuesday 3 7 migrated).2 = Ok tt /\
  (let res := RemoveUserFromOrg.removeFromOrg tuesday 3 7 migrated in
   (username <$> users res.1 !! 7 = Some (Some "alice")) /\
   (organizationId <$> users res.1 !! 7 = Some None) /\
   memberships res.1 !! (7, 3) = None).
Proof.
  assert (Hu : users migrated !! 7 = Some alice_migrated) by (vm_compute; reflexivity).
  assert (Hok : (RemoveUserFromOrg.removeFromOrg tuesday 3 7 migrated).2 = Ok tt)
    by (vm_compute; reflexivity).
  split; [exact Hu|]. split; [exact Hok|].
  destruct (removeFromOrg_reverts_user tuesday 3 7 migrated alice_migrated Hu Hok)
    as (n & Hn & _ & Hus & _ & Hms).
  injection Hn as <-. cbv zeta.
  rewrite Hus, Hms, lookup_insert_eq, lookup_delete_eq. by repeat split.
Defined.

Lemma removeFromOrg_detaches_teams_witness :
  users migrated !! 7 = Some alice_migrated /\
  (RemoveUserFromOrg.removeFromOrg tuesday 3 7 migrated).2 = Ok tt /\
  teams migrated !! 12 = Some (reparent (Some 3) eng) /\
  (let res := RemoveUserFromOrg.removeFromOrg tuesday 3 7 migrated in
   teams res.1 !! 12 = Some eng /\
   redirects res.1 !! (RedirectType.Team, "eng", 0) = None /\
   teams res.1 !! 3 = Some acme_slugged /\
   redirects res.1 !! (RedirectType.User, "alice", 0) = None).
Proof.
  assert (Hu : users migrated !! 7 = Some alice_migrated) by (vm_compute; reflexivity).
  assert (Hok : (RemoveUserFromOrg.removeFromOrg tuesday 3 7 migrated).2 = Ok tt)
    by (vm_compute; reflexivity).
  assert (Ht : teams migrated !! 12 = Some (reparent (Some 3) eng))
    by (vm_compute; reflexivity).
  assert (Ho : teams migrated !! 3 = Some acme_slugged) by (vm_compute; reflexivity).
  split; [exact Hu|]. split; [exact Hok|]. split; [exact Ht|].
  destruct (removeFromOrg_detaches_teams tuesday 3 7 migrated alice_migrated Hu Hok)
    as (Hmine & Horgs & _ & _ & Huser & _).
  cbv zeta.
  destruct (Hmine 12 _ Ht) as [H12 Hr12]; [exists member; vm_compute; reflexivity|done|].
  split; [exact H12|]. split; [by apply Hr12|].
  split; [by apply (Horgs 3 acme_slugged Ho)|]. by apply Huser.
Defined.

Lemma removeFromOrg_second_call_witness :
  (RemoveUserFromOrg.removeFromOrg monday 3 7 migrated).2 = Ok tt /\
  (let first := RemoveUserFromOrg.removeFromOrg monday 3 7 migrated in
   RemoveUserFromOrg.removeFromOrg tuesday 3 7 first.1 =
     (first.1, Throw (HttpError 400 "User with id: 7 is not part of orgId: 3"))).
Proof.
  assert (Hok : (RemoveUserFromOrg.removeFromOrg monday 3 7 migrated).2 = Ok tt)
    by (vm_compute; reflexivity).
  split; [exact Hok|].
  exact (removeFromOrg_second_call monday tuesday 3 7 migrated Hok).
Defined.

Lemma migrateUserToOrg_errors_witness :
  (migrate monday carolById directory).2 =
    Throw (HttpError 400 "User is already a part of an organization") /\
  (migrate monday byName two_alices).2 =
    Throw (Error "More than one user found with username: alice") /\
  ("More than one user found with username: alice" = "3 is not an Org" \/
   "More than one user found with username: alice" =
     "More than one user found with username: alice") /\
  responseStatus (Error "More than one user found with username: alice") = 500.
Proof.
  assert (H1 : (migrate monday carolById directory).2 =
               Throw (HttpError 400 "User is already a part of an organization"))
    by (vm_compute; reflexivity).
  assert (H2 : (migrate monday byName two_alices).2 =
               Throw (Error "More than one user found with username: alice"))
    by (vm_compute; reflexivity).
  split; [exact H1|]. split; [exact H2|].
  destruct (migrateUserToOrg_errors origin usernameFromEmail monday byName two_alices)
    as [_ Hplain].
  exact (Hplain _ H2).
Defined.

Lemma migrateUserToOrg_failure_leaves_store_witness :
  (migrate monday byId unslugged).2 =
    Throw (HttpError 400 "Org with id: 3 doesn't have a slug. Tried using requestedSlug but that's also not present. So, all migration done but failed to set the Organization slug. Please set it manually") /\
  (let res := migrate monday byId unslugged in
   res.1 ≠ unslugged /\
   redirects res.1 = redirects unslugged /\
   exists uid u,
     candidate byId unslugged = Ok (Some (uid, u)) /\
     organizationId <$> users res.1 !! uid = Some (Some 3) /\
     memberships res.1 !! (uid, 3) = Some member) /\
  (migrate monday byName two_alices).1 = two_alices.
Proof.
  assert (H : (migrate monday byId unslugged).2 =
    Throw (HttpError 400 "Org with id: 3 doesn't have a slug. Tried using requestedSlug but that's also not present. So, all migration done but failed to set the Organization slug. Please set it manually"))
    by (vm_compute; reflexivity).
  assert (H2 : (migrate monday byName two_alices).2 =
               Throw (Error "More than one user found with username: alice"))
    by (vm_compute; reflexivity).
  assert (Hne : (migrate monday byId unslugged).1 ≠ unslugged).
  { intros E. apply (f_equal (fun st => organizationId <$> users st !! 7)) in E.
    vm_compute in E. discriminate. }
  split; [exact H|]. cbv zeta.
  destruct (migrateUserToOrg_failure_leaves_store origin usernameFromEmail monday byId
              unslugged) as [_ Hhttp].
  destruct (migrateUserToOrg_failure_leaves_store origin usernameFromEmail monday byName
              two_alices) as [Hplain _].
  split; [|exact (Hplain _ H2)].
  split; [exact Hne|].
  destruct (Hhttp _ _ H) as [Hsame|(_ & Hr & Hrest)]; [done|].
  split; [exact Hr|exact Hrest].
Defined.

Lemma migrateUserToOrg_moves_user_witness :
  teams directory !! 3 = Some acme /\
  candidate byId directory = Ok (Some (7, alice)) /\
  (migrate monday byId directory).2 = Ok tt /\
  users migrated !! 7 = Some alice_migrated /\
  memberships migrated !! (7, 3) = Some member.
Proof.
  assert (Ho : teams directory !! 3 = Some acme) by (vm_compute; reflexivity).
  assert (Hc : candidate byId directory = Ok (Some (7, alice)))
    by (vm_compute; reflexivity).
  assert (Hm : (migrate monday byId directory).2 = Ok tt) by (vm_compute; reflexivity).
  split; [exact Ho|]. split; [exact Hc|]. split; [exact Hm|].
  destruct (migrateUserToOrg_moves_user origin usernameFromEmail monday byId directory
              acme 7 alice Ho Hc Hm) as (_ & Hus & Hms).
  unfold migrated, migrate. rewrite Hus, Hms, !lookup_insert_eq. by split.
Defined.

Lemma migrateUserToOrg_relocates_teams_witness :
  teams directory !! 3 = Some acme /\
  candidate byId directory = Ok (Some (7, alice)) /\
  (migrate monday byId directory).2 = Ok tt /\
  teams migrated !! 12 = Some (reparent (Some 3) eng) /\
  teams migrated !! 5 = Some sales /\
  teams migrated !! 3 = Some acme_slugged.
Proof.
  assert (Ho : teams directory !! 3 = Some acme) by (vm_compute; reflexivity).
  assert (Hc : candidate byId directory = Ok (Some (7, alice)))
    by (vm_compute; reflexivity).
  assert (Hm : (migrate monday byId directory).2 = Ok tt) by (vm_compute; reflexivity).
  split; [exact Ho|]. split; [exact Hc|]. split; [exact Hm|].
  destruct (migrateUserToOrg_relocates_teams origin usernameFromEmail monday byId
              directory acme 7 alice Ho Hc Hm) as (Hmine & _ & Hothers & _ & Htarget).
  split; [|split].
  - apply (Hmine 12 eng); [vm_compute; reflexivity| |reflexivity].
    exists member. vm_compute. reflexivity.
  - unfold migrated, migrate. rewrite (Hothers 5); [vm_compute; reflexivity|done|].
    vm_compute. reflexivity.
  - exact Htarget.
Defined.

Lemma migrateUserToOrg_redirects_witness :
  teams directory !! 3 = Some acme /\
  candidate byId directory = Ok (Some (7, alice)) /\
  (migrate monday byId directory).2 = Ok tt /\
  redirects migrated !! (RedirectType.User, "alice", 0) =
    Some "https://acme.cal.com/alice" /\
  redirects migrated !! (RedirectType.Team, "eng", 0) =
    Some "https://acme.cal.com/team/eng" /\
  redirects migrated !! (RedirectType.User, "bob", 0) =
    redirects directory !! (RedirectType.User, "bob", 0).
Proof.
  assert (Ho : teams directory !! 3 = Some acme) by (vm_compute; reflexivity).
  assert (Hc : candidate byId directory = Ok (Some (7, alice)))
    by (vm_compute; reflexivity).
  assert (Hm : (migrate monday byId directory).2 = Ok tt) by (vm_compute; reflexivity).
  split; [exact Ho|]. split; [exact Hc|]. split; [exact Hm|].
  destruct (migrateUserToOrg_redirects origin usernameFromEmail monday byId directory
              acme 7 alice Ho Hc Hm) as (_ & Huser & Hteams & Hother & _).
  split; [exact Huser|]. split.
  - apply (Hteams 12 eng); [vm_compute; reflexivity| |reflexivity|reflexivity].
    exists member. vm_compute. reflexivity.
  - apply (Hother "bob"). discriminate.
Defined.

Lemma migrateUserToOrg_user_not_found_witness :
  teams directory !! 3 = Some acme /\
  is_organization (team_metadata acme) = true /\
  users directory !! 99 = None /\
  migrate monday nobody directory =
    (directory, Throw (HttpError 400 "User ID:99 is part of an org already")) /\
  migrate monday (designate byId None (Some "carol")) directory =
    (directory, Throw (HttpError 400 "User carol is part of an org already")).
Proof.
  assert (Ho : teams directory !! 3 = Some acme) by (vm_compute; reflexivity).
  assert (Hu : users directory !! 99 = None) by (vm_compute; reflexivity).
  split; [exact Ho|]. split; [reflexivity|]. split; [exact Hu|].
  split.
  - destruct (migrateUserToOrg_user_not_found origin usernameFromEmail monday nobody
                directory acme Ho eq_refl) as [Hid _].
    apply (Hid 99); [reflexivity|discriminate|unfold Int_range; lia|reflexivity|exact Hu].
  - destruct (migrateUserToOrg_user_not_found origin usernameFromEmail monday
                (designate byId None (Some "carol")) directory acme Ho eq_refl)
      as [_ Hname].
    apply (Hname "carol"); [reflexivity|discriminate|reflexivity|].
    intros j v Hj Hv.
    assert (Hin : (j, v) ∈ map_to_list (users directory))
      by (by apply elem_of_map_to_list).
    vm_compute in Hin.
    repeat (apply elem_of_cons in Hin as [Hin|Hin];
            [injection Hin as -> ->; first [discriminate Hv | by split]|]).
    by apply not_elem_of_nil in Hin.
Defined.

Lemma getUniqueUser_by_userName_witness :
  "alice" ≠ "" /\
  (OrgMigration.getUniqueUserThatDoesntBelongToOrg (Some "alice") None 3 directory).2
    = Ok (Some (7, alice)) /\
  (forall j v, users directory !! j = Some v -> username v = Some "alice" ->
               organizationId v = Some 3 \/ organizationId v = None -> j = 7).
Proof.
  assert (Hne : "alice" ≠ "") by discriminate.
  assert (Hc : (OrgMigration.getUniqueUserThatDoesntBelongToOrg (Some "alice") None 3
                  directory).2 = Ok (Some (7, alice))) by (vm_compute; reflexivity).
  split; [exact Hne|]. split; [exact Hc|].
  destruct (proj1 (getUniqueUser_by_userName "alice" None 3 directory 7 alice Hne) Hc)
    as (_ & _ & _ & Huniq).
  exact Huniq.
Defined.

Lemma remigration_guard_is_subsumed_witness :
  OrgMigration.assertUserPartOfOtherOrg (Some (8, bob)) None (Some 8) 3 directory
    = (directory, Ok (8, bob)) /\
  OrgMigration.assertUserPartOfOrgAndRemigrationAllowed (8, bob) 3 "bob" (Some 8)
    directory = (directory, Ok tt).
Proof.
  assert (H : OrgMigration.assertUserPartOfOtherOrg (Some (8, bob)) None (Some 8) 3
                directory = (directory, Ok (8, bob))) by reflexivity.
  split; [exact H|].
  exact (remigration_guard_is_subsumed (8, bob) (8, bob) None (Some 8) 3 "bob"
           directory directory H).
Defined.

Lemma moveTeamToOrg_without_members_witness :
  12 ≠ 3 /\ teams directory !! 3 = Some acme /\
  is_organization (team_metadata acme) = true /\
  teams directory !! 12 = Some eng /\ truthy_string (slug eng) = true /\
  (let res := moveTeam monday 3 12 None directory in
   res.2 = Ok tt /\
   users res.1 = users directory /\ memberships res.1 = memberships directory /\
   teams res.1 !! 12 = Some (reparent (Some 3) eng) /\
   teams res.1 !! 3 = Some acme_slugged /\
   redirects res.1 !! (RedirectType.Team, "eng", 0) = Some "https://acme.cal.com/eng").
Proof.
  assert (Hne : 12 ≠ 3) by discriminate.
  assert (Ho : teams directory !! 3 = Some acme) by (vm_compute; reflexivity).
  assert (Ht : teams directory !! 12 = Some eng) by (vm_compute; reflexivity).
  assert (Hok : (moveTeam monday 3 12 None directory).2 = Ok tt)
    by (vm_compute; reflexivity).
  split; [exact Hne|]. split; [exact Ho|]. split; [reflexivity|].
  split; [exact Ht|]. split; [reflexivity|].
  destruct (moveTeamToOrg_without_members origin usernameFromEmail monday 3 12 None
              directory acme eng Hne Ho eq_refl Ht eq_refl eq_refl)
    as (Hus & Hms & _ & Hdone & _).
  destruct (Hdone Hok) as (_ & Htt & Hto & Hr).
  cbv zeta. split; [exact Hok|]. split; [exact Hus|]. split; [exact Hms|].
  split; [exact Htt|]. split; [exact Hto|].
  unfold moveTeam. rewrite Hr. by rewrite lookup_insert_eq.
Defined.

Lemma moveTeamToOrg_twice_witness :
  12 ≠ 3 /\ truthy_bool None = false /\
  (moveTeam monday 3 12 None directory).2 = Ok tt /\
  (let first := moveTeam monday 3 12 None directory in
   moveTeam tuesday 3 12 None first.1 = (first.1, Ok tt)).
Proof.
  assert (Hne : 12 ≠ 3) by discriminate.
  assert (Hok : (moveTeam monday 3 12 None directory).2 = Ok tt)
    by (vm_compute; reflexivity).
  split; [exact Hne|]. split; [reflexivity|]. split; [exact Hok|].
  exact (moveTeamToOrg_twice origin usernameFromEmail monday tuesday 3 12 None directory
           Hne eq_refl Hok).
Defined.

Lemma moveTeamToOrg_then_removeTeamFromOrg_witness :
  12 ≠ 3 /\ teams directory !! 12 = Some eng /\
  (moveTeam monday 3 12 None directory).2 = Ok tt /\
  (let moved := (moveTeam monday 3 12 None directory).1 in
   let res := RemoveTeamFromOrg.removeTeamFromOrg 3 12 moved in
   res.2 = Ok tt /\ teams res.1 !! 12 = Some eng /\
   users res.1 = users directory /\ memberships res.1 = memberships directory /\
   redirects res.1 !! (RedirectType.Team, "eng", 0) = None).
Proof.
  assert (Hne : 12 ≠ 3) by discriminate.
  assert (Ht : teams directory !! 12 = Some eng) by (vm_compute; reflexivity).
  assert (Hok : (moveTeam monday 3 12 None directory).2 = Ok tt)
    by (vm_compute; reflexivity).
  assert (Hback : (RemoveTeamFromOrg.removeTeamFromOrg 3 12
                     (moveTeam monday 3 12 None directory).1).2 = Ok tt)
    by (vm_compute; reflexivity).
  split; [exact Hne|]. split; [exact Ht|]. split; [exact Hok|].
  destruct (moveTeamToOrg_then_removeTeamFromOrg origin usernameFromEmail monday 3 12
              None directory eng Hne Ht eq_refl Hok Hback)
    as (Hus & Hms & Htt & _ & Hr).
  cbv zeta. split; [exact Hback|]. split; [exact Htt|]. split; [exact Hus|].
  split; [exact Hms|]. unfold moveTeam. rewrite Hr. apply lookup_delete_eq.
Defined.

Lemma moveTeamToOrg_moves_members_witness :
  12 ≠ 3 /\ teams directory !! 3 = Some acme /\
  users directory !! 7 = Some alice /\
  memberships directory !! (7, 12) = Some member /\
  (moveTeam monday 3 12 (Some true) directory).2 = Ok tt /\
  (let res := moveTeam monday 3 12 (Some true) directory in
   (exists u', users res.1 !! 7 = Some u' /\ organizationId u' = Some 3 /\
               email u' = "alice@acme.com" /\ username u' = Some "alice") /\
   memberships res.1 !! (7, 3) = Some member /\
   memberships res.1 !! (7, 12) = Some member).
Proof.
  assert (Hne : 12 ≠ 3) by discriminate.
  assert (Ho : teams directory !! 3 = Some acme) by (vm_compute; reflexivity).
  assert (Hu : users directory !! 7 = Some alice) by (vm_compute; reflexivity).
  assert (Hm : memberships directory !! (7, 12) = Some member)
    by (vm_compute; reflexivity).
  assert (Hok : (moveTeam monday 3 12 (Some true) directory).2 = Ok tt)
    by (vm_compute; reflexivity).
  split; [exact Hne|]. split; [exact Ho|]. split; [exact Hu|]. split; [exact Hm|].
  split; [exact Hok|].
  exact (moveTeamToOrg_moves_members origin usernameFromEmail monday 3 12 (Some true)
           directory acme 7 alice member Hne eq_refl Ho Hu Hm Hok).
Defined.

Lemma moveTeamToOrg_members_rewrite_redirect_witness :
  12 ≠ 3 /\ teams directory !! 3 = Some acme /\ teams directory !! 12 = Some eng /\
  is_organization (team_metadata eng) = false /\
  memberships directory !! (7, 12) = Some member /\
  (moveTeam monday 3 12 (Some true) directory).2 = Ok tt /\
  (moveTeam monday 3 12 None directory).2 = Ok tt /\
  redirects (moveTeam monday 3 12 (Some true) directory).1
    !! (RedirectType.Team, "eng", 0) = Some "https://acme.cal.com/team/eng" /\
  redirects (moveTeam monday 3 12 None directory).1
    !! (RedirectType.Team, "eng", 0) = Some "https://acme.cal.com/eng".
Proof.
  assert (Hne : 12 ≠ 3) by discriminate.
  assert (Ho : teams directory !! 3 = Some acme) by (vm_compute; reflexivity).
  assert (Ht : teams directory !! 12 = Some eng) by (vm_compute; reflexivity).
  assert (Hm : memberships directory !! (7, 12) = Some member)
    by (vm_compute; reflexivity).
  assert (Hok : (moveTeam monday 3 12 (Some true) directory).2 = Ok tt)
    by (vm_compute; reflexivity).
  assert (Hok' : (moveTeam monday 3 12 None directory).2 = Ok tt)
    by (vm_compute; reflexivity).
  split; [exact Hne|]. split; [exact Ho|]. split; [exact Ht|]. split; [reflexivity|].
  split; [exact Hm|]. split; [exact Hok|]. split; [exact Hok'|]. split.
  - exact (moveTeamToOrg_members_rewrite_redirect origin usernameFromEmail monday 3 12
             (Some true) directory acme eng 7 member Hne Ho Ht eq_refl Hm Hok).
  - exact (moveTeamToOrg_members_rewrite_redirect origin usernameFromEmail monday 3 12
             None directory acme eng 7 member Hne Ho Ht eq_refl Hm Hok').
Defined.

Lemma handlers_require_admin_witness :
  user_role visitor ≠ UserPermissionRole.ADMIN /\
  MoveTeamToOrg.handler origin usernameFromEmail clientMessage monday (Some visitor)
    (ParseSuccess {| MoveTeamToOrg.teamId := 12; MoveTeamToOrg.targetOrgId := 3;
                     MoveTeamToOrg.moveMembers := None |}) directory
    = (directory, {| status := 403; message := "Not Authorized" |}) /\
  (RemoveUserFromOrg.handler clientMessage monday (Some visitor)
     (ParseFailure "[]") directory).1 = directory /\
  status (RemoveUserFromOrg.handler clientMessage monday (Some visitor)
            (ParseFailure "[]") directory).2 = 403 /\
  (RemoveTeamFromOrg.handler clientMessage None
     (ParseSuccess {| RemoveTeamFromOrg.teamId := 5;
                      RemoveTeamFromOrg.targetOrgId := 3 |}) directory).1 = directory.
Proof.
  assert (Hv : user_role visitor ≠ UserPermissionRole.ADMIN) by discriminate.
  assert (Hnot : forall session', Some visitor = Some session' ->
                                  user_role session' ≠ UserPermissionRole.ADMIN)
    by (intros session' [= <-]; exact Hv).
  assert (Hnone : forall session', @None Session = Some session' ->
                                   user_role session' ≠ UserPermissionRole.ADMIN)
    by (intros session' [=]).
  split; [exact Hv|].
  destruct (handlers_require_admin origin usernameFromEmail clientMessage monday
              (Some visitor) directory Hnot) as (Hmove & _ & Huser).
  destruct (handlers_require_admin origin usernameFromEmail clientMessage monday
              None directory Hnone) as (_ & Hteam & _).
  split; [reflexivity|].
  destruct (Huser (ParseFailure "[]")) as [Hs Hst].
  split; [exact Hs|]. split; [exact Hst|].
  by destruct (Hteam (ParseSuccess {| RemoveTeamFromOrg.teamId := 5;
                                      RemoveTeamFromOrg.targetOrgId := 3 |})).
Defined.


Lemma standalone_user_by_name_or_by_id_witness :
  truthy_string (OrgMigration.userName byName) = true /\
  OrgMigration.userId byName = None /\
  candidate byName directory = Ok (Some (7, alice)) /\
  organizationId alice = None /\ 7 ≠ 0 /\
  (migrate monday byName directory).2 = Ok tt /\
  (migrate monday (designate byName (Some 7) None) directory).2 = Ok tt /\
  (migrate monday byName directory).1 =
    (migrate monday (designate byName (Some 7) None) directory).1.
Proof.
  assert (Hc : candidate byName directory = Ok (Some (7, alice)))
    by (vm_compute; reflexivity).
  assert (Hok : (migrate monday byName directory).2 = Ok tt)
    by (vm_compute; reflexivity).
  assert (H7 : 7 ≠ 0) by discriminate.
  destruct (standalone_user_by_name_or_by_id origin usernameFromEmail monday byName
              directory 7 alice eq_refl eq_refl Hc eq_refl H7) as [Hiff Hsame].
  split; [reflexivity|]. split; [reflexivity|]. split; [exact Hc|].
  split; [reflexivity|]. split; [exact H7|]. split; [exact Hok|].
  split; [by apply Hiff|by apply Hsame].
Defined.

Lemma removeFromOrg_outcomes_witness :
  (let res := RemoveUserFromOrg.removeFromOrg tuesday 3 7 unlinked in
   res.2 = Throw (PrismaClientKnownRequestError "P2025") /\
   memberships unlinked !! (7, 3) = None /\
   memberships res.1 = memberships unlinked /\
   organizationId <$> users res.1 !! 7 = Some None) /\
  (let res := RemoveUserFromOrg.removeFromOrg tuesday 3 8 directory in
   res.2 = Throw (HttpError 400
                    "User with id: 8 wasn't migrated. So, there is nothing to revert") /\
   res.1 = directory) /\
  (let res := RemoveUserFromOrg.removeFromOrg tuesday 3 7 migrated in
   res.2 = Ok tt /\ memberships res.1 !! (7, 3) = None).
Proof.
  assert (Hout : (RemoveUserFromOrg.removeFromOrg tuesday 3 7 unlinked).2 =
                 Throw (PrismaClientKnownRequestError "P2025"))
    by (vm_compute; reflexivity).
  assert (Hbob : (RemoveUserFromOrg.removeFromOrg tuesday 3 8 directory).2 =
                 Throw (HttpError 400
                   "User with id: 8 wasn't migrated. So, there is nothing to revert"))
    by (vm_compute; reflexivity).
  assert (Hok : (RemoveUserFromOrg.removeFromOrg tuesday 3 7 migrated).2 = Ok tt)
    by (vm_compute; reflexivity).
  destruct (removeFromOrg_outcomes tuesday 3 7 unlinked) as (_ & _ & Hmissing).
  destruct (removeFromOrg_outcomes tuesday 3 8 directory) as (_ & Hhttp & _).
  destruct (removeFromOrg_outcomes tuesday 3 7 migrated) as (Hdone & _ & _).
  cbv zeta. split; [|split].
  - split; [exact Hout|]. exact (Hmissing Hout).
  - split; [exact Hbob|]. exact (proj1 (Hhttp _ _ Hbob)).
  - split; [exact Hok|]. exact (proj1 (proj2 (Hdone Hok))).
Defined.

Lemma migrateUserToOrg_keeps_rows_witness :
  users directory !! 8 = Some bob /\
  redirects directory !! (RedirectType.Team, "sales", 0) =
    Some "https://globex.cal.com/team/sales" /\
  is_Some (users migrated !! 8) /\
  is_Some (redirects migrated !! (RedirectType.Team, "sales", 0)) /\
  (is_Some (teams migrated !! 77) <-> is_Some (teams directory !! 77)).
Proof.
  assert (Hu : users directory !! 8 = Some bob) by (vm_compute; reflexivity).
  assert (Hr : redirects directory !! (RedirectType.Team, "sales", 0) =
               Some "https://globex.cal.com/team/sales") by (vm_compute; reflexivity).
  destruct (migrateUserToOrg_keeps_rows origin usernameFromEmail monday byId directory)
    as (Hus & Hts & _ & Hrs).
  split; [exact Hu|]. split; [exact Hr|]. split; [|split].
  - apply Hus. rewrite Hu. eauto.
  - apply Hrs. rewrite Hr. eauto.
  - apply Hts.
Defined.

Lemma team_flows_errors_witness :
  (moveTeam monday 5 12 None directory).2 = Throw (Error "5 is not an Org") /\
  (RemoveTeamFromOrg.removeTeamFromOrg 3 13 directory).2 =
    Throw (HttpError 400 "No slug for team. Not removing the redirect") /\
  "5 is not an Org" = pretty 5 +:+ " is not an Org" /\
  responseStatus (Error "5 is not an Org") = 500.
Proof.
  assert (H1 : (moveTeam monday 5 12 None directory).2 = Throw (Error "5 is not an Org"))
    by (vm_compute; reflexivity).
  assert (H2 : (RemoveTeamFromOrg.removeTeamFromOrg 3 13 directory).2 =
               Throw (HttpError 400 "No slug for team. Not removing the redirect"))
    by (vm_compute; reflexivity).
  split; [exact H1|]. split; [exact H2|].
  destruct (team_flows_errors origin usernameFromEmail monday 5 12 None directory)
    as (_ & Hplain & _).
  exact (Hplain _ H1).
Defined.

Lemma missing_rows_are_reported_witness :
  Int_range 77 /\ Int_range 99 /\
  teams directory !! 77 = None /\ users directory !! 99 = None /\
  moveTeam monday 77 12 None directory =
    (directory, Throw (HttpError 400 "Org with id: 77 not found")) /\
  moveTeam monday 3 77 None directory =
    (directory, Throw (HttpError 400 "Team with id: 77 not found")) /\
  RemoveTeamFromOrg.removeTeamFromOrg 3 77 directory =
    (directory, Throw (HttpError 400 "Team with id: 77 not found")) /\
  RemoveUserFromOrg.removeFromOrg monday 3 99 directory =
    (directory, Throw (HttpError 400 "User with id: 99 not found")).
Proof.
  assert (H77 : Int_range 77) by (unfold Int_range; lia).
  assert (H99 : Int_range 99) by (unfold Int_range; lia).
  assert (Ht : teams directory !! 77 = None) by (vm_compute; reflexivity).
  assert (Hu : users directory !! 99 = None) by (vm_compute; reflexivity).
  assert (Ho : is_Some (teams directory !! 3)) by (vm_compute; eauto).
  destruct (missing_rows_are_reported origin usernameFromEmail monday directory)
    as (_ & Horg & Hteam & Hremove & Huser).
  split; [exact H77|]. split; [exact H99|].
  split; [exact Ht|]. split; [exact Hu|].
  split; [exact (Horg 77 12 None H77 Ht)|]. split; [exact (Hteam 3 77 None Ho H77 Ht)|].
  split; [exact (Hremove 3 77 H77 Ht)|exact (Huser 3 99 H99 Hu)].
Defined.

Lemma handlers_answer_200_when_done_witness :
  (RemoveTeamFromOrg.removeTeamFromOrg 3 5 directory).2 = Ok tt /\
  status (RemoveTeamFromOrg.handler clientMessage (Some admin)
            (ParseSuccess {| RemoveTeamFromOrg.teamId := 5;
                             RemoveTeamFromOrg.targetOrgId := 3 |}) directory).2 = 200 /\
  (moveTeam monday 5 12 None directory).2 ≠ Ok tt /\
  status (MoveTeamToOrg.handler origin usernameFromEmail clientMessage monday
            (Some admin)
            (ParseSuccess {| MoveTeamToOrg.teamId := 12; MoveTeamToOrg.targetOrgId := 5;
                             MoveTeamToOrg.moveMembers := None |}) directory).2 ≠ 200.
Proof.
  assert (Hok : (RemoveTeamFromOrg.removeTeamFromOrg 3 5 directory).2 = Ok tt)
    by (vm_compute; reflexivity).
  assert (Hno : (moveTeam monday 5 12 None directory).2 ≠ Ok tt)
    by (vm_compute; discriminate).
  destruct (handlers_answer_200_when_done origin usernameFromEmail clientMessage monday
              (Some admin) directory) as (Hmove & Hteam & _).
  split; [exact Hok|]. split; [|split; [exact Hno|]].
  - apply Hteam. eexists admin, _. by repeat split.
  - intros H200. apply Hmove in H200 as (session' & data & _ & _ & [= <-] & Hdone).
    by apply Hno.
Defined.


Lemma migrate_remove_migrate_witness :
  truthy_string (OrgMigration.userName byId) = false /\
  candidate byId directory = Ok (Some (7, alice)) /\
  organizationId alice = None /\
  (migrate monday byId directory).2 = Ok tt /\
  (RemoveUserFromOrg.removeFromOrg tuesday 3 7 migrated).2 = Ok tt /\
  (let s2 := (RemoveUserFromOrg.removeFromOrg tuesday 3 7 migrated).1 in
   (migrate monday byId s2).2 = Ok tt /\
   (migrate monday byId s2).1 = migrated /\
   teams (migrate tuesday byId s2).1 = teams migrated /\
   redirects (migrate tuesday byId s2).1 = redirects migrated).
Proof.
  assert (Hc : candidate byId directory = Ok (Some (7, alice)))
    by (vm_compute; reflexivity).
  assert (Hm : (migrate monday byId directory).2 = Ok tt) by (vm_compute; reflexivity).
  assert (Hr : (RemoveUserFromOrg.removeFromOrg tuesday 3 7 migrated).2 = Ok tt)
    by (vm_compute; reflexivity).
  split; [reflexivity|]. split; [exact Hc|]. split; [reflexivity|].
  split; [exact Hm|]. split; [exact Hr|].
  destruct (migrate_remove_migrate origin usernameFromEmail monday tuesday monday byId
              directory 7 alice eq_refl Hc eq_refl Hm) as (Hok & _ & _ & _ & _ & _ & Hsame).
  destruct (migrate_remove_migrate origin usernameFromEmail monday tuesday tuesday byId
              directory 7 alice eq_refl Hc eq_refl Hm) as (_ & Ht & _ & Hrs & _).
  cbv zeta. split; [exact Hok|]. split; [exact (Hsame eq_refl)|].
  split; [exact Ht|exact Hrs].
Defined.
